(** * PortManager: SSH profile store and command builder

    A shallow embedding of [portmanager.py].  Python objects loaded from the
    JSON stores are values of [pyval]; a dict is an association list in
    insertion order; a raised exception is the [Raise] outcome of the
    monad the function runs in.

    Boundaries of the model:
    - Python floats are absent from [pyval]; a JSON document holding a
      float literal is answered with [Beyond] by the decoder.  A text
      that is not a JSON document is [Malformed], with or without floats
      in it.
    - A Python [str] is a sequence of code points 0..255, one [ascii]
      each.  A store file is a sequence of bytes, read in an encoding in
      which a byte below 128 is the ASCII character and a byte above 127
      is no part of one (UTF-8, Latin-1, cp1252).  A JSON document that
      has a byte above 127 or an escape above 255 in a string is [Beyond]:
      what it holds, and whether it can be decoded, depends on the
      locale.  A byte above 127 outside a string makes the text
      [Malformed] whatever the encoding.
    - The limits of the interpreter are not modelled: integers and the
      nesting of a document are unbounded, where recent interpreters
      raise on an integer of more than [sys.int_max_str_digits] digits
      and on a nesting deeper than the recursion limit.
    - Writing a store file always succeeds.
    - The console holds what goes to the standard output, one entry per
      call of [print]; the traceback that [main] writes to the standard
      error stream is not kept.
    - [main] is embedded from the parsed arguments on: what [argparse]
      makes of a command line, and its own exits, are outside the model.
      A [KeyboardInterrupt] is modelled where the client runs in the
      foreground and nowhere else.
    - Formatting a date is a parameter of the two listings.  A [started]
      text that is not a date makes [show_active] raise [ValueError], a
      class that [exn] does not list: such a run is [Unmodelled]. *)

From Stdlib Require Import List String Ascii ZArith NArith Bool Arith Lia.
From Stdlib Require Import Decimal DecimalString DecimalZ DecimalPos DecimalN.
From Stdlib Require DecimalFacts.
Import ListNotations.
Local Open Scope list_scope.
Local Open Scope string_scope.

(** ** Characters that a string literal cannot hold conveniently *)

Definition dquote : ascii := "034"%char.
Definition squote : ascii := "039"%char.
Definition backslash : ascii := "092"%char.
Definition char_bs : ascii := "008"%char.
Definition char_tab : ascii := "009"%char.
Definition char_nl : ascii := "010"%char.
Definition char_ff : ascii := "012"%char.
Definition char_cr : ascii := "013"%char.

Definition str1 (c : ascii) : string := String c EmptyString.

(** [s[:1] == c] *)
Definition starts_with (c : ascii) (s : string) : bool :=
  match s with
  | String c' _ => Ascii.eqb c' c
  | EmptyString => false
  end.

Definition tail (s : string) : string :=
  match s with
  | String _ s' => s'
  | EmptyString => EmptyString
  end.

(** What follows [p] in [s], when [s] starts with [p]. *)
Fixpoint strip_prefix (p s : string) : option string :=
  match p with
  | EmptyString => Some s
  | String a p' =>
      match s with
      | String b s' => if Ascii.eqb a b then strip_prefix p' s' else None
      | EmptyString => None
      end
  end.

Definition has_prefix (p s : string) : bool :=
  match strip_prefix p s with Some _ => true | None => false end.

(** ** Python values *)

#[local] Set Warnings "-register-all".

Inductive pyval : Type :=
| PNone
| PBool (b : bool)
| PInt (z : Z)
| PStr (s : string)
| PList (items : list pyval)
| PDict (entries : list (string * pyval)).

Definition pydict := list (string * pyval).

(** Exceptions, by class; all of them derive from [Exception]. *)
Inductive exn : Type :=
| KeyError (key : string)
| TypeError
| AttributeError
| OSError (message : string).

(** ** The exception monad of the pure functions *)

Inductive res (A : Type) : Type :=
| Ok (a : A)
| Raise (e : exn).
Arguments Ok {A} a.
Arguments Raise {A} e.

Definition rbind {A B} (m : res A) (f : A -> res B) : res B :=
  match m with
  | Ok a => f a
  | Raise e => Raise e
  end.

Declare Scope res_scope.
Delimit Scope res_scope with res.
Notation "x <- m ;; k" := (rbind m (fun x => k))
  (at level 61, m at next level, right associativity) : res_scope.

(** ** dict operations (insertion order is kept, keys are unique) *)

Fixpoint dict_get (d : pydict) (k : string) : option pyval :=
  match d with
  | [] => None
  | (k', v) :: d' => if String.eqb k k' then Some v else dict_get d' k
  end.

Definition dict_mem (d : pydict) (k : string) : bool :=
  match dict_get d k with Some _ => true | None => false end.

(** [d[k] = v]: an existing key keeps its place, a new one goes last. *)
Fixpoint dict_set (d : pydict) (k : string) (v : pyval) : pydict :=
  match d with
  | [] => [(k, v)]
  | (k', v') :: d' =>
      if String.eqb k k' then (k', v) :: d' else (k', v') :: dict_set d' k v
  end.

(** [del d[k]] for a key that is present. *)
Fixpoint dict_del (d : pydict) (k : string) : pydict :=
  match d with
  | [] => []
  | (k', v') :: d' =>
      if String.eqb k k' then d' else (k', v') :: dict_del d' k
  end.

Definition dict_keys (d : pydict) : list string := map fst d.

(** ** Python operators on loaded values *)

(** [a == b] *)
Fixpoint py_eq (a b : pyval) {struct a} : bool :=
  match a, b with
  | PNone, PNone => true
  | PBool x, PBool y => Bool.eqb x y
  | PBool x, PInt y => Z.eqb (Z.b2z x) y
  | PInt x, PBool y => Z.eqb x (Z.b2z y)
  | PInt x, PInt y => Z.eqb x y
  | PStr x, PStr y => String.eqb x y
  | PList xs, PList ys =>
      (fix go (xs ys : list pyval) {struct xs} : bool :=
         match xs, ys with
         | [], [] => true
         | x :: xs', y :: ys' => py_eq x y && go xs' ys'
         | _, _ => false
         end) xs ys
  | PDict d1, PDict d2 =>
      Nat.eqb (List.length d1) (List.length d2) &&
      (fix go (d : pydict) {struct d} : bool :=
         match d with
         | [] => true
         | (k, v) :: d' =>
             match dict_get d2 k with
             | Some w => py_eq v w
             | None => false
             end && go d'
         end) d1
  | _, _ => false
  end.

(** [bool(v)] *)
Definition py_truthy (v : pyval) : bool :=
  match v with
  | PNone => false
  | PBool b => b
  | PInt z => negb (Z.eqb z 0)
  | PStr s => negb (String.eqb s "")
  | PList l => match l with [] => false | _ => true end
  | PDict d => match d with [] => false | _ => true end
  end.

(** [needle in hay] on two strings: substring test. *)
Fixpoint str_contains (needle hay : string) : bool :=
  String.prefix needle hay
  || match hay with
     | EmptyString => false
     | String _ hay' => str_contains needle hay'
     end.

(** [k in o] for a string [k]. *)
Definition py_contains (k : string) (o : pyval) : res bool :=
  match o with
  | PDict d => Ok (dict_mem d k)
  | PList l => Ok (existsb (py_eq (PStr k)) l)
  | PStr s => Ok (str_contains k s)
  | PNone | PBool _ | PInt _ => Raise TypeError
  end.

(** [o.get(k, default)] *)
Definition py_get (o : pyval) (k : string) (default : pyval) : res pyval :=
  match o with
  | PDict d => Ok match dict_get d k with Some v => v | None => default end
  | _ => Raise AttributeError
  end.

(** [o[k]] for a string [k]. *)
Definition py_getitem (o : pyval) (k : string) : res pyval :=
  match o with
  | PDict d => match dict_get d k with Some v => Ok v | None => Raise (KeyError k) end
  | _ => Raise TypeError
  end.

(** [o[k] = v] for a string [k]; the updated object is returned. *)
Definition py_setitem (o : pyval) (k : string) (v : pyval) : res pyval :=
  match o with
  | PDict d => Ok (PDict (dict_set d k v))
  | _ => Raise TypeError
  end.

(** [del o[k]] for a string [k]. *)
Definition py_delitem (o : pyval) (k : string) : res pyval :=
  match o with
  | PDict d => if dict_mem d k then Ok (PDict (dict_del d k)) else Raise (KeyError k)
  | _ => Raise TypeError
  end.

(** [o.append(x)] *)
Definition py_append (o : pyval) (x : pyval) : res pyval :=
  match o with
  | PList l => Ok (PList (l ++ [x]))
  | _ => Raise AttributeError
  end.

(** [o.keys()] *)
Definition py_keys (o : pyval) : res (list string) :=
  match o with
  | PDict d => Ok (dict_keys d)
  | _ => Raise AttributeError
  end.

(** The items a [for] loop over [o] visits. *)
Definition py_iter (o : pyval) : res (list pyval) :=
  match o with
  | PList l => Ok l
  | PDict d => Ok (map PStr (dict_keys d))
  | PStr s => Ok (map (fun c => PStr (str1 c)) (list_ascii_of_string s))
  | PNone | PBool _ | PInt _ => Raise TypeError
  end.

(** ** [str] and [repr] *)

Definition str_of_Z (z : Z) : string := NilZero.string_of_int (Z.to_int z).

Definition hex_digit (n : N) : ascii :=
  match n with
  | 0 => "0" | 1 => "1" | 2 => "2" | 3 => "3" | 4 => "4" | 5 => "5"
  | 6 => "6" | 7 => "7" | 8 => "8" | 9 => "9" | 10 => "a" | 11 => "b"
  | 12 => "c" | 13 => "d" | 14 => "e" | _ => "f"
  end%N%char.

Definition hex2 (c : ascii) : string :=
  String (hex_digit (N_of_ascii c / 16)) (str1 (hex_digit (N_of_ascii c mod 16))).

(** [str.isprintable] on the code points 0..255. *)
Definition printable (c : ascii) : bool :=
  let n := N_of_ascii c in
  ((32 <=? n) && (n <? 127) || (161 <=? n) && negb (n =? 173))%N.

Definition repr_char (quote c : ascii) : string :=
  if Ascii.eqb c quote || Ascii.eqb c backslash then String backslash (str1 c)
  else if Ascii.eqb c char_tab then String backslash "t"
  else if Ascii.eqb c char_nl then String backslash "n"
  else if Ascii.eqb c char_cr then String backslash "r"
  else if printable c then str1 c
  else String backslash (String "x" (hex2 c)).

Fixpoint str_has (c : ascii) (s : string) : bool :=
  match s with
  | EmptyString => false
  | String c' s' => Ascii.eqb c c' || str_has c s'
  end.

Fixpoint str_concat_map (f : ascii -> string) (s : string) : string :=
  match s with
  | EmptyString => EmptyString
  | String c s' => f c ++ str_concat_map f s'
  end.

Definition repr_str (s : string) : string :=
  let quote := if str_has squote s && negb (str_has dquote s) then dquote else squote in
  String quote (str_concat_map (repr_char quote) s ++ str1 quote).

Fixpoint join (sep : string) (l : list string) : string :=
  match l with
  | [] => EmptyString
  | [x] => x
  | x :: l' => x ++ sep ++ join sep l'
  end.

Fixpoint py_repr (v : pyval) : string :=
  match v with
  | PNone => "None"
  | PBool true => "True"
  | PBool false => "False"
  | PInt z => str_of_Z z
  | PStr s => repr_str s
  | PList l => "[" ++ join ", " (map py_repr l) ++ "]"
  | PDict d =>
      "{" ++ join ", " (map (fun kv => repr_str (fst kv) ++ ": " ++ py_repr (snd kv)) d) ++ "}"
  end.

(** [str(v)], which is also what an f-string field [{v}] renders. *)
Definition py_str (v : pyval) : string :=
  match v with
  | PStr s => s
  | _ => py_repr v
  end.

(** ** The operating system as the command builder sees it *)

Record os_env : Type := {
  (** what [os.path.expanduser] makes of a path that starts with a tilde *)
  expand_tilde : string -> string;
  (** [os.path.exists] *)
  path_exists : string -> bool
}.

(** [os.path.expanduser(path)]: a path that does not start with a tilde is
    returned as it is; anything but a string is a [TypeError]. *)
Definition expanduser (env : os_env) (path : pyval) : res string :=
  match path with
  | PStr s => Ok (if starts_with "~" s then expand_tilde env s else s)
  | _ => Raise TypeError
  end.

(** ** Command builder *)

Section Build.
Local Open Scope res_scope.

Variable env : os_env.

(** One round of the loop over [forwards]: the flag pair of [fwd]. *)
Definition forward_tokens (fwd : pyval) : res (list string) :=
  fwd_type <- py_get fwd "type" (PStr "local");;
  local <- py_getitem fwd "local_port";;
  remote <- py_getitem fwd "remote_port";;
  remote_host <- py_get fwd "remote_host" (PStr "localhost");;
  if py_eq fwd_type (PStr "local") then
    Ok ["-L"; py_str local ++ ":" ++ py_str remote_host ++ ":" ++ py_str remote]
  else
    Ok ["-R"; py_str remote ++ ":" ++ py_str remote_host ++ ":" ++ py_str local].

(** The loop [for fwd in forwards: ... cmd.extend(...)]. *)
Fixpoint extend_forwards (cmd : list string) (forwards : list pyval)
  : res (list string) :=
  match forwards with
  | [] => Ok cmd
  | fwd :: rest =>
      toks <- forward_tokens fwd;;
      extend_forwards (cmd ++ toks)%list rest
  end.

Definition build_ssh_command (profile : pyval) : res (list string) :=
  let cmd := ["ssh"] in
  (* Add port *)
  port <- py_get profile "port" (PInt 22);;
  cmd <- (if negb (py_eq port (PInt 22)) then
            p <- py_getitem profile "port";;
            Ok (cmd ++ ["-p"; py_str p])%list
          else Ok cmd);;
  (* Add key if specified *)
  has_key <- py_contains "key" profile;;
  key <- (if has_key then py_getitem profile "key" else Ok (PBool false));;
  cmd <- (if py_truthy key then
            key_path <- expanduser env key;;
            if path_exists env key_path then Ok (cmd ++ ["-i"; key_path])%list
            else Ok cmd
          else Ok cmd);;
  (* Add port forwards *)
  forwards <- py_get profile "forwards" (PList []);;
  fwds <- py_iter forwards;;
  cmd <- extend_forwards cmd fwds;;
  (* Add connection string *)
  user <- py_getitem profile "user";;
  host <- py_getitem profile "host";;
  Ok (cmd ++ [(py_str user ++ "@" ++ py_str host)%string])%list.

End Build.

(** ** Profiles on which the builder is defined

    The builder indexes [user], [host], [local_port] and [remote_port]
    without a default, hands a truthy [key] to [os.path.expanduser] and
    calls [.get] on every item of [forwards]. *)

Definition well_formed_forward (fwd : pyval) : bool :=
  match fwd with
  | PDict d => dict_mem d "local_port" && dict_mem d "remote_port"
  | _ => false
  end.

Definition well_formed_profile (p : pyval) : bool :=
  match p with
  | PDict d =>
      dict_mem d "user" && dict_mem d "host"
      && match dict_get d "key" with
         | None | Some (PStr _) => true
         | Some k => negb (py_truthy k)
         end
      && match dict_get d "forwards" with
         | None => true
         | Some (PList l) => forallb well_formed_forward l
         | Some _ => false
         end
  | _ => false
  end.

(** The fields of a profile, read the way the builder reads them. *)

Definition field (o : pyval) (k : string) : pyval :=
  match py_getitem o k with Ok v => v | Raise _ => PNone end.

Definition field_or (o : pyval) (k : string) (default : pyval) : pyval :=
  match py_get o k default with Ok v => v | Raise _ => default end.

Definition profile_port (p : pyval) : pyval := field_or p "port" (PInt 22).

Definition profile_forwards (p : pyval) : list pyval :=
  match field_or p "forwards" (PList []) with PList l => l | _ => [] end.

Definition destination (p : pyval) : string :=
  py_str (field p "user") ++ "@" ++ py_str (field p "host").

(** The segments of the command, one per block of the builder. *)

Definition port_option (p : pyval) : list string :=
  if py_eq (profile_port p) (PInt 22) then [] else ["-p"; py_str (profile_port p)].

Definition identity_option (env : os_env) (p : pyval) : list string :=
  match field_or p "key" PNone with
  | PStr k =>
      if String.eqb k "" then []
      else
        let key_path := if starts_with "~" k then expand_tilde env k else k in
        if path_exists env key_path then ["-i"; key_path] else []
  | _ => []
  end.

Definition forward_option (fwd : pyval) : list string :=
  match forward_tokens fwd with Ok toks => toks | Raise _ => [] end.

(** [l] holds [a] immediately followed by [b]. *)
Definition has_pair (a b : string) (l : list string) : Prop :=
  exists pre post, l = (pre ++ a :: b :: post)%list.

Definition int_port (p : pyval) : bool :=
  match profile_port p with PInt _ => true | _ => false end.

(** Two views of the operating system that agree on every path. *)
Definition same_files (env env' : os_env) : Prop :=
  (forall s, expand_tilde env s = expand_tilde env' s)
  /\ (forall s, path_exists env s = path_exists env' s).

(** Tokens that the forwarding loop and the destination can produce. *)
Definition tail_token (t : string) : bool :=
  String.eqb t "-L" || String.eqb t "-R" || str_has ":" t || str_has "@" t.

(** ** JSON text, as [json.dump(obj, f, indent=2)] writes it *)

Definition json_escape_char (c : ascii) : string :=
  if Ascii.eqb c dquote then String backslash (str1 dquote)
  else if Ascii.eqb c backslash then String backslash (str1 backslash)
  else if Ascii.eqb c char_nl then String backslash "n"
  else if Ascii.eqb c char_cr then String backslash "r"
  else if Ascii.eqb c char_tab then String backslash "t"
  else if Ascii.eqb c char_bs then String backslash "b"
  else if Ascii.eqb c char_ff then String backslash "f"
  else if ((32 <=? N_of_ascii c) && (N_of_ascii c <=? 126))%N then str1 c
  else String backslash (String "u" (String "0" (String "0" (hex2 c)))).

(** [encode_basestring_ascii]: the default, [ensure_ascii=True]. *)
Definition encode_basestring_ascii (s : string) : string :=
  String dquote (str_concat_map json_escape_char s ++ str1 dquote).

Fixpoint spaces (n : nat) : string :=
  match n with
  | O => EmptyString
  | S n' => String " " (spaces n')
  end.

(** A line feed and [indent * level] spaces, with [indent = 2]. *)
Definition newline_indent (level : nat) : string :=
  String char_nl (spaces (2 * level)).

(** The items of a container after the first one, then the closing
    bracket on a line of its own: every such item follows the separator, a
    comma and [newline_indent]. *)
Fixpoint more_items {A} (item : A -> string) (close : string) (level : nat)
    (l : list A) : string :=
  match l with
  | [] => newline_indent level ++ close
  | y :: l' =>
      "," ++ newline_indent (S level) ++ item y ++ more_items item close level l'
  end.

(** [_iterencode], all chunks joined. *)
Fixpoint iterencode (v : pyval) (level : nat) {struct v} : string :=
  match v with
  | PNone => "null"
  | PBool true => "true"
  | PBool false => "false"
  | PInt z => str_of_Z z
  | PStr s => encode_basestring_ascii s
  | PList [] => "[]"
  | PList (x :: xs) =>
      "[" ++ newline_indent (S level) ++ iterencode x (S level)
      ++ more_items (fun y => iterencode y (S level)) "]" level xs
  | PDict [] => "{}"
  | PDict (kx :: kvs) =>
      "{" ++ newline_indent (S level) ++ encode_basestring_ascii (fst kx) ++ ": "
      ++ iterencode (snd kx) (S level)
      ++ more_items
           (fun ky => encode_basestring_ascii (fst ky) ++ ": "
                      ++ iterencode (snd ky) (S level))
           "}" level kvs
  end.

Definition json_dumps (v : pyval) : string := iterencode v 0.

(** ** JSON text, as [json.load] reads it *)

(** What the decoder makes of a text: the value Python returns, the
    certainty that Python raises, a JSON document whose decoding passes
    through a value the model does not cover, or a recursion that ran out
    of fuel (which [json_loads] never does). *)
Inductive decoded (A : Type) : Type :=
| Parsed (a : A)
| Malformed
| Beyond
| Exhausted.
Arguments Parsed {A} a.
Arguments Malformed {A}.
Arguments Beyond {A}.
Arguments Exhausted {A}.

Definition dbind {A B} (m : decoded A) (f : A -> decoded B) : decoded B :=
  match m with
  | Parsed a => f a
  | Malformed => Malformed
  | Beyond => Beyond
  | Exhausted => Exhausted
  end.

Declare Scope decoded_scope.
Delimit Scope decoded_scope with decoded.
Notation "x <- m ;; k" := (dbind m (fun x => k))
  (at level 61, m at next level, right associativity) : decoded_scope.
Notation "' pat <- m ;; k" := (dbind m (fun x => match x with pat => k end))
  (at level 61, pat pattern, m at next level, right associativity) : decoded_scope.

Definition is_ws (c : ascii) : bool :=
  Ascii.eqb c " " || Ascii.eqb c char_tab || Ascii.eqb c char_nl || Ascii.eqb c char_cr.

Fixpoint skip_ws (s : string) : string :=
  match s with
  | EmptyString => EmptyString
  | String c s' => if is_ws c then skip_ws s' else s
  end.

Definition is_digit (c : ascii) : bool :=
  ((48 <=? N_of_ascii c) && (N_of_ascii c <=? 57))%N.

Definition non_ascii (c : ascii) : bool := (128 <=? N_of_ascii c)%N.

Definition hex_value (c : ascii) : option N :=
  let n := N_of_ascii c in
  if ((48 <=? n) && (n <=? 57))%N then Some (n - 48)%N
  else if ((97 <=? n) && (n <=? 102))%N then Some (n - 87)%N
  else if ((65 <=? n) && (n <=? 70))%N then Some (n - 55)%N
  else None.

Definition hex4 (a b c d : ascii) : option N :=
  match hex_value a, hex_value b, hex_value c, hex_value d with
  | Some x, Some y, Some z, Some w => Some (((x * 16 + y) * 16 + z) * 16 + w)%N
  | _, _, _, _ => None
  end.

(** The one-letter escapes of [BACKSLASH]. *)
Definition unescape (c : ascii) : option ascii :=
  if Ascii.eqb c dquote then Some dquote
  else if Ascii.eqb c backslash then Some backslash
  else if Ascii.eqb c "/" then Some "/"%char
  else if Ascii.eqb c "b" then Some char_bs
  else if Ascii.eqb c "f" then Some char_ff
  else if Ascii.eqb c "n" then Some char_nl
  else if Ascii.eqb c "r" then Some char_cr
  else if Ascii.eqb c "t" then Some char_tab
  else None.

(** [scanstring], strict: the text after an opening quote, up to and
    including the closing one.

    The decoder runs in two ways.  With [exact] it stops with [Beyond] at
    the first place that needs a value the model lacks: a code point
    above 255, a raw byte above 127, a float.  Without [exact] it reads
    on with a stand-in for that value, so that it still finds out whether
    the text is a JSON document at all. *)
Fixpoint scanstring (exact : bool) (s : string) : decoded (string * string) :=
  match s with
  | EmptyString => Malformed
  | String c s' =>
      if Ascii.eqb c dquote then Parsed (EmptyString, s')
      else if Ascii.eqb c backslash then
        match s' with
        | EmptyString => Malformed
        | String e s'' =>
            if Ascii.eqb e "u" then
              match s'' with
              | String h1 (String h2 (String h3 (String h4 r))) =>
                  match hex4 h1 h2 h3 h4 with
                  | None => Malformed
                  | Some n =>
                      if (n <? 256)%N then
                        dbind (scanstring exact r)
                          (fun xr => Parsed (String (ascii_of_N n) (fst xr), snd xr))
                      else if exact then Beyond
                      else
                        dbind (scanstring exact r)
                          (fun xr => Parsed (String "?" (fst xr), snd xr))
                  end
              | _ => Malformed
              end
            else
              match unescape e with
              | None => Malformed
              | Some c' =>
                  dbind (scanstring exact s'')
                    (fun xr => Parsed (String c' (fst xr), snd xr))
              end
        end
      else if (N_of_ascii c <? 32)%N then Malformed
      else if exact && non_ascii c then Beyond
      else
        dbind (scanstring exact s')
          (fun xr => Parsed (String c (fst xr), snd xr))
  end.

(** The longest prefix of digits, and what follows it. *)
Fixpoint span_digits (s : string) : string * string :=
  match s with
  | EmptyString => (EmptyString, EmptyString)
  | String c s' =>
      if is_digit c then
        let (ds, r) := span_digits s' in (String c ds, r)
      else (EmptyString, s)
  end.

Definition starts_with_digit (s : string) : bool :=
  match s with String c _ => is_digit c | EmptyString => false end.

(** Does a fraction or an exponent follow, which makes the literal a
    float?  The exact run stops at a byte above 127 as well; no document
    has one there. *)
Definition float_follows (s : string) : bool :=
  match s with
  | String c s' =>
      if Ascii.eqb c "." then starts_with_digit s'
      else if Ascii.eqb c "e" || Ascii.eqb c "E" then
        match s' with
        | String g s'' =>
            if Ascii.eqb g "+" || Ascii.eqb g "-" then starts_with_digit s''
            else is_digit g
        | EmptyString => false
        end
      else non_ascii c
  | EmptyString => false
  end.

Definition uint_value (ds : string) : Z :=
  match NilEmpty.uint_of_string ds with
  | Some u => Z.of_uint u
  | None => 0
  end.

(** What follows the fraction that [s] starts with, if it starts with one:
    [(\.\d+)?] of [NUMBER_RE]. *)
Definition skip_fraction (s : string) : string :=
  match s with
  | String c s' =>
      if Ascii.eqb c "." && starts_with_digit s' then snd (span_digits s') else s
  | EmptyString => s
  end.

(** [([eE][-+]?\d+)?] of [NUMBER_RE]. *)
Definition skip_exponent (s : string) : string :=
  match s with
  | String c s' =>
      if Ascii.eqb c "e" || Ascii.eqb c "E" then
        match s' with
        | String g s'' =>
            if Ascii.eqb g "+" || Ascii.eqb g "-" then
              if starts_with_digit s'' then snd (span_digits s'') else s
            else if is_digit g then snd (span_digits s')
            else s
        | EmptyString => s
        end
      else s
  | EmptyString => s
  end.

(** What follows [NaN], [Infinity] or [-Infinity] at the head of [s]. *)
Definition after_constant (s : string) : string :=
  match strip_prefix "NaN" s with
  | Some r => r
  | None =>
      match strip_prefix "Infinity" s with
      | Some r => r
      | None =>
          match strip_prefix "-Infinity" s with
          | Some r => r
          | None => s
          end
      end
  end.

(** [NUMBER_RE], then [NaN], [Infinity] and [-Infinity]. *)
Definition scan_number (exact : bool) (s : string) : decoded (pyval * string) :=
  let (negative, body) :=
    match s with
    | String c s' => if Ascii.eqb c "-" then (true, s') else (false, s)
    | EmptyString => (false, s)
    end in
  let (ds, r) := span_digits body in
  match ds with
  | EmptyString =>
      if has_prefix "NaN" s || has_prefix "Infinity" s || has_prefix "-Infinity" s
      then if exact then Beyond else Parsed (PNone, after_constant s)
      else Malformed
  | String d ds' =>
      let (digits, after) :=
        if Ascii.eqb d "0" then (str1 d, ds' ++ r) else (ds, r) in
      if float_follows after then
        if exact then Beyond
        else Parsed (PNone, skip_exponent (skip_fraction after))
      else
        let n := uint_value digits in
        Parsed (PInt (if negative then - n else n)%Z, after)
  end.

(** [dict(pairs)] *)
Definition dict_of_pairs (pairs : pydict) : pydict :=
  fold_left (fun d kv => dict_set d (fst kv) (snd kv)) pairs [].

Local Open Scope decoded_scope.

(** [scan_once], with the loops of [JSONArray] and [JSONObject].  Every call
    spends one unit of [fuel]; [json_loads] gives enough of it. *)
Fixpoint scan_once (exact : bool) (fuel : nat) (s : string) {struct fuel}
  : decoded (pyval * string) :=
  match fuel with
  | O => Exhausted
  | S fuel' =>
      match s with
      | EmptyString => Malformed
      | String c s' =>
          if Ascii.eqb c dquote then
            '(x, r) <- scanstring exact s';; Parsed (PStr x, r)
          else if Ascii.eqb c "{" then
            let body := skip_ws s' in
            if starts_with "}" body then Parsed (PDict [], tail body)
            else
              '(pairs, r) <- object_items exact fuel' body;;
              Parsed (PDict (dict_of_pairs pairs), r)
          else if Ascii.eqb c "[" then
            let body := skip_ws s' in
            if starts_with "]" body then Parsed (PList [], tail body)
            else
              '(values, r) <- array_items exact fuel' body;;
              Parsed (PList values, r)
          else
            match strip_prefix "null" s with
            | Some r => Parsed (PNone, r)
            | None =>
                match strip_prefix "true" s with
                | Some r => Parsed (PBool true, r)
                | None =>
                    match strip_prefix "false" s with
                    | Some r => Parsed (PBool false, r)
                    | None => scan_number exact s
                    end
                end
            end
      end
  end

with array_items (exact : bool) (fuel : nat) (s : string) {struct fuel}
  : decoded (list pyval * string) :=
  match fuel with
  | O => Exhausted
  | S fuel' =>
      '(value, r) <- scan_once exact fuel' s;;
      match skip_ws r with
      | String "]" r' => Parsed ([value], r')
      | String "," r' =>
          '(values, r'') <- array_items exact fuel' (skip_ws r');;
          Parsed (value :: values, r'')
      | _ => Malformed
      end
  end

with object_items (exact : bool) (fuel : nat) (s : string) {struct fuel}
  : decoded (pydict * string) :=
  match fuel with
  | O => Exhausted
  | S fuel' =>
      match s with
      | String q s1 =>
          if Ascii.eqb q dquote then
            '(key, r) <- scanstring exact s1;;
            match skip_ws r with
            | String ":" r1 =>
                '(value, r2) <- scan_once exact fuel' (skip_ws r1);;
                match skip_ws r2 with
                | String "}" r3 => Parsed ([(key, value)], r3)
                | String "," r3 =>
                    '(pairs, r4) <- object_items exact fuel' (skip_ws r3);;
                    Parsed ((key, value) :: pairs, r4)
                | _ => Malformed
                end
            | _ => Malformed
            end
          else Malformed
      | EmptyString => Malformed
      end
  end.

(** [JSONDecoder.decode]: one value, white space around it, nothing
    else. *)
Definition decode (exact : bool) (s : string) : decoded pyval :=
  '(v, r) <- scan_once exact (S (2 * String.length s)) (skip_ws s);;
  match skip_ws r with
  | EmptyString => Parsed v
  | _ => Malformed
  end.

(** [json.loads].  Where the exact run stops at a value outside the
    model, the other run tells whether Python raises further on in the
    text ([Malformed]) or returns such a value ([Beyond]). *)
Definition json_loads (s : string) : decoded pyval :=
  match decode true s with
  | Beyond =>
      match decode false s with
      | Parsed _ => Beyond
      | other => other
      end
  | other => other
  end.

(** The text is a JSON document: [json.loads] returns on it, with a value
    of the model or another. *)
Definition parses_as_json (s : string) : bool :=
  match decode false s with
  | Parsed _ => true
  | _ => false
  end.

Local Close Scope decoded_scope.

(** What may follow a value in a text the encoder wrote. *)
Definition ends_value (rest : string) : bool :=
  match rest with
  | EmptyString => true
  | String c _ => Ascii.eqb c "," || Ascii.eqb c char_nl
  end.

(** The characters a JSON value can start with. *)
Definition value_start (c : ascii) : bool :=
  is_digit c || Ascii.eqb c "-" || Ascii.eqb c dquote || Ascii.eqb c "["
  || Ascii.eqb c "{" || Ascii.eqb c "n" || Ascii.eqb c "t" || Ascii.eqb c "f".

(** The text of [v], at any depth and followed by anything a value can be
    followed by, is read back as [v]. *)
Definition decodes_back (v : pyval) : Prop :=
  forall (level : nat) (rest : string) (fuel : nat),
    String.length (iterencode v level) <= fuel ->
    ends_value rest = true ->
    scan_once true fuel (iterencode v level ++ rest) = Parsed (v, rest).

(** ** Values a Python [dict] can be: no key twice *)

Fixpoint distinct (l : list string) : bool :=
  match l with
  | [] => true
  | x :: l' => negb (existsb (String.eqb x) l') && distinct l'
  end.

Fixpoint well_keyed (v : pyval) : bool :=
  match v with
  | PList l => forallb well_keyed l
  | PDict d =>
      distinct (dict_keys d) && forallb (fun kv => well_keyed (snd kv)) d
  | _ => true
  end.

(** ** The two stores and the console *)

Record world : Type := {
  (** [CONFIG_DIR] exists *)
  config_dir : bool;
  (** text of [PROFILES_FILE], [None] while the file is absent *)
  profiles_file : option string;
  (** text of [ACTIVE_FILE] *)
  active_file : option string;
  (** what [print] has written, one entry per call *)
  console : list string;
  (** how often the clock has been read *)
  clock_reads : nat
}.

(** What running the external client ends in. *)
Inductive run_result : Type :=
| Completed (returncode : Z)
| Interrupted
| Failed (message : string).

Inductive popen_result : Type :=
| Spawned
| PopenRaised (e : exn).

(** The machine around the program. *)
Record machine : Type := {
  files : os_env;
  (** [datetime.now().isoformat()] at the n-th reading of the clock *)
  isoformat_now : nat -> string;
  (** [platform.system()] *)
  platform_system : string;
  (** [subprocess.run(cmd)]: [Completed] whatever the exit status,
      [Interrupted] for a [KeyboardInterrupt], [Failed] for any exception
      that derives from [Exception], with its message *)
  subprocess_run : list string -> run_result;
  (** [subprocess.Popen(args, shell=...)] *)
  subprocess_Popen : list string -> bool -> popen_result
}.

(** ** The monad of the operations: state, exceptions, and texts outside
    the model *)

Inductive outcome (A : Type) : Type :=
| Done (a : A)
| Raised (e : exn)
| Unmodelled.
Arguments Done {A} a.
Arguments Raised {A} e.
Arguments Unmodelled {A}.

Definition M (A : Type) : Type := world -> outcome A * world.

Definition ret {A} (a : A) : M A := fun w => (Done a, w).

Definition bind {A B} (m : M A) (f : A -> M B) : M B :=
  fun w =>
    match m w with
    | (Done a, w') => f a w'
    | (Raised e, w') => (Raised e, w')
    | (Unmodelled, w') => (Unmodelled, w')
    end.

Definition lift {A} (r : res A) : M A :=
  fun w => match r with Ok a => (Done a, w) | Raise e => (Raised e, w) end.

Declare Scope M_scope.
Delimit Scope M_scope with M.
Notation "x <- m ;; k" := (bind m (fun x => k))
  (at level 61, m at next level, right associativity) : M_scope.
Notation "m ;; k" := (bind m (fun _ => k))
  (at level 61, right associativity) : M_scope.

Definition print (line : string) : M unit :=
  fun w =>
    (Done tt,
     {| config_dir := config_dir w; profiles_file := profiles_file w;
        active_file := active_file w; console := console w ++ [line];
        clock_reads := clock_reads w |}).

Fixpoint for_each {A} (l : list A) (body : A -> M unit) : M unit :=
  match l with
  | [] => ret tt
  | x :: l' => bind (body x) (fun _ => for_each l' body)
  end.

Section Operations.
Local Open Scope M_scope.

Variable os : machine.

Definition now_isoformat : M string :=
  fun w =>
    (Done (isoformat_now os (clock_reads w)),
     {| config_dir := config_dir w; profiles_file := profiles_file w;
        active_file := active_file w; console := console w;
        clock_reads := S (clock_reads w) |}).

Definition ensure_config_dir : M unit :=
  fun w =>
    (Done tt,
     {| config_dir := true; profiles_file := profiles_file w;
        active_file := active_file w; console := console w;
        clock_reads := clock_reads w |}).

(** A missing file and a text that does not parse both give [{}]. *)
Definition load_profiles : M pyval :=
  fun w =>
    match profiles_file w with
    | None => (Done (PDict []), w)
    | Some text =>
        match json_loads text with
        | Parsed v => (Done v, w)
        | Malformed => (Done (PDict []), w)
        | Beyond | Exhausted => (Unmodelled, w)
        end
    end.

Definition save_profiles (profiles : pyval) : M unit :=
  ensure_config_dir;;
  fun w =>
    (Done tt,
     {| config_dir := config_dir w;
        profiles_file := Some (json_dumps profiles);
        active_file := active_file w; console := console w;
        clock_reads := clock_reads w |}).

Definition load_active : M pyval :=
  fun w =>
    match active_file w with
    | None => (Done (PDict []), w)
    | Some text =>
        match json_loads text with
        | Parsed v => (Done v, w)
        | Malformed => (Done (PDict []), w)
        | Beyond | Exhausted => (Unmodelled, w)
        end
    end.

Definition save_active (active : pyval) : M unit :=
  ensure_config_dir;;
  fun w =>
    (Done tt,
     {| config_dir := config_dir w; profiles_file := profiles_file w;
        active_file := Some (json_dumps active); console := console w;
        clock_reads := clock_reads w |}).

(** *** Profile management *)

Definition add_profile (name host user : string) (port : Z)
    (key : option string) (forwards : option (list pyval)) : M unit :=
  profiles <- load_profiles;;
  created <- now_isoformat;;
  let profile :=
    [("host", PStr host); ("user", PStr user); ("port", PInt port);
     ("created", PStr created); ("last_used", PNone)] in
  let has_key := match key with Some k => negb (String.eqb k "") | None => false end in
  let profile :=
    match key with
    | Some k => if has_key then dict_set profile "key" (PStr k) else profile
    | None => profile
    end in
  let profile :=
    match forwards with
    | Some (f :: fs) => dict_set profile "forwards" (PList (f :: fs))
    | _ => dict_set profile "forwards" (PList [])
    end in
  profiles <- lift (py_setitem profiles name (PDict profile));;
  save_profiles profiles;;
  print ("[OK] Profile '" ++ name ++ "' saved!");;
  print ("  " ++ user ++ "@" ++ host ++ ":" ++ str_of_Z port);;
  (match key with
   | Some k => if has_key then print ("  Key: " ++ k) else ret tt
   | None => ret tt
   end);;
  match forwards with
  | Some (f :: fs) =>
      print ("  Forwards: " ++ str_of_Z (Z.of_nat (List.length (f :: fs)))
             ++ " configured")
  | _ => ret tt
  end.

Definition delete_profile (name : string) : M bool :=
  profiles <- load_profiles;;
  present <- lift (py_contains name profiles);;
  if negb present then
    print ("[X] Profile '" ++ name ++ "' not found.");;
    ret false
  else
    profiles <- lift (py_delitem profiles name);;
    save_profiles profiles;;
    print ("[OK] Profile '" ++ name ++ "' deleted.");;
    ret true.

(** The record [add_forward] builds from its arguments. *)
Definition forward_record (forward_type : string) (local_port remote_port : Z)
    (remote_host : string) : pyval :=
  PDict [("type", PStr forward_type); ("local_port", PInt local_port);
         ("remote_port", PInt remote_port); ("remote_host", PStr remote_host)].

(** A stored profile that [add_forward] can extend: a dict whose
    [forwards], when there is one, is a list. *)
Definition forwards_appendable (p : pyval) : bool :=
  match p with
  | PDict pd =>
      match dict_get pd "forwards" with
      | None | Some (PList _) => true
      | Some _ => false
      end
  | _ => false
  end.

(** The nested objects of [profiles] are changed in place in the source;
    nothing else refers to them, so the model rebuilds the path to the
    changed list. *)
Definition add_forward (profile_name : string) (local_port remote_port : Z)
    (remote_host forward_type : string) : M bool :=
  profiles <- load_profiles;;
  present <- lift (py_contains profile_name profiles);;
  if negb present then
    print ("[X] Profile '" ++ profile_name ++ "' not found.");;
    ret false
  else
    let forward := forward_record forward_type local_port remote_port remote_host in
    profile <- lift (py_getitem profiles profile_name);;
    has_forwards <- lift (py_contains "forwards" profile);;
    profile <- (if negb has_forwards
                then lift (py_setitem profile "forwards" (PList []))
                else ret profile);;
    forwards <- lift (py_getitem profile "forwards");;
    forwards <- lift (py_append forwards forward);;
    profile <- lift (py_setitem profile "forwards" forwards);;
    profiles <- lift (py_setitem profiles profile_name profile);;
    save_profiles profiles;;
    let fwd_str :=
      if String.eqb forward_type "local"
      then "localhost:" ++ str_of_Z local_port ++ " -> " ++ remote_host ++ ":"
           ++ str_of_Z remote_port
      else remote_host ++ ":" ++ str_of_Z remote_port ++ " -> localhost:"
           ++ str_of_Z local_port in
    print ("[OK] Added " ++ forward_type ++ " forward to '" ++ profile_name
           ++ "': " ++ fwd_str);;
    ret true.

(** *** Connection management *)

Fixpoint insert_sorted (x : string) (l : list string) : list string :=
  match l with
  | [] => [x]
  | y :: l' => if String.leb x y then x :: l else y :: insert_sorted x l'
  end.

(** [sorted] on strings *)
Definition sorted (l : list string) : list string :=
  fold_right insert_sorted [] l.

(** One line of the forward listing that [connect] prints. *)
Definition print_forward (fwd : pyval) : M unit :=
  fwd_type <- lift (py_get fwd "type" (PStr "local"));;
  local <- lift (py_getitem fwd "local_port");;
  remote <- lift (py_getitem fwd "remote_port");;
  remote_host <- lift (py_get fwd "remote_host" (PStr "localhost"));;
  if py_eq fwd_type (PStr "local") then
    print ("   L: localhost:" ++ py_str local ++ " -> " ++ py_str remote_host
           ++ ":" ++ py_str remote)
  else
    print ("   R: " ++ py_str remote_host ++ ":" ++ py_str remote
           ++ " -> localhost:" ++ py_str local).

Definition connect (profile_name : string) (background : bool) : M bool :=
  profiles <- load_profiles;;
  present <- lift (py_contains profile_name profiles);;
  if negb present then
    print ("[X] Profile '" ++ profile_name ++ "' not found.");;
    print (String char_nl "Available profiles:");;
    names <- lift (py_keys profiles);;
    for_each (sorted names) (fun name => print ("  - " ++ name));;
    ret false
  else
    profile <- lift (py_getitem profiles profile_name);;
    cmd <- lift (build_ssh_command (files os) profile);;
    (* Update last used *)
    stamp <- now_isoformat;;
    profile <- lift (py_setitem profile "last_used" (PStr stamp));;
    profiles <- lift (py_setitem profiles profile_name profile);;
    save_profiles profiles;;
    (* Show connection info *)
    print (String char_nl ("[*] Connecting to '" ++ profile_name ++ "'..."));;
    user <- lift (py_getitem profile "user");;
    host <- lift (py_getitem profile "host");;
    port <- lift (py_get profile "port" (PInt 22));;
    print ("   " ++ py_str user ++ "@" ++ py_str host ++ ":" ++ py_str port);;
    forwards <- lift (py_get profile "forwards" (PList []));;
    (if py_truthy forwards then
       print (String char_nl "[>] Port Forwards:");;
       fwds <- lift (py_iter forwards);;
       for_each fwds print_forward
     else ret tt);;
    print (String char_nl ("[>] Command: " ++ join " " cmd ++ str1 char_nl));;
    if background then
      (* Run in background (non-blocking) *)
      (match (if String.eqb (platform_system os) "Windows"
              then subprocess_Popen os (["start"; "cmd"; "/k"] ++ cmd)%list true
              else subprocess_Popen os cmd false) with
       | Spawned => ret tt
       | PopenRaised e => lift (Raise e)
       end);;
      print "[OK] Connection started in background";;
      (* Track active connection *)
      active <- load_active;;
      started <- now_isoformat;;
      active <- lift (py_setitem active profile_name
                        (PDict [("started", PStr started); ("profile", profile)]));;
      save_active active;;
      ret true
    else
      (* Run interactively *)
      match subprocess_run os cmd with
      | Completed _ => ret true
      | Interrupted =>
          print (String char_nl "[OK] Connection closed");;
          ret true
      | Failed message =>
          print (String char_nl ("[X] Error: " ++ message));;
          ret false
      end.

End Operations.

(** ** Sample data *)

Module Sample.

(** No key file exists; the home directory is [/home/bob]. *)
Definition bare_env : os_env :=
  {| expand_tilde := fun s => "/home/bob" ++ substring 1 (String.length s) s;
     path_exists := fun _ => false |}.

(** The same machine once [~/.ssh/id_rsa] exists. *)
Definition keyed_env : os_env :=
  {| expand_tilde := expand_tilde bare_env;
     path_exists := String.eqb "/home/bob/.ssh/id_rsa" |}.

Definition web_forward : pyval :=
  PDict [("type", PStr "local"); ("local_port", PInt 8080);
         ("remote_port", PInt 80); ("remote_host", PStr "localhost")].

Definition dev_forward : pyval :=
  PDict [("type", PStr "remote"); ("local_port", PInt 3000);
         ("remote_port", PInt 3001); ("remote_host", PStr "localhost")].

(** A record as a hand-edited store may hold it: no direction, no host. *)
Definition terse_forward : pyval :=
  PDict [("local_port", PInt 5432); ("remote_port", PInt 5433)].

(** A record whose direction is neither of the two documented words. *)
Definition odd_forward : pyval :=
  PDict [("type", PStr "dynamic"); ("local_port", PInt 1080);
         ("remote_port", PInt 1081); ("remote_host", PStr "gw")].

(** A record that lacks its ports. *)
Definition portless_forward : pyval := PDict [("type", PStr "local")].

Definition plain_profile : pyval :=
  PDict [("host", PStr "example.com"); ("user", PStr "bob"); ("port", PInt 22);
         ("created", PStr "2024-01-01T00:00:00"); ("last_used", PNone);
         ("forwards", PList [])].

Definition busy_profile : pyval :=
  PDict [("host", PStr "example.com"); ("user", PStr "bob"); ("port", PInt 2222);
         ("created", PStr "2024-01-01T00:00:00"); ("last_used", PNone);
         ("key", PStr "~/.ssh/id_rsa");
         ("forwards", PList [web_forward; dev_forward; terse_forward; odd_forward])].

Definition broken_profile : pyval :=
  PDict [("host", PStr "example.com"); ("user", PStr "bob"); ("port", PInt 22);
         ("forwards", PList [portless_forward])].

(** A machine on which the client starts and leaves with status [status]. *)
Definition machine_exiting (status : Z) : machine :=
  {| files := bare_env;
     isoformat_now := fun n => "2024-05-01T12:00:0" ++ str_of_Z (Z.of_nat n);
     platform_system := "Linux";
     subprocess_run := fun _ => Completed status;
     subprocess_Popen := fun _ _ => Spawned |}.

(** A machine without an [ssh] executable. *)
Definition machine_without_ssh : machine :=
  {| files := bare_env;
     isoformat_now := isoformat_now (machine_exiting 0);
     platform_system := "Linux";
     subprocess_run :=
       fun _ => Failed "[Errno 2] No such file or directory: 'ssh'";
     subprocess_Popen :=
       fun _ _ => PopenRaised (OSError "[Errno 2] No such file or directory: 'ssh'") |}.

(** A machine whose operator presses Ctrl-C while the client runs. *)
Definition machine_interrupted : machine :=
  {| files := bare_env;
     isoformat_now := isoformat_now (machine_exiting 0);
     platform_system := "Linux";
     subprocess_run := fun _ => Interrupted;
     subprocess_Popen := fun _ _ => Spawned |}.

Definition fresh_world : world :=
  {| config_dir := false; profiles_file := None; active_file := None;
     console := []; clock_reads := 0 |}.

(** A world whose profile store holds [profiles]. *)
Definition world_with (profiles : pyval) : world :=
  {| config_dir := true; profiles_file := Some (json_dumps profiles);
     active_file := None; console := []; clock_reads := 0 |}.

Definition two_profiles : pyval :=
  PDict [("web", busy_profile); ("s1", plain_profile)].

(** A world whose profile store is not JSON. *)
Definition corrupt_world : world :=
  {| config_dir := true; profiles_file := Some "invalid json content";
     active_file := None; console := []; clock_reads := 0 |}.

End Sample.

(** ** Shorthands for statements about the operations *)

(** The dict that [add_profile] builds, field by field in the order of the
    source: the five fixed fields, [key] when the argument is truthy, then
    [forwards]. *)
Definition profile_record (host user : string) (port : Z) (created : string)
    (key : option string) (forwards : option (list pyval)) : pyval :=
  PDict
    ([("host", PStr host); ("user", PStr user); ("port", PInt port);
      ("created", PStr created); ("last_used", PNone)]
     ++ match key with
        | Some k => if String.eqb k "" then [] else [("key", PStr k)]
        | None => []
        end
     ++ [("forwards", PList match forwards with Some l => l | None => [] end)])%list.

(** Two worlds that differ in nothing but what has been printed. *)
Definition same_but_console (w w' : world) : Prop :=
  config_dir w' = config_dir w
  /\ profiles_file w' = profiles_file w
  /\ active_file w' = active_file w
  /\ clock_reads w' = clock_reads w.

(** What the background branch of [connect] hands to [subprocess.Popen]:
    on Windows the command behind [start cmd /k], through the shell;
    elsewhere the command itself. *)
Definition background_spawn (os : machine) (cmd : list string) : popen_result :=
  if String.eqb (platform_system os) "Windows"
  then subprocess_Popen os (["start"; "cmd"; "/k"] ++ cmd)%list true
  else subprocess_Popen os cmd false.

(** ** Listings and the command line *)

(** [len(o)] *)
Definition py_len (o : pyval) : res Z :=
  match o with
  | PStr s => Ok (Z.of_nat (String.length s))
  | PList l => Ok (Z.of_nat (List.length l))
  | PDict d => Ok (Z.of_nat (List.length d))
  | PNone | PBool _ | PInt _ => Raise TypeError
  end.

(** [o.items()] *)
Definition py_items (o : pyval) : res (list (string * pyval)) :=
  match o with
  | PDict d => Ok d
  | _ => Raise AttributeError
  end.

(** [prefix + o] for a string [prefix] *)
Definition py_add_str (prefix : string) (o : pyval) : res string :=
  match o with
  | PStr s => Ok (prefix ++ s)
  | _ => Raise TypeError
  end.

(** [sorted] on the items of a dict.  The keys of a dict differ from one
    another, so the order of two items is decided by their names and the
    values are never compared. *)
Fixpoint insert_item (x : string * pyval) (l : list (string * pyval))
  : list (string * pyval) :=
  match l with
  | [] => [x]
  | y :: l' =>
      if String.leb (fst x) (fst y) then x :: l else y :: insert_item x l'
  end.

Definition sorted_items (l : list (string * pyval)) : list (string * pyval) :=
  fold_right insert_item [] l.

(** [s.split(c, 1)] when [c] occurs in [s]: what stands before the first
    [c], and what follows it. *)
Fixpoint split_once (c : ascii) (s : string) : option (string * string) :=
  match s with
  | EmptyString => None
  | String a s' =>
      if Ascii.eqb a c then Some (EmptyString, s')
      else match split_once c s' with
           | Some (before, after) => Some (String a before, after)
           | None => None
           end
  end.

(** A run that leaves the model. *)
Definition unmodelled {A} : M A := fun w => (Unmodelled, w).

(** What [argparse] hands to [main]: the chosen subcommand with its
    arguments, converted and defaulted by the parser. *)
Inductive command : Type :=
| CmdAdd (name connection : string) (port : Z) (key : option string)
| CmdList
| CmdDelete (name : string)
| CmdForward (profile : string) (local_port remote_port : Z) (host : string)
    (remote : bool)
| CmdConnect (name : string) (background : bool)
| CmdActive.

Section CommandLine.
Local Open Scope M_scope.

Variable os : machine.

(** [datetime.fromisoformat(text).strftime('%Y-%m-%d %H:%M')]; [None]
    when [text] is not a date in ISO format and [fromisoformat] raises
    [ValueError]. *)
Variable strftime_minutes : string -> option string.

(** What [parser.print_help()] writes. *)
Variable help_text : string.

(** [str(e)] for the exceptions whose text depends on where they arise. *)
Variable describe : exn -> string.

(** One line of the forward listing of [list_profiles]; a missing port
    reads [None]. *)
Definition print_listed_forward (fwd : pyval) : M unit :=
  fwd_type <- lift (py_get fwd "type" (PStr "local"));;
  local <- lift (py_get fwd "local_port" PNone);;
  remote <- lift (py_get fwd "remote_port" PNone);;
  remote_host <- lift (py_get fwd "remote_host" (PStr "localhost"));;
  if py_eq fwd_type (PStr "local") then
    print ("      L: localhost:" ++ py_str local ++ " -> " ++ py_str remote_host
           ++ ":" ++ py_str remote)
  else
    print ("      R: " ++ py_str remote_host ++ ":" ++ py_str remote
           ++ " -> localhost:" ++ py_str local).

(** The body of the loop of [list_profiles]. *)
Definition list_profile (name : string) (prof : pyval) : M unit :=
  user <- lift (py_getitem prof "user");;
  host <- lift (py_getitem prof "host");;
  port <- lift (py_get prof "port" (PInt 22));;
  key <- lift (py_get prof "key" (PStr "password"));;
  forwards <- lift (py_get prof "forwards" (PList []));;
  last_used <- lift (py_get prof "last_used" (PStr "never"));;
  let last_used :=
    if py_truthy last_used && negb (py_eq last_used (PStr "never")) then
      (* try: ... except: last_used = 'never' *)
      match last_used with
      | PStr text =>
          match strftime_minutes text with
          | Some minutes => minutes
          | None => "never"
          end
      | _ => "never"
      end
    else "never" in
  print ("  " ++ name);;
  print ("    Connection: " ++ py_str user ++ "@" ++ py_str host ++ ":"
         ++ py_str port);;
  auth <- lift (if negb (py_eq key (PStr "password"))
                then py_add_str "Key: " key
                else Ok "Password");;
  print ("    Auth: " ++ auth);;
  (if py_truthy forwards then
     print "    Forwards:";;
     fwds <- lift (py_iter forwards);;
     for_each fwds print_listed_forward
   else ret tt);;
  print ("    Last used: " ++ last_used);;
  print "".

Definition list_profiles : M unit :=
  profiles <- load_profiles;;
  if negb (py_truthy profiles) then
    print "No profiles saved yet.";;
    print (String char_nl "Create one with:");;
    print "  portmanager add myserver user@host.com"
  else
    count <- lift (py_len profiles);;
    print (String char_nl ("[*] Saved Profiles (" ++ str_of_Z count ++ "):"
                           ++ str1 char_nl));;
    items <- lift (py_items profiles);;
    for_each (sorted_items items)
      (fun item => list_profile (fst item) (snd item)).

(** One line of the forward listing of [show_active]. *)
Definition print_active_forward (fwd : pyval) : M unit :=
  fwd_type <- lift (py_get fwd "type" (PStr "local"));;
  local <- lift (py_getitem fwd "local_port");;
  remote <- lift (py_getitem fwd "remote_port");;
  remote_host <- lift (py_get fwd "remote_host" (PStr "localhost"));;
  if py_eq fwd_type (PStr "local") then
    print ("      L: localhost:" ++ py_str local ++ " -> " ++ py_str remote_host
           ++ ":" ++ py_str remote)
  else
    print ("      R: " ++ py_str remote_host ++ ":" ++ py_str remote
           ++ " -> localhost:" ++ py_str local).

(** The body of the loop of [show_active].  The date is formatted outside
    any [try]: a [started] that is no string is a [TypeError]; one that
    is no date is a [ValueError], a class that [exn] does not list, and
    the run leaves the model. *)
Definition show_connection (name : string) (info : pyval) : M unit :=
  started <- lift (py_getitem info "started");;
  started <- (match started with
              | PStr text =>
                  match strftime_minutes text with
                  | Some minutes => ret minutes
                  | None => unmodelled
                  end
              | _ => lift (Raise TypeError)
              end);;
  profile <- lift (py_getitem info "profile");;
  print ("  " ++ name);;
  user <- lift (py_getitem profile "user");;
  host <- lift (py_getitem profile "host");;
  port <- lift (py_get profile "port" (PInt 22));;
  print ("    " ++ py_str user ++ "@" ++ py_str host ++ ":" ++ py_str port);;
  print ("    Started: " ++ started);;
  forwards <- lift (py_get profile "forwards" (PList []));;
  (if py_truthy forwards then
     fwds <- lift (py_iter forwards);;
     for_each fwds print_active_forward
   else ret tt);;
  print "".

Definition show_active : M unit :=
  active <- load_active;;
  if negb (py_truthy active) then
    print "No active background connections."
  else
    count <- lift (py_len active);;
    print (String char_nl ("[*] Active Connections (" ++ str_of_Z count ++ "):"
                           ++ str1 char_nl));;
    items <- lift (py_items active);;
    for_each items (fun item => show_connection (fst item) (snd item)).

(** [str(e)]: a [KeyError] shows the [repr] of its key. *)
Definition str_of_exn (e : exn) : string :=
  match e with
  | KeyError key => repr_str key
  | OSError message => message
  | TypeError | AttributeError => describe e
  end.

(** The [try] block of [main]: the exit status it returns. *)
Definition dispatch (c : command) : M Z :=
  match c with
  | CmdAdd name connection port key =>
      (* Parse user@host *)
      if negb (str_contains "@" connection) then
        print "[X] Connection must be in format: user@host";;
        ret 1%Z
      else
        match split_once "@" connection with
        | Some (user, host) =>
            add_profile os name host user port key None;;
            ret 0%Z
        | None => unmodelled
        end
  | CmdList => list_profiles;; ret 0%Z
  | CmdDelete name => delete_profile name;; ret 0%Z
  | CmdForward profile local_port remote_port host remote =>
      let fwd_type := if remote then "remote" else "local" in
      add_forward profile local_port remote_port host fwd_type;;
      ret 0%Z
  | CmdConnect name background => connect os name background;; ret 0%Z
  | CmdActive => show_active;; ret 0%Z
  end.

(** [main], after [parser.parse_args()].  The traceback that follows the
    error line goes to the standard error stream, which the console does
    not hold.  An interrupt outside the client run is not modelled. *)
Definition main (args : option command) : M Z :=
  match args with
  | None =>
      print help_text;;
      ret 0%Z
  | Some c =>
      fun w =>
        match dispatch c w with
        | (Done status, w') => (Done status, w')
        | (Raised e, w') =>
            (print (String char_nl ("[X] Error: " ++ str_of_exn e));;
             ret 1%Z) w'
        | (Unmodelled, w') => (Unmodelled, w')
        end
  end.

End CommandLine.

(** ** Frames and invariants *)

(** Two worlds with the same profile store file. *)
Definition same_profiles_file (w w' : world) : Prop :=
  profiles_file w' = profiles_file w.

(** An action that keeps the world within [R], however it ends. *)
Definition preserves (R : world -> world -> Prop) {A} (m : M A) : Prop :=
  forall w, R w (snd (m w)).

(** A profile that [list_profiles] can show: [user] and [host] are there,
    the key is a string when there is one, and every forward is a dict,
    with or without its ports. *)
Definition listable_profile (p : pyval) : bool :=
  match p with
  | PDict d =>
      dict_mem d "user" && dict_mem d "host"
      && match dict_get d "key" with
         | None | Some (PStr _) => true
         | Some _ => false
         end
      && match dict_get d "forwards" with
         | None => true
         | Some (PList l) =>
             forallb (fun fwd => match fwd with PDict _ => true | _ => false end) l
         | Some _ => false
         end
  | _ => false
  end.

(** A profile that the builder accepts and the listing can show. *)
Definition usable_profile (p : pyval) : bool :=
  well_formed_profile p && listable_profile p.

(** The profile store loads as a mapping of usable profiles. *)
Definition usable_world (w : world) : Prop :=
  exists d,
    load_profiles w = (Done (PDict d), w)
    /\ forallb (fun kv => usable_profile (snd kv)) d = true.

(** An entry of the active-connections store that [show_active] can show:
    [started] is a date and [profile] a profile that the builder accepts. *)
Definition showable_connection (strftime_minutes : string -> option string)
    (info : pyval) : bool :=
  match info with
  | PDict entry =>
      match dict_get entry "started", dict_get entry "profile" with
      | Some (PStr text), Some profile =>
          match strftime_minutes text with
          | Some _ => well_formed_profile profile
          | None => false
          end
      | _, _ => false
      end
  | _ => false
  end.

(** * Properties *)

(** ** Strings and tokens *)

Lemma py_eq_str_inv (v : pyval) (s : string) :
  py_eq v (PStr s) = true -> v = PStr s.
Proof.
  destruct v; simpl; try discriminate.
  intros H. apply String.eqb_eq in H. now subst.
Qed.

Lemma py_eq_22_inv (v : pyval) : py_eq v (PInt 22) = true -> v = PInt 22.
Proof.
  destruct v as [ | [ | ] | z | | | ]; simpl; try discriminate.
  intros H. apply Z.eqb_eq in H. now subst.
Qed.

Lemma str_has_app (c : ascii) (s t : string) :
  str_has c (s ++ t) = str_has c s || str_has c t.
Proof.
  induction s as [ | a s IH]; simpl; [reflexivity | ].
  rewrite IH. now rewrite orb_assoc.
Qed.

(** The value of a forwarding flag always holds a colon, the destination
    always holds an at sign. *)
Lemma forward_value_colon (a b c : string) :
  str_has ":" (a ++ ":" ++ b ++ ":" ++ c) = true.
Proof.
  rewrite str_has_app. simpl. now rewrite orb_true_r.
Qed.

Lemma destination_at (p : pyval) : str_has "@" (destination p) = true.
Proof.
  unfold destination. rewrite str_has_app. simpl. now rewrite orb_true_r.
Qed.

(** ** The shape of the built command *)

Lemma forward_tokens_well_formed (fwd : pyval) :
  well_formed_forward fwd = true ->
  forward_tokens fwd = Ok (forward_option fwd)
  /\ exists flag value,
       forward_option fwd = [flag; value]
       /\ (flag = "-L" \/ flag = "-R")
       /\ str_has ":" value = true.
Proof.
  destruct fwd as [ | | | | | d]; simpl; try discriminate.
  unfold dict_mem. intros H.
  destruct (dict_get d "local_port") as [lp | ] eqn:Hl; [ | discriminate].
  destruct (dict_get d "remote_port") as [rp | ] eqn:Hr; [ | discriminate].
  unfold forward_option, forward_tokens. simpl. rewrite Hl, Hr. simpl.
  destruct (py_eq _ (PStr "local")); (split; [reflexivity | ]);
    eexists; eexists; (split; [reflexivity | ]);
    (split; [auto | apply forward_value_colon]).
Qed.

Lemma extend_forwards_well_formed (fwds : list pyval) :
  forallb well_formed_forward fwds = true ->
  forall cmd,
    extend_forwards cmd fwds = Ok (cmd ++ flat_map forward_option fwds)%list.
Proof.
  induction fwds as [ | fwd fwds IH]; simpl; intros H cmd.
  - now rewrite app_nil_r.
  - apply andb_true_iff in H as [Hf Hrest].
    destruct (forward_tokens_well_formed fwd Hf) as [-> _]. simpl.
    rewrite (IH Hrest). now rewrite <- app_assoc.
Qed.

Theorem build_ssh_command_shape (env : os_env) (p : pyval) :
  well_formed_profile p = true ->
  build_ssh_command env p =
  Ok ("ssh" :: port_option p ++ identity_option env p
        ++ flat_map forward_option (profile_forwards p) ++ [destination p])%list.
Proof.
  destruct p as [ | | | | | d]; simpl; try discriminate.
  intros H.
  apply andb_true_iff in H as [H Hfw].
  apply andb_true_iff in H as [H Hkey].
  apply andb_true_iff in H as [Hu Hh].
  unfold dict_mem in Hu, Hh.
  destruct (dict_get d "user") as [u | ] eqn:Eu; [ | discriminate].
  destruct (dict_get d "host") as [h | ] eqn:Eh; [ | discriminate].
  unfold build_ssh_command, port_option, identity_option, profile_port,
    profile_forwards, destination, field, field_or.
  simpl. rewrite Eu, Eh. unfold dict_mem.
  set (fw := match dict_get d "forwards" with Some v => v | None => PList [] end).
  set (fwds := match fw with PList l => l | _ => [] end).
  assert (Hit : py_iter fw = Ok fwds /\ forallb well_formed_forward fwds = true).
  { subst fwds fw.
    destruct (dict_get d "forwards") as [[ | | | | l | ] | ]; try discriminate;
      simpl; auto. }
  destruct Hit as [Hit Hwf]. clear Hfw.
  pose proof (extend_forwards_well_formed fwds Hwf) as Hext.
  destruct (dict_get d "port") as [port | ]; simpl;
    [destruct (py_eq port (PInt 22)); simpl | ];
    (destruct (dict_get d "key") as [[ | [ | ] | z | k | [ | ? ?] | [ | ? ?]] | ];
     simpl in *; try discriminate);
    try (destruct (Z.eqb z 0); simpl in *; try discriminate);
    try (destruct (String.eqb k ""); simpl);
    try (destruct (path_exists env _); simpl);
    rewrite Hit; simpl; rewrite Hext; simpl;
    rewrite <- ?app_assoc; reflexivity.
Qed.


Example build_busy_profile :
  build_ssh_command Sample.keyed_env Sample.busy_profile
  = Ok ["ssh"; "-p"; "2222"; "-i"; "/home/bob/.ssh/id_rsa";
        "-L"; "8080:localhost:80"; "-R"; "3001:localhost:3000";
        "-L"; "5432:localhost:5433"; "-R"; "1081:gw:1080"; "bob@example.com"].
Proof. reflexivity. Qed.

Example build_busy_profile_no_key :
  build_ssh_command Sample.bare_env Sample.busy_profile
  = Ok ["ssh"; "-p"; "2222";
        "-L"; "8080:localhost:80"; "-R"; "3001:localhost:3000";
        "-L"; "5432:localhost:5433"; "-R"; "1081:gw:1080"; "bob@example.com"].
Proof. reflexivity. Qed.

(** ** Forwarding flags *)

Lemma forward_option_length (fwd : pyval) :
  well_formed_forward fwd = true -> List.length (forward_option fwd) = 2.
Proof.
  intros H. destruct (forward_tokens_well_formed fwd H) as (_ & f & v & -> & _).
  reflexivity.
Qed.

Lemma flat_map_forward_option_length (fwds : list pyval) :
  forallb well_formed_forward fwds = true ->
  List.length (flat_map forward_option fwds) = 2 * List.length fwds.
Proof.
  induction fwds as [ | fwd fwds IH]; simpl; intros H; [reflexivity | ].
  apply andb_true_iff in H as [Hf Hr].
  rewrite length_app, (forward_option_length fwd Hf), (IH Hr). lia.
Qed.

Lemma profile_forwards_well_formed (p : pyval) :
  well_formed_profile p = true ->
  forallb well_formed_forward (profile_forwards p) = true.
Proof.
  destruct p as [ | | | | | d]; simpl; try discriminate.
  intros H. apply andb_true_iff in H as [_ H].
  unfold profile_forwards, field_or. simpl.
  destruct (dict_get d "forwards") as [[ | | | | l | ] | ]; try discriminate; auto.
Qed.

Lemma forallb_nth_error {A} (f : A -> bool) (l : list A) (i : nat) (x : A) :
  forallb f l = true -> nth_error l i = Some x -> f x = true.
Proof.
  intros H Hn. rewrite forallb_forall in H. apply H.
  eapply nth_error_In; eauto.
Qed.

Lemma forallb_firstn {A} (f : A -> bool) (l : list A) (n : nat) :
  forallb f l = true -> forallb f (firstn n l) = true.
Proof.
  rewrite !forallb_forall. intros H x Hx. apply H.
  rewrite <- (firstn_skipn n l). apply in_or_app. now left.
Qed.

Lemma nth_error_split_at {A} (l : list A) (i : nat) (x : A) :
  nth_error l i = Some x ->
  l = (firstn i l ++ x :: skipn (S i) l)%list /\ List.length (firstn i l) = i.
Proof.
  revert i. induction l as [ | a l IH]; intros [ | i]; try discriminate.
  - intros [= ->]. auto.
  - intros H. destruct (IH i H) as [E L].
    change (a :: l = a :: (firstn i l ++ x :: skipn (S i) l)%list
            /\ S (List.length (firstn i l)) = S i).
    split; f_equal; assumption.
Qed.

Lemma forward_option_by_direction (fwd : pyval) :
  well_formed_forward fwd = true ->
  forward_option fwd
  = if py_eq (field_or fwd "type" (PStr "local")) (PStr "local")
    then ["-L"; py_str (field fwd "local_port") ++ ":"
                ++ py_str (field_or fwd "remote_host" (PStr "localhost")) ++ ":"
                ++ py_str (field fwd "remote_port")]
    else ["-R"; py_str (field fwd "remote_port") ++ ":"
                ++ py_str (field_or fwd "remote_host" (PStr "localhost")) ++ ":"
                ++ py_str (field fwd "local_port")].
Proof.
  destruct fwd as [ | | | | | d]; simpl; try discriminate.
  unfold dict_mem. intros H.
  unfold forward_option, forward_tokens, field, field_or. simpl.
  destruct (dict_get d "local_port") as [lp | ]; [ | discriminate].
  destruct (dict_get d "remote_port") as [rp | ]; [ | discriminate].
  simpl. now destruct (py_eq _ (PStr "local")).
Qed.

Lemma build_ssh_command_around_forward
    (env : os_env) (p : pyval) (i : nat) (fwd : pyval) :
  well_formed_profile p = true ->
  nth_error (profile_forwards p) i = Some fwd ->
  well_formed_forward fwd = true
  /\ build_ssh_command env p
     = Ok ("ssh" :: (port_option p ++ identity_option env p)
             ++ flat_map forward_option (firstn i (profile_forwards p))
             ++ forward_option fwd
             ++ flat_map forward_option (skipn (S i) (profile_forwards p))
             ++ [destination p])%list
  /\ List.length (flat_map forward_option (firstn i (profile_forwards p))) = 2 * i.
Proof.
  intros Hp Hn.
  pose proof (profile_forwards_well_formed p Hp) as Hall.
  pose proof (forallb_nth_error _ _ _ _ Hall Hn) as Hf.
  destruct (nth_error_split_at _ _ _ Hn) as [Hsplit Hlen].
  split; [exact Hf | split].
  - rewrite (build_ssh_command_shape env p Hp). do 2 f_equal.
    rewrite <- !app_assoc. do 2 f_equal.
    rewrite Hsplit at 1. rewrite flat_map_app. simpl.
    now rewrite <- !app_assoc.
  - rewrite flat_map_forward_option_length by now apply forallb_firstn.
    now rewrite Hlen.
Qed.

(** C1: the flag pair of the forward stored at index [i] of a profile sits
    after the options and after the pairs of the [i] forwards before it, and
    before the destination, which is the last token.  A forward whose
    direction is [local] gives [-L local_port:remote_host:remote_port]; one
    whose direction is [remote] gives [-R remote_port:remote_host:local_port]. *)
Theorem forward_pair_in_position
    (env : os_env) (p : pyval) (i : nat) (fwd : pyval) :
  well_formed_profile p = true ->
  nth_error (profile_forwards p) i = Some fwd ->
  let direction := field_or fwd "type" (PStr "local") in
  let local := py_str (field fwd "local_port") in
  let remote := py_str (field fwd "remote_port") in
  let remote_host := py_str (field_or fwd "remote_host" (PStr "localhost")) in
  exists before after flag value,
    build_ssh_command env p
    = Ok ("ssh" :: (port_option p ++ identity_option env p)
            ++ before ++ [flag; value] ++ after ++ [destination p])%list
    /\ before = flat_map forward_option (firstn i (profile_forwards p))
    /\ after = flat_map forward_option (skipn (S i) (profile_forwards p))
    /\ List.length before = 2 * i
    /\ (direction = PStr "local" ->
        flag = "-L" /\ value = local ++ ":" ++ remote_host ++ ":" ++ remote)
    /\ (direction = PStr "remote" ->
        flag = "-R" /\ value = remote ++ ":" ++ remote_host ++ ":" ++ local).
Proof.
  intros Hp Hn direction local remote remote_host.
  destruct (build_ssh_command_around_forward env p i fwd Hp Hn)
    as (Hf & Hcmd & Hlen).
  pose proof (forward_option_by_direction fwd Hf) as Hopt.
  fold direction local remote remote_host in Hopt.
  destruct (forward_tokens_well_formed fwd Hf) as (_ & flag & value & Hfv & _).
  exists (flat_map forward_option (firstn i (profile_forwards p))),
         (flat_map forward_option (skipn (S i) (profile_forwards p))),
         flag, value.
  split; [now rewrite Hcmd, Hfv | ].
  split; [reflexivity | split; [reflexivity | split; [exact Hlen | ] ] ].
  rewrite Hfv in Hopt.
  split; intros Hd; rewrite Hd in Hopt; simpl in Hopt;
    injection Hopt as -> ->; auto.
Qed.

Lemma forward_pair_in_position_witness :
  well_formed_profile Sample.busy_profile = true
  /\ nth_error (profile_forwards Sample.busy_profile) 1 = Some Sample.dev_forward
  /\ exists before after flag value,
       build_ssh_command Sample.keyed_env Sample.busy_profile
       = Ok ("ssh" :: (port_option Sample.busy_profile
                       ++ identity_option Sample.keyed_env Sample.busy_profile)
               ++ before ++ [flag; value] ++ after
               ++ [destination Sample.busy_profile])%list
       /\ before = flat_map forward_option (firstn 1 (profile_forwards Sample.busy_profile))
       /\ after = flat_map forward_option (skipn 2 (profile_forwards Sample.busy_profile))
       /\ List.length before = 2 * 1
       /\ (PStr "remote" = PStr "local" ->
           flag = "-L" /\ value = "3000" ++ ":" ++ "localhost" ++ ":" ++ "3001")
       /\ (PStr "remote" = PStr "remote" ->
           flag = "-R" /\ value = "3001" ++ ":" ++ "localhost" ++ ":" ++ "3000").
Proof.
  split; [reflexivity | split; [reflexivity | ] ].
  exact (forward_pair_in_position Sample.keyed_env Sample.busy_profile 1
           Sample.dev_forward eq_refl eq_refl).
Defined.

Lemma skipn_app_exact {A} (l r : list A) (n : nat) :
  List.length l = n -> skipn n (l ++ r) = r.
Proof.
  intros <-. rewrite skipn_app, skipn_all, Nat.sub_diag. reflexivity.
Qed.

(** C5: the pairs are laid out from one base index on, two tokens per
    forward, so that the pair of the forward stored at index [i] starts at
    [base + 2 * i]: forwards stored earlier have their flags earlier. *)
Theorem forwards_emitted_in_stored_order (env : os_env) (p : pyval) :
  well_formed_profile p = true ->
  exists cmd base,
    build_ssh_command env p = Ok cmd
    /\ base = 1 + List.length (port_option p ++ identity_option env p)
    /\ List.length cmd = base + 2 * List.length (profile_forwards p) + 1
    /\ forall i fwd,
         nth_error (profile_forwards p) i = Some fwd ->
         forward_tokens fwd = Ok (firstn 2 (skipn (base + 2 * i) cmd)).
Proof.
  intros Hp.
  pose proof (profile_forwards_well_formed p Hp) as Hall.
  eexists. eexists.
  split; [apply (build_ssh_command_shape env p Hp) | ].
  split; [reflexivity | ].
  split.
  - change ("ssh" :: port_option p ++ identity_option env p
              ++ flat_map forward_option (profile_forwards p) ++ [destination p])%list
      with (["ssh"] ++ port_option p ++ identity_option env p
              ++ flat_map forward_option (profile_forwards p) ++ [destination p])%list.
    rewrite !length_app, flat_map_forward_option_length by assumption.
    simpl. lia.
  - intros i fwd Hn.
    pose proof (forallb_nth_error _ _ _ _ Hall Hn) as Hf.
    destruct (nth_error_split_at _ _ _ Hn) as [Hsplit Hlen].
    destruct (forward_tokens_well_formed fwd Hf) as (Htok & flag & value & Hopt & _).
    rewrite Htok. f_equal.
    set (opts := (port_option p ++ identity_option env p)%list).
    replace ("ssh" :: port_option p ++ identity_option env p
               ++ flat_map forward_option (profile_forwards p) ++ [destination p])%list
      with ((("ssh" :: opts) ++ flat_map forward_option (firstn i (profile_forwards p)))
              ++ forward_option fwd
              ++ flat_map forward_option (skipn (S i) (profile_forwards p))
              ++ [destination p])%list.
    + rewrite skipn_app_exact.
      * rewrite Hopt. reflexivity.
      * rewrite length_app, flat_map_forward_option_length
          by now apply forallb_firstn.
        rewrite Hlen. simpl. lia.
    + subst opts. rewrite Hsplit at 3. rewrite flat_map_app. simpl.
      rewrite <- !app_assoc. reflexivity.
Qed.

Lemma forwards_emitted_in_stored_order_witness :
  well_formed_profile Sample.busy_profile = true
  /\ exists cmd base,
       build_ssh_command Sample.keyed_env Sample.busy_profile = Ok cmd
       /\ base = 1 + List.length (port_option Sample.busy_profile
                                  ++ identity_option Sample.keyed_env Sample.busy_profile)
       /\ List.length cmd = base + 2 * List.length (profile_forwards Sample.busy_profile) + 1
       /\ forall i fwd,
            nth_error (profile_forwards Sample.busy_profile) i = Some fwd ->
            forward_tokens fwd = Ok (firstn 2 (skipn (base + 2 * i) cmd)).
Proof.
  split; [reflexivity | ].
  exact (forwards_emitted_in_stored_order Sample.keyed_env Sample.busy_profile eq_refl).
Defined.

(** ** Direction of a forward *)

(** C10, last clause of the claim refuted: a forward record without its
    ports makes the builder raise. *)
Lemma portless_forward_fails :
  well_formed_forward Sample.portless_forward = false
  /\ build_ssh_command Sample.bare_env Sample.broken_profile
     = Raise (KeyError "local_port")
  /\ ~ (forall fwd : pyval,
          exists cmd,
            build_ssh_command Sample.bare_env
              (PDict [("host", PStr "example.com"); ("user", PStr "bob");
                      ("port", PInt 22); ("forwards", PList [fwd])])
            = Ok cmd).
Proof.
  split; [reflexivity | split; [reflexivity | ] ].
  intros H. destruct (H Sample.portless_forward) as [cmd Hcmd].
  discriminate Hcmd.
Qed.

(** C10, as the code has it: a forward record that carries [local_port]
    and [remote_port] never makes the builder fail and always yields one
    flag pair; the pair is [-L] when the record has no [type] field or its
    [type] is ['local'], and [-R] for every other value of [type]. *)
Theorem forward_direction_default (env : os_env) (p fwd : pyval) :
  well_formed_profile p = true ->
  In fwd (profile_forwards p) ->
  let local := py_str (field fwd "local_port") in
  let remote := py_str (field fwd "remote_port") in
  let remote_host := py_str (field_or fwd "remote_host" (PStr "localhost")) in
  exists cmd flag value,
    build_ssh_command env p = Ok cmd
    /\ forward_tokens fwd = Ok [flag; value]
    /\ has_pair flag value cmd
    /\ (py_contains "type" fwd = Ok false ->
        flag = "-L" /\ value = local ++ ":" ++ remote_host ++ ":" ++ remote)
    /\ (forall direction,
          py_getitem fwd "type" = Ok direction ->
          direction <> PStr "local" ->
          flag = "-R" /\ value = remote ++ ":" ++ remote_host ++ ":" ++ local)
    /\ (py_getitem fwd "type" = Ok (PStr "local") ->
        flag = "-L" /\ value = local ++ ":" ++ remote_host ++ ":" ++ remote).
Proof.
  intros Hp Hin local remote remote_host.
  destruct (In_nth_error _ _ Hin) as [i Hn].
  destruct (build_ssh_command_around_forward env p i fwd Hp Hn)
    as (Hf & Hcmd & _).
  pose proof (forward_option_by_direction fwd Hf) as Hopt.
  fold local remote remote_host in Hopt.
  destruct (forward_tokens_well_formed fwd Hf) as (Htok & flag & value & Hfv & _).
  eexists. exists flag, value.
  split; [exact Hcmd | ].
  split; [now rewrite Htok, Hfv | ].
  split.
  { rewrite Hfv.
    exists ("ssh" :: (port_option p ++ identity_option env p)
              ++ flat_map forward_option (firstn i (profile_forwards p)))%list.
    eexists. simpl. rewrite <- !app_assoc. reflexivity. }
  rewrite Hfv in Hopt.
  destruct fwd as [ | | | | | d]; simpl in Hf; try discriminate.
  unfold field_or in Hopt. simpl in Hopt. simpl. unfold dict_mem.
  destruct (dict_get d "type") as [ty | ] eqn:Hty.
  - split; [discriminate | ]. split.
    + intros direction [= <-] Hne.
      destruct (py_eq ty (PStr "local")) eqn:E.
      * apply py_eq_str_inv in E. contradiction.
      * injection Hopt as -> ->. auto.
    + intros [= ->]. simpl in Hopt. injection Hopt as -> ->. auto.
  - simpl in Hopt. injection Hopt as -> ->.
    split; [auto | ]. split; [intros ? [=] | intros [=]].
Qed.

Lemma forward_direction_default_witness :
  well_formed_profile Sample.busy_profile = true
  /\ In Sample.odd_forward (profile_forwards Sample.busy_profile)
  /\ exists cmd flag value,
       build_ssh_command Sample.bare_env Sample.busy_profile = Ok cmd
       /\ forward_tokens Sample.odd_forward = Ok [flag; value]
       /\ has_pair flag value cmd
       /\ (py_contains "type" Sample.odd_forward = Ok false ->
           flag = "-L" /\ value = "1080" ++ ":" ++ "gw" ++ ":" ++ "1081")
       /\ (forall direction,
             py_getitem Sample.odd_forward "type" = Ok direction ->
             direction <> PStr "local" ->
             flag = "-R" /\ value = "1081" ++ ":" ++ "gw" ++ ":" ++ "1080")
       /\ (py_getitem Sample.odd_forward "type" = Ok (PStr "local") ->
           flag = "-L" /\ value = "1080" ++ ":" ++ "gw" ++ ":" ++ "1081").
Proof.
  split; [reflexivity | split; [simpl; auto | ] ].
  exact (forward_direction_default Sample.bare_env Sample.busy_profile
           Sample.odd_forward eq_refl
           (or_intror (or_intror (or_intror (or_introl eq_refl))))).
Defined.

(** ** Port and identity options *)

Lemma has_pair_cons (a b x : string) (l : list string) :
  has_pair a b (x :: l) ->
  (x = a /\ exists l', l = b :: l') \/ has_pair a b l.
Proof.
  intros (pre & post & E). destruct pre as [ | y pre]; simpl in E.
  - injection E as -> ->. left. eauto.
  - injection E as -> ->. right. now exists pre, post.
Qed.

Lemma has_pair_In (a b : string) (l : list string) :
  has_pair a b l -> In a l.
Proof.
  intros (pre & post & ->). apply in_or_app. right. now left.
Qed.

Lemma tail_tokens_of_build (p : pyval) :
  well_formed_profile p = true ->
  forallb tail_token
    (flat_map forward_option (profile_forwards p) ++ [destination p]) = true.
Proof.
  intros Hp. pose proof (profile_forwards_well_formed p Hp) as Hall.
  rewrite forallb_app. apply andb_true_iff. split.
  - induction (profile_forwards p) as [ | fwd fwds IH]; simpl; [reflexivity | ].
    simpl in Hall. apply andb_true_iff in Hall as [Hf Hr].
    rewrite forallb_app, (IH Hr), andb_true_r.
    destruct (forward_tokens_well_formed fwd Hf)
      as (_ & flag & value & -> & [-> | ->] & Hv);
      simpl; unfold tail_token; rewrite Hv; simpl;
      now rewrite ?orb_true_r.
  - simpl. unfold tail_token. rewrite destination_at. now rewrite !orb_true_r.
Qed.

Lemma tail_token_not_in (t : string) (l : list string) :
  forallb tail_token l = true -> tail_token t = false -> ~ In t l.
Proof.
  intros H Ht Hin. rewrite forallb_forall in H.
  rewrite (H t Hin) in Ht. discriminate.
Qed.

Lemma no_port_pair_without_port_option (env : os_env) (p : pyval) (b : string) :
  well_formed_profile p = true ->
  tail_token b = false ->
  ~ has_pair "-p" b
      ("ssh" :: identity_option env p
         ++ flat_map forward_option (profile_forwards p) ++ [destination p])%list.
Proof.
  intros Hp Hb Hpair.
  pose proof (tail_tokens_of_build p Hp) as Htail.
  set (tl := (flat_map forward_option (profile_forwards p) ++ [destination p])%list) in *.
  assert (Hno : ~ has_pair "-p" b tl).
  { intros H. apply has_pair_In in H.
    now apply (tail_token_not_in "-p" tl Htail). }
  apply has_pair_cons in Hpair as [[E _] | Hpair]; [discriminate E | ].
  unfold identity_option in Hpair.
  destruct (field_or p "key" PNone) as [ | | | k | | ]; try contradiction.
  destruct (String.eqb k ""); [contradiction | ].
  destruct (path_exists env _); [ | contradiction].
  simpl in Hpair.
  apply has_pair_cons in Hpair as [[E _] | Hpair]; [discriminate E | ].
  apply has_pair_cons in Hpair as [[_ (l' & E)] | Hpair]; [ | contradiction].
  rewrite E in Htail. simpl in Htail. rewrite Hb in Htail. discriminate.
Qed.

(** C3: the pair [-p str(port)] is in the command exactly when the port
    differs from 22; the command is never empty; without key and forwards
    it is [ssh user@host] for port 22 and [ssh -p 2222 user@host] for port
    2222. *)
Theorem port_option_iff_port_not_22 (env : os_env) (p : pyval) :
  well_formed_profile p = true ->
  exists cmd,
    build_ssh_command env p = Ok cmd
    /\ cmd <> []
    /\ (has_pair "-p" (py_str (profile_port p)) cmd
        <-> py_eq (profile_port p) (PInt 22) = false)
    /\ (profile_port p = PInt 22 ->
        py_contains "key" p = Ok false ->
        profile_forwards p = [] ->
        cmd = ["ssh"; destination p])
    /\ (profile_port p = PInt 2222 ->
        py_contains "key" p = Ok false ->
        profile_forwards p = [] ->
        cmd = ["ssh"; "-p"; "2222"; destination p]).
Proof.
  intros Hp. eexists.
  split; [apply (build_ssh_command_shape env p Hp) | ].
  split; [discriminate | ].
  assert (Hnokey : py_contains "key" p = Ok false -> identity_option env p = []).
  { destruct p as [ | | | | | d]; simpl in Hp; try discriminate.
    unfold identity_option, field_or. simpl. unfold dict_mem.
    destruct (dict_get d "key"); [intros [=] | reflexivity]. }
  split; [split | split].
  - intros Hpair. destruct (py_eq (profile_port p) (PInt 22)) eqn:E; [ | reflexivity].
    exfalso. unfold port_option in Hpair. rewrite E in Hpair.
    apply py_eq_22_inv in E. rewrite E in Hpair.
    now apply (no_port_pair_without_port_option env p "22" Hp) in Hpair.
  - intros E. unfold port_option. rewrite E.
    exists ["ssh"]. eexists. reflexivity.
  - intros Hport Hkey Hfw. unfold port_option.
    rewrite Hport, (Hnokey Hkey), Hfw. reflexivity.
  - intros Hport Hkey Hfw. unfold port_option.
    rewrite Hport, (Hnokey Hkey), Hfw. reflexivity.
Qed.

Lemma port_option_iff_port_not_22_witness :
  well_formed_profile Sample.plain_profile = true
  /\ exists cmd,
       build_ssh_command Sample.bare_env Sample.plain_profile = Ok cmd
       /\ cmd <> []
       /\ (has_pair "-p" "22" cmd <-> py_eq (PInt 22) (PInt 22) = false)
       /\ (PInt 22 = PInt 22 ->
           py_contains "key" Sample.plain_profile = Ok false ->
           profile_forwards Sample.plain_profile = [] ->
           cmd = ["ssh"; "bob@example.com"])
       /\ (PInt 22 = PInt 2222 ->
           py_contains "key" Sample.plain_profile = Ok false ->
           profile_forwards Sample.plain_profile = [] ->
           cmd = ["ssh"; "-p"; "2222"; "bob@example.com"]).
Proof.
  split; [reflexivity | ].
  exact (port_option_iff_port_not_22 Sample.bare_env Sample.plain_profile eq_refl).
Defined.

Lemma rbind_ext {A B} (m : res A) (f g : A -> res B) :
  (forall a, f a = g a) -> rbind m f = rbind m g.
Proof. intros H. destruct m; simpl; auto. Qed.

Lemma build_ssh_command_same_files (env env' : os_env) (p : pyval) :
  same_files env env' -> build_ssh_command env' p = build_ssh_command env p.
Proof.
  intros [Hexp Hex]. unfold build_ssh_command.
  do 4 (apply rbind_ext; intros ?).
  match goal with |- rbind ?m _ = rbind ?m' _ => replace m with m' end;
    [reflexivity | ].
  destruct (py_truthy _); [ | reflexivity].
  unfold expanduser.
  match goal with |- context [match ?k with PStr _ => _ | _ => _ end] =>
    destruct k; simpl; try reflexivity end.
  rewrite Hexp. now rewrite Hex.
Qed.

Lemma str_of_Z_not_identity_flag (z : Z) : str_of_Z z <> "-i".
Proof.
  unfold str_of_Z. destruct z as [ | q | q]; simpl; try discriminate.
  - destruct (Pos.to_uint q); discriminate.
  - destruct (Pos.to_uint q); discriminate.
Qed.

(** C4: the command is a function of the profile and of what the file
    system answers about its key, nothing else; and when the expanded key
    path does not exist the command holds no [-i] at all, hence no
    identity-file pair. *)
Theorem build_pure_and_drops_missing_key (env : os_env) (p : pyval) :
  well_formed_profile p = true ->
  int_port p = true ->
  (forall k, field_or p "key" PNone = PStr k ->
             path_exists env (if starts_with "~" k then expand_tilde env k else k)
             = false) ->
  (forall env', same_files env env' ->
                build_ssh_command env' p = build_ssh_command env p)
  /\ exists cmd,
       build_ssh_command env p = Ok cmd
       /\ ~ In "-i" cmd
       /\ forall path, ~ has_pair "-i" path cmd.
Proof.
  intros Hp Hport Hmissing.
  split; [intros env' Hsame; now apply build_ssh_command_same_files | ].
  eexists. split; [apply (build_ssh_command_shape env p Hp) | ].
  assert (Hid : identity_option env p = []).
  { unfold identity_option.
    destruct (field_or p "key" PNone) as [ | | | k | | ] eqn:Ek; try reflexivity.
    destruct (String.eqb k ""); [reflexivity | ].
    cbv zeta. now rewrite (Hmissing k eq_refl). }
  assert (Hin : ~ In "-i"
                  ("ssh" :: port_option p ++ identity_option env p
                     ++ flat_map forward_option (profile_forwards p)
                     ++ [destination p])%list).
  { rewrite Hid. simpl. intros [E | Hin]; [discriminate E | ].
    apply in_app_or in Hin as [Hin | Hin].
    - unfold port_option, int_port in *.
      destruct (profile_port p) as [ | | z | | | ]; try discriminate.
      destruct (py_eq (PInt z) (PInt 22)); simpl in Hin; [contradiction | ].
      destruct Hin as [E | [E | []]]; [discriminate E | ].
      now apply (str_of_Z_not_identity_flag z).
    - now apply (tail_token_not_in "-i" _ (tail_tokens_of_build p Hp)). }
  split; [exact Hin | ].
  intros path Hpair. apply Hin. eapply has_pair_In; eauto.
Qed.

Lemma build_pure_and_drops_missing_key_witness :
  well_formed_profile Sample.busy_profile = true
  /\ int_port Sample.busy_profile = true
  /\ (forall env', same_files Sample.bare_env env' ->
                   build_ssh_command env' Sample.busy_profile
                   = build_ssh_command Sample.bare_env Sample.busy_profile)
  /\ exists cmd,
       build_ssh_command Sample.bare_env Sample.busy_profile = Ok cmd
       /\ ~ In "-i" cmd
       /\ forall path, ~ has_pair "-i" path cmd.
Proof.
  split; [reflexivity | split; [reflexivity | ] ].
  exact (build_pure_and_drops_missing_key Sample.bare_env Sample.busy_profile
           eq_refl eq_refl (fun k _ => eq_refl)).
Defined.

(** ** JSON text: what is written is read back *)

Lemma string_length_app (s t : string) :
  String.length (s ++ t) = String.length s + String.length t.
Proof. induction s as [ | c s IH]; simpl; [reflexivity | now rewrite IH]. Qed.

Lemma string_app_assoc (s t u : string) : (s ++ t) ++ u = s ++ (t ++ u).
Proof. induction s as [ | c s IH]; simpl; [reflexivity | now rewrite IH]. Qed.

Lemma string_app_nil_r (s : string) : s ++ "" = s.
Proof. induction s as [ | c s IH]; simpl; [reflexivity | now rewrite IH]. Qed.

(** *** Strings *)

Lemma scanstring_escape_char (c : ascii) (tail : string) :
  scanstring true (json_escape_char c ++ tail)
  = dbind (scanstring true tail) (fun xr => Parsed (String c (fst xr), snd xr)).
Proof.
  destruct c as [[ | ] [ | ] [ | ] [ | ] [ | ] [ | ] [ | ] [ | ]]; reflexivity.
Qed.

Lemma scanstring_encoded (s rest : string) :
  scanstring true (str_concat_map json_escape_char s ++ String dquote rest)
  = Parsed (s, rest).
Proof.
  induction s as [ | c s IH]; [reflexivity | ].
  simpl str_concat_map. rewrite string_app_assoc, scanstring_escape_char, IH.
  reflexivity.
Qed.

Lemma scanstring_basestring (s rest : string) :
  exists body,
    encode_basestring_ascii s ++ rest = String dquote body
    /\ scanstring true body = Parsed (s, rest).
Proof.
  exists (str_concat_map json_escape_char s ++ String dquote rest). split.
  - unfold encode_basestring_ascii, str1. simpl. now rewrite string_app_assoc.
  - apply scanstring_encoded.
Qed.

(** *** Integers *)

Lemma ends_value_no_digit (rest : string) :
  ends_value rest = true ->
  starts_with_digit rest = false /\ float_follows rest = false.
Proof.
  destruct rest as [ | c rest]; [auto | ].
  simpl. intros H. apply orb_true_iff in H as [H | H];
    apply Ascii.eqb_eq in H; subst c; auto.
Qed.

Lemma span_digits_stop (rest : string) :
  starts_with_digit rest = false -> span_digits rest = (EmptyString, rest).
Proof.
  destruct rest as [ | c rest]; [reflexivity | ].
  simpl. now intros ->.
Qed.

Lemma span_digits_uint (u : uint) (rest : string) :
  starts_with_digit rest = false ->
  span_digits (NilEmpty.string_of_uint u ++ rest)
  = (NilEmpty.string_of_uint u, rest).
Proof.
  intros Hrest.
  induction u as [ | u IH | u IH | u IH | u IH | u IH | u IH | u IH | u IH
                   | u IH | u IH]; simpl; try (rewrite IH; reflexivity).
  destruct rest as [ | c rest]; [reflexivity | ].
  simpl in *. now rewrite Hrest.
Qed.

Lemma uint_value_string_of_uint (u : uint) :
  uint_value (NilEmpty.string_of_uint u) = Z.of_uint u.
Proof. unfold uint_value. now rewrite NilEmpty.usu. Qed.

Lemma to_uint_head_nonzero (q : positive) :
  exists c s, NilEmpty.string_of_uint (Pos.to_uint q) = String c s
              /\ is_digit c = true /\ Ascii.eqb c "0" = false.
Proof.
  pose proof (DecimalPos.Unsigned.to_of (Pos.to_uint q)) as H.
  rewrite DecimalPos.Unsigned.of_to in H. simpl in H.
  pose proof (DecimalPos.Unsigned.to_uint_nonnil q) as Hnil.
  pose proof (DecimalPos.Unsigned.to_uint_nonzero q) as Hzero.
  destruct (Pos.to_uint q) as [ | u | u | u | u | u | u | u | u | u | u ] eqn:E;
    try (eexists; eexists; split; [reflexivity | split; reflexivity]).
  - contradiction.
  - exfalso. rewrite DecimalFacts.unorm_D0 in H. unfold unorm in H.
    destruct (nzhead u) as [ | u0 | | | | | | | | | ] eqn:En.
    + injection H as H. subst u. now apply Hzero.
    + now apply (DecimalFacts.nzhead_nonzero u u0) in En.
    + discriminate H. + discriminate H. + discriminate H. + discriminate H.
    + discriminate H. + discriminate H. + discriminate H. + discriminate H.
    + discriminate H.
Qed.

Lemma Z_of_uint_to_uint (q : positive) : Z.of_uint (Pos.to_uint q) = Z.pos q.
Proof.
  unfold Z.of_uint. now rewrite DecimalPos.Unsigned.of_to.
Qed.

Lemma scan_number_positive (q : positive) (rest : string) :
  ends_value rest = true ->
  scan_number true (NilEmpty.string_of_uint (Pos.to_uint q) ++ rest)
  = Parsed (PInt (Z.pos q), rest).
Proof.
  intros Hrest. destruct (ends_value_no_digit rest Hrest) as [Hd Hf].
  destruct (to_uint_head_nonzero q) as (c & s & E & Hc & Hz).
  unfold scan_number.
  assert (Hminus : Ascii.eqb c "-" = false).
  { destruct (Ascii.eqb_spec c "-"); [subst c; discriminate Hc | reflexivity]. }
  pose proof (span_digits_uint (Pos.to_uint q) rest Hd) as Hspan.
  rewrite E in *. simpl append in *. cbv beta iota.
  rewrite Hminus, Hspan, Hz, Hf.
  rewrite <- E, uint_value_string_of_uint, Z_of_uint_to_uint. reflexivity.
Qed.

Lemma scan_number_encoded (z : Z) (rest : string) :
  ends_value rest = true ->
  scan_number true (str_of_Z z ++ rest) = Parsed (PInt z, rest).
Proof.
  intros Hrest. destruct (ends_value_no_digit rest Hrest) as [Hd Hf].
  unfold str_of_Z. destruct z as [ | q | q]; simpl Z.to_int.
  - change (scan_number true (String "0" rest) = Parsed (PInt 0, rest)).
    unfold scan_number. cbn.
    rewrite (span_digits_stop rest Hd). cbn. now rewrite Hf.
  - unfold NilZero.string_of_int, NilZero.string_of_uint.
    pose proof (scan_number_positive q rest Hrest) as H.
    destruct (Pos.to_uint q) eqn:E; try exact H.
    now apply DecimalPos.Unsigned.to_uint_nonnil in E.
  - unfold NilZero.string_of_int, NilZero.string_of_uint.
    assert (Hneg : scan_number true
                     (String "-" (NilEmpty.string_of_uint (Pos.to_uint q)) ++ rest)
                   = Parsed (PInt (Z.neg q), rest)).
    { destruct (to_uint_head_nonzero q) as (c & s & E & Hc & Hz).
      pose proof (span_digits_uint (Pos.to_uint q) rest Hd) as Hspan.
      unfold scan_number. rewrite E in *. simpl append in *.
      cbv beta iota. change (Ascii.eqb "-" "-") with true. cbv beta iota.
      rewrite Hspan, Hz, Hf.
      rewrite <- E, uint_value_string_of_uint, Z_of_uint_to_uint. reflexivity. }
    destruct (Pos.to_uint q) eqn:E; try exact Hneg.
    now apply DecimalPos.Unsigned.to_uint_nonnil in E.
Qed.

Lemma str_of_Z_head (z : Z) :
  exists c s, str_of_Z z = String c s
              /\ (is_digit c = true \/ c = "-"%char).
Proof.
  unfold str_of_Z. destruct z as [ | q | q]; simpl Z.to_int.
  - exists "0"%char, EmptyString. auto.
  - destruct (to_uint_head_nonzero q) as (c & s & E & Hc & _).
    exists c, s. split; [ | auto].
    unfold NilZero.string_of_int, NilZero.string_of_uint.
    destruct (Pos.to_uint q); try exact E. discriminate E.
  - eexists; eexists. split; [reflexivity | auto].
Qed.

Lemma scan_once_number (fuel : nat) (c : ascii) (s : string) :
  is_digit c = true \/ c = "-"%char ->
  scan_once true (S fuel) (String c s) = scan_number true (String c s).
Proof.
  intros H.
  destruct c as [[ | ] [ | ] [ | ] [ | ] [ | ] [ | ] [ | ] [ | ]];
    try reflexivity;
    exfalso; destruct H as [H | H]; discriminate H.
Qed.

(** *** White space and the first character of a value *)

Lemma skip_ws_spaces (n : nat) (s : string) : skip_ws (spaces n ++ s) = skip_ws s.
Proof. induction n as [ | n IH]; simpl; auto. Qed.

Lemma skip_ws_newline_indent (level : nat) (s : string) :
  skip_ws (newline_indent level ++ s) = skip_ws s.
Proof. unfold newline_indent. simpl. apply skip_ws_spaces. Qed.

Lemma value_start_facts (c : ascii) :
  value_start c = true ->
  is_ws c = false /\ Ascii.eqb c "]" = false /\ Ascii.eqb c "}" = false.
Proof.
  destruct c as [[ | ] [ | ] [ | ] [ | ] [ | ] [ | ] [ | ] [ | ]];
    intros H; try discriminate H; auto.
Qed.

Lemma iterencode_head (v : pyval) (level : nat) :
  exists c s, iterencode v level = String c s /\ value_start c = true.
Proof.
  destruct v as [ | [ | ] | z | s | [ | x xs] | [ | kx kvs]];
    try (eexists; eexists; split; [reflexivity | reflexivity]).
  destruct (str_of_Z_head z) as (c & s & E & [Hc | ->]).
  - exists c, s. split; [exact E | ]. unfold value_start. now rewrite Hc.
  - eexists; eexists. split; [exact E | reflexivity].
Qed.

Lemma skip_ws_value (v : pyval) (level : nat) (rest : string) :
  skip_ws (iterencode v level ++ rest) = iterencode v level ++ rest.
Proof.
  destruct (iterencode_head v level) as (c & s & -> & Hc).
  apply value_start_facts in Hc as (Hws & _). simpl. now rewrite Hws.
Qed.

Lemma iterencode_length (v : pyval) (level : nat) :
  1 <= String.length (iterencode v level).
Proof.
  destruct (iterencode_head v level) as (c & s & -> & _). simpl. lia.
Qed.

(** *** Dicts *)

Lemma dict_set_fresh (d : pydict) (k : string) (v : pyval) :
  existsb (String.eqb k) (dict_keys d) = false ->
  dict_set d k v = (d ++ [(k, v)])%list.
Proof.
  induction d as [ | [k' v'] d IH]; simpl; [reflexivity | ].
  intros H. apply orb_false_iff in H as [Hk Hd].
  rewrite Hk. now rewrite (IH Hd).
Qed.

Lemma dict_of_pairs_distinct_from (d acc : pydict) :
  distinct (dict_keys (acc ++ d)%list) = true ->
  fold_left (fun d kv => dict_set d (fst kv) (snd kv)) d acc = (acc ++ d)%list.
Proof.
  revert acc. induction d as [ | [k v] d IH]; intros acc H; simpl.
  - now rewrite app_nil_r.
  - assert (Hfresh : existsb (String.eqb k) (dict_keys acc) = false).
    { clear IH. induction acc as [ | [k' v'] acc IHa]; simpl in *; [reflexivity | ].
      apply andb_true_iff in H as [Hk' Hrest].
      rewrite (IHa Hrest), orb_false_r.
      unfold dict_keys in Hk'. rewrite map_app in Hk'. simpl in Hk'.
      rewrite existsb_app in Hk'. simpl in Hk'.
      apply negb_true_iff in Hk'.
      apply orb_false_iff in Hk' as [_ Hk'].
      apply orb_false_iff in Hk' as [Hk' _].
      now rewrite String.eqb_sym. }
    rewrite (dict_set_fresh acc k v Hfresh).
    rewrite IH; rewrite <- app_assoc; [reflexivity | exact H].
Qed.

Lemma dict_of_pairs_distinct (d : pydict) :
  distinct (dict_keys d) = true -> dict_of_pairs d = d.
Proof. intros H. apply (dict_of_pairs_distinct_from d [] H). Qed.

(** *** Values *)

Lemma pyval_nested_ind (P : pyval -> Prop) :
  P PNone ->
  (forall b, P (PBool b)) ->
  (forall z, P (PInt z)) ->
  (forall s, P (PStr s)) ->
  (forall l, Forall P l -> P (PList l)) ->
  (forall d, Forall (fun kv => P (snd kv)) d -> P (PDict d)) ->
  forall v, P v.
Proof.
  intros HN HB HI HS HL HD.
  fix IH 1. intros [ | b | z | s | l | d].
  - exact HN.
  - apply HB.
  - apply HI.
  - apply HS.
  - apply HL. induction l as [ | x l IHl]; constructor; [apply IH | exact IHl].
  - apply HD. induction d as [ | [k x] d IHd]; constructor; [apply IH | exact IHd].
Qed.

Lemma scan_once_string (fuel : nat) (s : string) :
  scan_once true (S fuel) (String dquote s)
  = dbind (scanstring true s) (fun xr => let (x, r) := xr in Parsed (PStr x, r)).
Proof. reflexivity. Qed.

Lemma scan_once_array (fuel : nat) (s : string) :
  scan_once true (S fuel) (String "[" s)
  = if starts_with "]" (skip_ws s) then Parsed (PList [], tail (skip_ws s))
    else dbind (array_items true fuel (skip_ws s))
           (fun vr => let (values, r) := vr in Parsed (PList values, r)).
Proof. reflexivity. Qed.

Lemma scan_once_object (fuel : nat) (s : string) :
  scan_once true (S fuel) (String "{" s)
  = if starts_with "}" (skip_ws s) then Parsed (PDict [], tail (skip_ws s))
    else dbind (object_items true fuel (skip_ws s))
           (fun pr => let (pairs, r) := pr in
                      Parsed (PDict (dict_of_pairs pairs), r)).
Proof. reflexivity. Qed.

Lemma array_items_step (exact : bool) (fuel : nat) (s : string) :
  array_items exact (S fuel) s
  = dbind (scan_once exact fuel s)
      (fun vr => let (value, r) := vr in
         match skip_ws r with
         | String "]" r' => Parsed ([value], r')
         | String "," r' =>
             dbind (array_items exact fuel (skip_ws r'))
               (fun vr' => let (values, r'') := vr' in Parsed (value :: values, r''))
         | _ => Malformed
         end).
Proof. reflexivity. Qed.

Lemma object_items_step (exact : bool) (fuel : nat) (s : string) :
  object_items exact (S fuel) (String dquote s)
  = dbind (scanstring exact s)
      (fun kr => let (key, r) := kr in
         match skip_ws r with
         | String ":" r1 =>
             dbind (scan_once exact fuel (skip_ws r1))
               (fun vr => let (value, r2) := vr in
                  match skip_ws r2 with
                  | String "}" r3 => Parsed ([(key, value)], r3)
                  | String "," r3 =>
                      dbind (object_items exact fuel (skip_ws r3))
                        (fun pr => let (pairs, r4) := pr in
                                   Parsed ((key, value) :: pairs, r4))
                  | _ => Malformed
                  end)
         | _ => Malformed
         end).
Proof. reflexivity. Qed.

Lemma array_items_encoded (xs : list pyval) :
  Forall decodes_back xs ->
  forall x, decodes_back x ->
  forall (level : nat) (rest : string) (fuel : nat),
    String.length
      (iterencode x (S level)
       ++ more_items (fun y => iterencode y (S level)) "]" level xs) <= fuel ->
    array_items true fuel
      (iterencode x (S level)
       ++ more_items (fun y => iterencode y (S level)) "]" level xs ++ rest)
    = Parsed (x :: xs, rest).
Proof.
  induction 1 as [ | y xs Hy Hxs IH]; intros x Hx level rest fuel Hfuel.
  - rewrite string_length_app in Hfuel. simpl in Hfuel.
    destruct fuel as [ | fuel]; [pose proof (iterencode_length x (S level)); lia | ].
    rewrite array_items_step, Hx; [ | lia | reflexivity].
    cbn [dbind more_items]. rewrite string_app_assoc, skip_ws_newline_indent.
    reflexivity.
  - rewrite string_length_app in Hfuel. cbn [more_items] in Hfuel.
    rewrite !string_length_app in Hfuel. simpl String.length in Hfuel.
    destruct fuel as [ | fuel]; [pose proof (iterencode_length x (S level)); lia | ].
    rewrite array_items_step, Hx; [ | lia | reflexivity].
    cbn [dbind more_items]. rewrite !string_app_assoc.
    change (skip_ws ("," ++ ?t)) with ("," ++ t).
    cbn [append]. cbv beta iota.
    rewrite skip_ws_newline_indent, skip_ws_value.
    rewrite (IH y Hy level rest fuel); [reflexivity | ].
    rewrite string_length_app. lia.
Qed.

Lemma object_items_encoded (kvs : pydict) :
  Forall (fun kv => decodes_back (snd kv)) kvs ->
  forall kx, decodes_back (snd kx) ->
  forall (level : nat) (rest : string) (fuel : nat),
    String.length
      (encode_basestring_ascii (fst kx) ++ ": " ++ iterencode (snd kx) (S level)
       ++ more_items
            (fun ky => encode_basestring_ascii (fst ky) ++ ": "
                       ++ iterencode (snd ky) (S level))
            "}" level kvs) <= fuel ->
    object_items true fuel
      (encode_basestring_ascii (fst kx) ++ ": " ++ iterencode (snd kx) (S level)
       ++ more_items
            (fun ky => encode_basestring_ascii (fst ky) ++ ": "
                       ++ iterencode (snd ky) (S level))
            "}" level kvs ++ rest)
    = Parsed (kx :: kvs, rest).
Proof.
  induction 1 as [ | ky kvs Hy Hkvs IH]; intros [k x] Hx level rest fuel Hfuel;
    cbn [fst snd] in *.
  - rewrite !string_length_app in Hfuel. simpl String.length in Hfuel.
    destruct fuel as [ | fuel]; [lia | ].
    match goal with |- object_items true _ (_ ++ ?t) = _ =>
      destruct (scanstring_basestring k t) as (body & -> & Hscan) end.
    rewrite object_items_step, Hscan. cbn [dbind].
    change (skip_ws (": " ++ ?t)) with (String ":" (" " ++ t)). cbv beta iota.
    change (skip_ws (" " ++ ?t)) with (skip_ws t). rewrite skip_ws_value.
    rewrite Hx; [ | lia | reflexivity].
    cbn [dbind more_items]. rewrite string_app_assoc, skip_ws_newline_indent.
    reflexivity.
  - rewrite !string_length_app in Hfuel. cbn [more_items] in Hfuel.
    rewrite !string_length_app in Hfuel. simpl String.length in Hfuel.
    destruct fuel as [ | fuel]; [lia | ].
    match goal with |- object_items true _ (_ ++ ?t) = _ =>
      destruct (scanstring_basestring k t) as (body & -> & Hscan) end.
    rewrite object_items_step, Hscan. cbn [dbind].
    change (skip_ws (": " ++ ?t)) with (String ":" (" " ++ t)). cbv beta iota.
    change (skip_ws (" " ++ ?t)) with (skip_ws t). rewrite skip_ws_value.
    rewrite Hx; [ | lia | reflexivity].
    cbn [dbind more_items]. rewrite !string_app_assoc.
    change (skip_ws ("," ++ ?t)) with (String "," t). cbv beta iota.
    rewrite skip_ws_newline_indent.
    assert (Hskip : forall s t, skip_ws (encode_basestring_ascii s ++ t)
                                = encode_basestring_ascii s ++ t) by reflexivity.
    rewrite Hskip.
    rewrite (IH ky Hy level rest fuel); [reflexivity | ].
    rewrite !string_length_app. simpl String.length. lia.
Qed.

Lemma Forall_decodes_back (l : list pyval) :
  Forall (fun v => well_keyed v = true -> decodes_back v) l ->
  forallb well_keyed l = true ->
  Forall decodes_back l.
Proof.
  induction 1 as [ | x l Hx Hl IH]; simpl; intros H; constructor.
  - apply Hx. now apply andb_true_iff in H as [H _].
  - apply IH. now apply andb_true_iff in H as [_ H].
Qed.

Lemma Forall_decodes_back_snd (d : pydict) :
  Forall (fun kv => well_keyed (snd kv) = true -> decodes_back (snd kv)) d ->
  forallb (fun kv => well_keyed (snd kv)) d = true ->
  Forall (fun kv => decodes_back (snd kv)) d.
Proof.
  induction 1 as [ | x l Hx Hl IH]; simpl; intros H; constructor.
  - apply Hx. now apply andb_true_iff in H as [H _].
  - apply IH. now apply andb_true_iff in H as [_ H].
Qed.

Theorem scan_once_iterencode (v : pyval) :
  well_keyed v = true -> decodes_back v.
Proof.
  induction v as [ | b | z | s | l IH | d IH] using pyval_nested_ind;
    intros Hwk level rest fuel Hfuel Hrest.
  - destruct fuel as [ | fuel]; [simpl in Hfuel; lia | ].
    reflexivity.
  - destruct fuel as [ | fuel]; [destruct b; simpl in Hfuel; lia | ].
    destruct b; reflexivity.
  - destruct fuel as [ | fuel];
      [pose proof (iterencode_length (PInt z) level); lia | ].
    rewrite <- (scan_number_encoded z rest Hrest).
    simpl iterencode. destruct (str_of_Z_head z) as (c & t & -> & Hc).
    now apply scan_once_number.
  - destruct fuel as [ | fuel];
      [pose proof (iterencode_length (PStr s) level); lia | ].
    simpl iterencode.
    destruct (scanstring_basestring s rest) as (body & -> & Hscan).
    now rewrite scan_once_string, Hscan.
  - destruct fuel as [ | fuel];
      [pose proof (iterencode_length (PList l) level); lia | ].
    destruct l as [ | x xs]; [reflexivity | ].
    simpl in Hwk. pose proof (Forall_decodes_back _ IH Hwk) as Hall.
    inversion Hall as [ | ? ? Hx Hxs]; subst.
    cbn [iterencode] in *. rewrite !string_app_assoc.
    change ("[" ++ ?t) with (String "[" t).
    rewrite scan_once_array, skip_ws_newline_indent, skip_ws_value.
    destruct (iterencode_head x (S level)) as (c & t & E & Hc).
    apply value_start_facts in Hc as (_ & Hc & _).
    assert (Hstart : forall u, starts_with "]" (iterencode x (S level) ++ u) = false).
    { intros u. rewrite E. simpl. exact Hc. }
    rewrite Hstart.
    rewrite (array_items_encoded xs Hxs x Hx level rest fuel); [reflexivity | ].
    rewrite !string_length_app in Hfuel. cbn [String.length] in Hfuel.
      rewrite !string_length_app. cbn [String.length]. lia.
  - destruct fuel as [ | fuel];
      [pose proof (iterencode_length (PDict d) level); lia | ].
    destruct d as [ | kx kvs]; [reflexivity | ].
    simpl in Hwk. apply andb_true_iff in Hwk as [Hkeys Hwk].
    pose proof (Forall_decodes_back_snd _ IH Hwk) as Hall.
    inversion Hall as [ | ? ? Hx Hxs]; subst.
    cbn [iterencode] in *. rewrite !string_app_assoc.
    change ("{" ++ ?t) with (String "{" t).
    rewrite scan_once_object, skip_ws_newline_indent.
    assert (Hskip : forall s t, skip_ws (encode_basestring_ascii s ++ t)
                                = encode_basestring_ascii s ++ t) by reflexivity.
    rewrite Hskip.
    assert (Hstart : forall s t, starts_with "}" (encode_basestring_ascii s ++ t)
                                 = false) by reflexivity.
    rewrite Hstart.
    rewrite (object_items_encoded kvs Hxs kx Hx level rest fuel).
    + cbn [dbind]. now rewrite (dict_of_pairs_distinct (kx :: kvs) Hkeys).
    + rewrite !string_length_app in Hfuel. cbn [String.length] in Hfuel.
      rewrite !string_length_app. cbn [String.length]. lia.
Qed.

(** Saving a value and loading the text gives the value back. *)
Lemma decode_dumps (v : pyval) :
  well_keyed v = true -> decode true (json_dumps v) = Parsed v.
Proof.
  intros Hwk. unfold decode, json_dumps.
  pose proof (skip_ws_value v 0 "") as Hskip.
  pose proof (scan_once_iterencode v Hwk 0 ""
                (S (2 * String.length (iterencode v 0)))) as Hscan.
  rewrite string_app_nil_r in Hskip, Hscan.
  rewrite Hskip, Hscan; [reflexivity | lia | reflexivity].
Qed.

Lemma json_loads_parsed (s : string) (v : pyval) :
  json_loads s = Parsed v <-> decode true s = Parsed v.
Proof.
  unfold json_loads.
  destruct (decode true s) as [v0 | | | ]; try tauto.
  destruct (decode false s); split; discriminate.
Qed.

Theorem json_loads_dumps (v : pyval) :
  well_keyed v = true -> json_loads (json_dumps v) = Parsed v.
Proof. intros Hwk. apply json_loads_parsed. now apply decode_dumps. Qed.

(** *** What the decoder returns is a value of Python: no dict has a key
    twice *)

Lemma dict_keys_set_in (d : pydict) (k k' : string) (v : pyval) :
  existsb (String.eqb k') (dict_keys (dict_set d k v))
  = existsb (String.eqb k') (dict_keys d) || String.eqb k' k.
Proof.
  induction d as [ | [k0 v0] d IH]; simpl.
  - now rewrite orb_false_r.
  - destruct (String.eqb k k0) eqn:E; simpl.
    + apply String.eqb_eq in E. subst k0.
      destruct (String.eqb k' k), (existsb (String.eqb k') (dict_keys d));
        reflexivity.
    + rewrite IH. now rewrite orb_assoc.
Qed.

Lemma dict_set_distinct (d : pydict) (k : string) (v : pyval) :
  distinct (dict_keys d) = true -> distinct (dict_keys (dict_set d k v)) = true.
Proof.
  induction d as [ | [k0 v0] d IH]; simpl; [reflexivity | ].
  intros H. apply andb_true_iff in H as [Hk0 Hd].
  destruct (String.eqb_spec k k0) as [-> | Hne]; simpl.
  - now rewrite Hk0, Hd.
  - rewrite (IH Hd), andb_true_r. rewrite dict_keys_set_in.
    apply negb_true_iff in Hk0. rewrite Hk0. simpl.
    apply negb_true_iff. apply String.eqb_neq. congruence.
Qed.

Lemma dict_set_values (P : pyval -> bool) (d : pydict) (k : string) (v : pyval) :
  forallb (fun kv => P (snd kv)) d = true -> P v = true ->
  forallb (fun kv => P (snd kv)) (dict_set d k v) = true.
Proof.
  induction d as [ | [k0 v0] d IH]; simpl; intros H Hv.
  - now rewrite Hv.
  - apply andb_true_iff in H as [H0 Hd].
    destruct (String.eqb k k0); simpl.
    + now rewrite Hv, Hd.
    + now rewrite H0, (IH Hd Hv).
Qed.

Lemma dict_set_well_keyed (d : pydict) (k : string) (v : pyval) :
  well_keyed (PDict d) = true -> well_keyed v = true ->
  well_keyed (PDict (dict_set d k v)) = true.
Proof.
  simpl. intros H Hv. apply andb_true_iff in H as [Hk Hd].
  rewrite (dict_set_distinct d k v Hk). simpl.
  now apply dict_set_values.
Qed.

Lemma dict_of_pairs_well_keyed (pairs : pydict) :
  forallb (fun kv => well_keyed (snd kv)) pairs = true ->
  well_keyed (PDict (dict_of_pairs pairs)) = true.
Proof.
  unfold dict_of_pairs.
  assert (H : forall acc,
             well_keyed (PDict acc) = true ->
             forallb (fun kv => well_keyed (snd kv)) pairs = true ->
             well_keyed
               (PDict (fold_left (fun d kv => dict_set d (fst kv) (snd kv)) pairs acc))
             = true).
  { induction pairs as [ | [k v] pairs IH]; intros acc Hacc Hp; [exact Hacc | ].
    simpl in Hp. apply andb_true_iff in Hp as [Hv Hp].
    simpl fold_left. apply IH; [ | exact Hp].
    now apply dict_set_well_keyed. }
  intros Hp. now apply H.
Qed.

Lemma scan_number_int (s : string) (v : pyval) (r : string) :
  scan_number true s = Parsed (v, r) -> exists z, v = PInt z.
Proof.
  unfold scan_number.
  destruct (match s with
            | EmptyString => (false, s)
            | String c s' => if Ascii.eqb c "-" then (true, s') else (false, s)
            end) as [negative body].
  destruct (span_digits body) as [ds r0].
  destruct ds as [ | d ds'].
  - destruct (_ || _); discriminate.
  - destruct (if Ascii.eqb d "0" then _ else _) as [digits after].
    destruct (float_follows after); [discriminate | ].
    intros [= <- _]. eauto.
Qed.

Lemma scan_once_step (exact : bool) (fuel : nat) (c : ascii) (s' : string) :
  scan_once exact (S fuel) (String c s')
  = if Ascii.eqb c dquote then
      dbind (scanstring exact s') (fun xr => let (x, r) := xr in Parsed (PStr x, r))
    else if Ascii.eqb c "{" then
      if starts_with "}" (skip_ws s') then Parsed (PDict [], tail (skip_ws s'))
      else dbind (object_items exact fuel (skip_ws s'))
             (fun pr => let (pairs, r) := pr in
                        Parsed (PDict (dict_of_pairs pairs), r))
    else if Ascii.eqb c "[" then
      if starts_with "]" (skip_ws s') then Parsed (PList [], tail (skip_ws s'))
      else dbind (array_items exact fuel (skip_ws s'))
             (fun vr => let (values, r) := vr in Parsed (PList values, r))
    else
      match strip_prefix "null" (String c s') with
      | Some r => Parsed (PNone, r)
      | None =>
          match strip_prefix "true" (String c s') with
          | Some r => Parsed (PBool true, r)
          | None =>
              match strip_prefix "false" (String c s') with
              | Some r => Parsed (PBool false, r)
              | None => scan_number exact (String c s')
              end
          end
      end.
Proof. reflexivity. Qed.

Lemma object_items_step_any (exact : bool) (fuel : nat) (s : string) :
  object_items exact (S fuel) s
  = match s with
    | String q s1 =>
        if Ascii.eqb q dquote then object_items exact (S fuel) (String dquote s1)
        else Malformed
    | EmptyString => Malformed
    end.
Proof.
  destruct s as [ | q s1]; [reflexivity | ].
  destruct (Ascii.eqb_spec q dquote) as [-> | Hne]; [reflexivity | ].
  simpl. apply Ascii.eqb_neq in Hne. now rewrite Hne.
Qed.

Lemma decoder_well_keyed (fuel : nat) :
  (forall s v r, scan_once true fuel s = Parsed (v, r) -> well_keyed v = true)
  /\ (forall s vs r, array_items true fuel s = Parsed (vs, r) ->
                     forallb well_keyed vs = true)
  /\ (forall s ps r, object_items true fuel s = Parsed (ps, r) ->
                     forallb (fun kv => well_keyed (snd kv)) ps = true).
Proof.
  induction fuel as [ | fuel (IHs & IHa & IHo)];
    [repeat split; intros; discriminate | ].
  split; [ | split].
  - intros [ | c s'] v r; [discriminate | ].
    rewrite scan_once_step.
    destruct (Ascii.eqb c dquote).
    { destruct (scanstring true s') as [[x r0] | | | ]; simpl; try discriminate.
      now intros [= <- _]. }
    destruct (Ascii.eqb c "{").
    { destruct (starts_with "}" _); [now intros [= <- _] | ].
      destruct (object_items true fuel _) as [[pairs r0] | | | ] eqn:E; simpl;
        try discriminate.
      intros [= <- _]. apply dict_of_pairs_well_keyed. eapply IHo; eauto. }
    destruct (Ascii.eqb c "[").
    { destruct (starts_with "]" _); [now intros [= <- _] | ].
      destruct (array_items true fuel _) as [[values r0] | | | ] eqn:E; simpl;
        try discriminate.
      intros [= <- _]. simpl. eapply IHa; eauto. }
    destruct (strip_prefix "null" _); [now intros [= <- _] | ].
    destruct (strip_prefix "true" _); [now intros [= <- _] | ].
    destruct (strip_prefix "false" _); [now intros [= <- _] | ].
    intros H. apply scan_number_int in H as [z ->]. reflexivity.
  - intros s vs r. rewrite array_items_step.
    destruct (scan_once true fuel s) as [[value r0] | | | ] eqn:E; simpl; try discriminate.
    pose proof (IHs _ _ _ E) as Hv.
    destruct (skip_ws r0) as [ | c r1]; [discriminate | ].
    destruct (Ascii.eqb_spec c "]") as [-> | Hclose].
    { intros [= <- _]. simpl. now rewrite Hv. }
    destruct (Ascii.eqb_spec c ",") as [-> | Hcomma].
    { destruct (array_items true fuel _) as [[values r2] | | | ] eqn:E2; simpl;
        try discriminate.
      intros [= <- _]. simpl. rewrite Hv. eapply IHa; eauto. }
    intros H. exfalso. revert H.
    destruct c as [[ | ] [ | ] [ | ] [ | ] [ | ] [ | ] [ | ] [ | ]];
      try discriminate; congruence.
  - intros s ps r. rewrite object_items_step_any.
    destruct s as [ | q s1]; [discriminate | ].
    destruct (Ascii.eqb q dquote); [ | discriminate].
    rewrite object_items_step.
    destruct (scanstring true s1) as [[key r0] | | | ]; simpl; try discriminate.
    destruct (skip_ws r0) as [ | c r1]; [discriminate | ].
    destruct (Ascii.eqb_spec c ":") as [-> | Hcolon].
    2:{ intros H. exfalso. revert H.
        destruct c as [[ | ] [ | ] [ | ] [ | ] [ | ] [ | ] [ | ] [ | ]];
          try discriminate; congruence. }
    destruct (scan_once true fuel _) as [[value r2] | | | ] eqn:E; simpl; try discriminate.
    pose proof (IHs _ _ _ E) as Hv.
    destruct (skip_ws r2) as [ | c r3]; [discriminate | ].
    destruct (Ascii.eqb_spec c "}") as [-> | Hclose].
    { intros [= <- _]. simpl. now rewrite Hv. }
    destruct (Ascii.eqb_spec c ",") as [-> | Hcomma].
    { destruct (object_items true fuel _) as [[pairs r4] | | | ] eqn:E2; simpl;
        try discriminate.
      intros [= <- _]. simpl. rewrite Hv. eapply IHo; eauto. }
    intros H. exfalso. revert H.
    destruct c as [[ | ] [ | ] [ | ] [ | ] [ | ] [ | ] [ | ] [ | ]];
      try discriminate; congruence.
Qed.

Theorem json_loads_well_keyed (s : string) (v : pyval) :
  json_loads s = Parsed v -> well_keyed v = true.
Proof.
  intros H. apply json_loads_parsed in H. revert H.
  unfold decode.
  destruct (scan_once true _ _) as [[v0 r] | | | ] eqn:E; simpl; try discriminate.
  destruct (skip_ws r); [ | discriminate].
  intros [= <-]. eapply (proj1 (decoder_well_keyed _)); eauto.
Qed.

(** *** The fuel [json_loads] hands out is never used up *)

Lemma skip_ws_length (s : string) :
  String.length (skip_ws s) <= String.length s.
Proof.
  induction s as [ | c s IH]; simpl; [lia | ].
  destruct (is_ws c); simpl; lia.
Qed.

Lemma strip_prefix_length (p s r : string) :
  strip_prefix p s = Some r ->
  String.length r + String.length p = String.length s.
Proof.
  revert s. induction p as [ | a p IH]; simpl; intros s.
  - intros [= ->]. lia.
  - destruct s as [ | b s]; [discriminate | ].
    destruct (Ascii.eqb a b); [ | discriminate].
    intros H. apply IH in H. simpl. lia.
Qed.

Lemma span_digits_length (s ds r : string) :
  span_digits s = (ds, r) ->
  String.length ds + String.length r = String.length s.
Proof.
  revert ds r. induction s as [ | c s IH]; simpl; intros ds r.
  - intros [= <- <-]. reflexivity.
  - destruct (is_digit c).
    + destruct (span_digits s) as [ds0 r0]. intros [= <- <-].
      simpl. now rewrite (IH ds0 r0 eq_refl).
    + intros [= <- <-]. reflexivity.
Qed.

Lemma scanstring_consumes_bounded (exact : bool) (n : nat) :
  forall s x r,
    String.length s <= n ->
    scanstring exact s = Parsed (x, r) -> String.length r < String.length s.
Proof.
  induction n as [ | n IH]; intros s x r Hn.
  - destruct s; [discriminate | simpl in Hn; lia].
  - destruct s as [ | c s']; [discriminate | ].
    simpl in Hn. simpl scanstring.
    assert (Hrest : forall (t : string) (c' : ascii),
               String.length t <= n ->
               dbind (scanstring exact t)
                 (fun xr => Parsed (String c' (fst xr), snd xr)) = Parsed (x, r) ->
               String.length r < String.length t).
    { intros t c' Ht.
      destruct (scanstring exact t) as [[x0 r0] | | | ] eqn:E; simpl;
        try discriminate.
      intros [= _ <-]. now apply IH in E. }
    destruct (Ascii.eqb c dquote); [intros [= _ <-]; simpl; lia | ].
    destruct (Ascii.eqb c backslash).
    + destruct s' as [ | e s'']; [discriminate | ].
      simpl in Hn.
      destruct (Ascii.eqb e "u").
      * destruct s'' as [ | h1 [ | h2 [ | h3 [ | h4 t]]]]; try discriminate.
        simpl in Hn.
        destruct (hex4 h1 h2 h3 h4) as [k | ]; [ | discriminate].
        destruct (k <? 256)%N;
          [ | destruct exact; [discriminate | ] ];
          intros H; apply Hrest in H; simpl; lia.
      * destruct (unescape e); [ | discriminate].
        intros H; apply Hrest in H; simpl; lia.
    + destruct (N_of_ascii c <? 32)%N; [discriminate | ].
      destruct (exact && non_ascii c); [discriminate | ].
      intros H; apply Hrest in H; simpl; lia.
Qed.

Lemma scanstring_consumes (exact : bool) (s x r : string) :
  scanstring exact s = Parsed (x, r) -> String.length r < String.length s.
Proof. apply (scanstring_consumes_bounded exact (String.length s)). lia. Qed.

Lemma scanstring_not_exhausted (exact : bool) (s : string) :
  scanstring exact s <> Exhausted.
Proof.
  assert (H : forall n s, String.length s <= n -> scanstring exact s <> Exhausted).
  { clear s. induction n as [ | n IH]; intros s Hn.
    - destruct s; [discriminate | simpl in Hn; lia].
    - destruct s as [ | c s']; [discriminate | ].
      simpl in Hn. simpl scanstring.
      assert (Hrest : forall (t : string) (c' : ascii),
                 String.length t <= n ->
                 dbind (scanstring exact t)
                   (fun xr => Parsed (String c' (fst xr), snd xr)) <> Exhausted).
      { intros t c' Ht. specialize (IH t Ht).
        destruct (scanstring exact t) as [[x0 r0] | | | ]; simpl;
          try discriminate; congruence. }
      destruct (Ascii.eqb c dquote); [discriminate | ].
      destruct (Ascii.eqb c backslash).
      + destruct s' as [ | e s'']; [discriminate | ].
        simpl in Hn.
        destruct (Ascii.eqb e "u").
        * destruct s'' as [ | h1 [ | h2 [ | h3 [ | h4 t]]]]; try discriminate.
          simpl in Hn.
          destruct (hex4 h1 h2 h3 h4) as [k | ]; [ | discriminate].
          destruct (k <? 256)%N;
            [ | destruct exact; [discriminate | ] ];
            apply Hrest; lia.
        * destruct (unescape e); [ | discriminate].
          apply Hrest; lia.
      + destruct (N_of_ascii c <? 32)%N; [discriminate | ].
        destruct (exact && non_ascii c); [discriminate | ].
        apply Hrest; lia. }
  apply (H (String.length s)). lia.
Qed.

Lemma span_digits_snd_length (s : string) :
  String.length (snd (span_digits s)) <= String.length s.
Proof.
  destruct (span_digits s) as [ds r] eqn:E.
  apply span_digits_length in E. simpl. lia.
Qed.

Lemma skip_fraction_length (s : string) :
  String.length (skip_fraction s) <= String.length s.
Proof.
  destruct s as [ | c s']; simpl; [lia | ].
  destruct (Ascii.eqb c "." && starts_with_digit s'); simpl; [ | lia].
  pose proof (span_digits_snd_length s'). lia.
Qed.

Lemma skip_exponent_length (s : string) :
  String.length (skip_exponent s) <= String.length s.
Proof.
  destruct s as [ | c s']; simpl; [lia | ].
  destruct (Ascii.eqb c "e" || Ascii.eqb c "E"); simpl; [ | lia].
  destruct s' as [ | g s'']; simpl; [lia | ].
  destruct (Ascii.eqb g "+" || Ascii.eqb g "-").
  - destruct (starts_with_digit s''); simpl; [ | lia].
    pose proof (span_digits_snd_length s''). lia.
  - destruct (is_digit g) eqn:Eg; simpl; [ | lia].
    pose proof (span_digits_snd_length (String g s'')) as H.
    simpl in H. rewrite Eg in H. simpl String.length in H. lia.
Qed.

Lemma after_constant_length (s : string) :
  (has_prefix "NaN" s || has_prefix "Infinity" s || has_prefix "-Infinity" s)
  = true ->
  String.length (after_constant s) < String.length s.
Proof.
  unfold has_prefix, after_constant.
  destruct (strip_prefix "NaN" s) as [r | ] eqn:E1.
  { intros _. apply strip_prefix_length in E1. simpl in E1. lia. }
  destruct (strip_prefix "Infinity" s) as [r | ] eqn:E2.
  { intros _. apply strip_prefix_length in E2. simpl in E2. lia. }
  destruct (strip_prefix "-Infinity" s) as [r | ] eqn:E3.
  { intros _. apply strip_prefix_length in E3. simpl in E3. lia. }
  discriminate.
Qed.

Lemma scan_number_consumes (exact : bool) (s : string) (v : pyval) (r : string) :
  scan_number exact s = Parsed (v, r) -> String.length r < String.length s.
Proof.
  unfold scan_number.
  assert (Hbody : forall negative body,
             match s with
             | EmptyString => (false, s)
             | String c s' => if Ascii.eqb c "-" then (true, s') else (false, s)
             end = (negative, body) ->
             String.length body <= String.length s).
  { intros negative body. destruct s as [ | c s']; [intros [= _ <-]; lia | ].
    destruct (Ascii.eqb c "-"); intros [= _ <-]; simpl; lia. }
  destruct (match s with
            | EmptyString => (false, s)
            | String c s' => if Ascii.eqb c "-" then (true, s') else (false, s)
            end) as [negative body].
  specialize (Hbody negative body eq_refl).
  destruct (span_digits body) as [ds r0] eqn:Hspan.
  apply span_digits_length in Hspan.
  destruct ds as [ | d ds'].
  - destruct (_ || _) eqn:Hc; [ | discriminate].
    destruct exact; [discriminate | ].
    intros [= _ <-]. now apply after_constant_length.
  - simpl in Hspan.
    assert (Hfloat : forall after,
               String.length (skip_exponent (skip_fraction after))
               <= String.length after).
    { intros after. pose proof (skip_fraction_length after).
      pose proof (skip_exponent_length (skip_fraction after)). lia. }
    destruct (Ascii.eqb d "0").
    + destruct (float_follows _).
      * destruct exact; [discriminate | ].
        intros [= _ <-].
        pose proof (Hfloat (ds' ++ r0)) as H.
        rewrite string_length_app in H. lia.
      * intros [= _ <-]. rewrite string_length_app. lia.
    + destruct (float_follows _).
      * destruct exact; [discriminate | ].
        intros [= _ <-]. pose proof (Hfloat r0). lia.
      * intros [= _ <-]. lia.
Qed.

Lemma scan_number_not_exhausted (exact : bool) (s : string) :
  scan_number exact s <> Exhausted.
Proof.
  unfold scan_number.
  destruct (match s with
            | EmptyString => (false, s)
            | String c s' => if Ascii.eqb c "-" then (true, s') else (false, s)
            end) as [negative body].
  destruct (span_digits body) as [ds r0].
  destruct ds as [ | d ds'].
  - destruct (_ || _); destruct exact; discriminate.
  - destruct (Ascii.eqb d "0"); destruct (float_follows _); destruct exact;
      discriminate.
Qed.

Lemma starts_with_tail (c : ascii) (s : string) :
  starts_with c s = true -> String.length (tail s) < String.length s.
Proof. destruct s; simpl; [discriminate | lia]. Qed.

Ltac other_character c :=
  destruct c as [[ | ] [ | ] [ | ] [ | ] [ | ] [ | ] [ | ] [ | ]];
  try discriminate; congruence.

Lemma decoder_consumes (exact : bool) (fuel : nat) :
  (forall s, 2 * String.length s < fuel ->
     scan_once exact fuel s <> Exhausted
     /\ forall v r, scan_once exact fuel s = Parsed (v, r) ->
                    String.length r < String.length s)
  /\ (forall s, 2 * String.length s + 1 < fuel ->
        array_items exact fuel s <> Exhausted
        /\ forall vs r, array_items exact fuel s = Parsed (vs, r) ->
                        String.length r < String.length s)
  /\ (forall s, 2 * String.length s + 1 < fuel ->
        object_items exact fuel s <> Exhausted
        /\ forall ps r, object_items exact fuel s = Parsed (ps, r) ->
                        String.length r < String.length s).
Proof.
  induction fuel as [ | fuel (IHs & IHa & IHo)];
    [repeat split; intros; lia | ].
  split; [ | split].
  - intros [ | c s'] Hfuel; [split; [discriminate | discriminate] | ].
    simpl String.length in *. rewrite scan_once_step.
    pose proof (skip_ws_length s') as Hws.
    destruct (Ascii.eqb c dquote).
    { pose proof (scanstring_not_exhausted exact s') as Hne.
      destruct (scanstring exact s') as [[x r0] | | | ] eqn:E; simpl;
        (split; [congruence || discriminate | ]); try discriminate.
      intros v r [= _ <-]. apply scanstring_consumes in E. lia. }
    destruct (Ascii.eqb c "{").
    { destruct (starts_with "}" (skip_ws s')) eqn:Hs.
      - split; [discriminate | ]. intros v r [= _ <-].
        apply starts_with_tail in Hs. lia.
      - destruct (IHo (skip_ws s')) as [Hne Hlen]; [lia | ].
        destruct (object_items exact fuel (skip_ws s')) as [[pairs r0] | | | ] eqn:E;
          simpl; (split; [congruence || discriminate | ]); try discriminate.
        intros v r [= _ <-]. specialize (Hlen _ _ eq_refl). lia. }
    destruct (Ascii.eqb c "[").
    { destruct (starts_with "]" (skip_ws s')) eqn:Hs.
      - split; [discriminate | ]. intros v r [= _ <-].
        apply starts_with_tail in Hs. lia.
      - destruct (IHa (skip_ws s')) as [Hne Hlen]; [lia | ].
        destruct (array_items exact fuel (skip_ws s')) as [[values r0] | | | ] eqn:E;
          simpl; (split; [congruence || discriminate | ]); try discriminate.
        intros v r [= _ <-]. specialize (Hlen _ _ eq_refl). lia. }
    destruct (strip_prefix "null" _) as [r0 | ] eqn:E1.
    { split; [discriminate | ]. intros v r [= _ <-].
      apply strip_prefix_length in E1. simpl in E1. lia. }
    destruct (strip_prefix "true" _) as [r0 | ] eqn:E2.
    { split; [discriminate | ]. intros v r [= _ <-].
      apply strip_prefix_length in E2. simpl in E2. lia. }
    destruct (strip_prefix "false" _) as [r0 | ] eqn:E3.
    { split; [discriminate | ]. intros v r [= _ <-].
      apply strip_prefix_length in E3. simpl in E3. lia. }
    split; [apply scan_number_not_exhausted | ].
    intros v r H. apply scan_number_consumes in H. simpl in H. lia.
  - intros s Hfuel. rewrite array_items_step.
    destruct (IHs s) as [Hne Hlen]; [lia | ].
    destruct (scan_once exact fuel s) as [[value r0] | | | ] eqn:E; simpl;
      try (split; [congruence || discriminate | discriminate]).
    specialize (Hlen _ _ eq_refl).
    pose proof (skip_ws_length r0) as Hws.
    destruct (skip_ws r0) as [ | c r1]; [split; discriminate | ].
    simpl in Hws.
    destruct (Ascii.eqb_spec c "]") as [-> | Hclose].
    { split; [discriminate | ]. intros vs r [= _ <-]. lia. }
    destruct (Ascii.eqb_spec c ",") as [-> | Hcomma].
    { pose proof (skip_ws_length r1) as Hws1.
      destruct (IHa (skip_ws r1)) as [Hne1 Hlen1]; [lia | ].
      destruct (array_items exact fuel (skip_ws r1)) as [[values r2] | | | ] eqn:E2;
        simpl; (split; [congruence || discriminate | ]); try discriminate.
      intros vs r [= _ <-]. specialize (Hlen1 _ _ eq_refl). lia. }
    split; [ | intros vs r]; other_character c.
  - intros s Hfuel. rewrite object_items_step_any.
    destruct s as [ | q s1]; [split; discriminate | ].
    destruct (Ascii.eqb q dquote); [ | split; discriminate].
    rewrite object_items_step. simpl String.length in *.
    pose proof (scanstring_not_exhausted exact s1) as Hnes.
    destruct (scanstring exact s1) as [[key r0] | | | ] eqn:Es; simpl;
      try (split; [congruence || discriminate | discriminate]).
    apply scanstring_consumes in Es.
    pose proof (skip_ws_length r0) as Hws0.
    destruct (skip_ws r0) as [ | c r1]; [split; discriminate | ].
    simpl in Hws0.
    destruct (Ascii.eqb_spec c ":") as [-> | Hcolon];
      [ | split; [ | intros ps r]; other_character c].
    pose proof (skip_ws_length r1) as Hws1.
    destruct (IHs (skip_ws r1)) as [Hne Hlen]; [lia | ].
    destruct (scan_once exact fuel (skip_ws r1)) as [[value r2] | | | ] eqn:E; simpl;
      try (split; [congruence || discriminate | discriminate]).
    specialize (Hlen _ _ eq_refl).
    pose proof (skip_ws_length r2) as Hws2.
    destruct (skip_ws r2) as [ | c r3]; [split; discriminate | ].
    simpl in Hws2.
    destruct (Ascii.eqb_spec c "}") as [-> | Hclose].
    { split; [discriminate | ]. intros ps r [= _ <-]. lia. }
    destruct (Ascii.eqb_spec c ",") as [-> | Hcomma].
    { pose proof (skip_ws_length r3) as Hws3.
      destruct (IHo (skip_ws r3)) as [Hne1 Hlen1]; [lia | ].
      destruct (object_items exact fuel (skip_ws r3)) as [[pairs r4] | | | ] eqn:E2;
        simpl; (split; [congruence || discriminate | ]); try discriminate.
      intros ps r [= _ <-]. specialize (Hlen1 _ _ eq_refl). lia. }
    split; [ | intros ps r]; other_character c.
Qed.

(** Whatever the text, the decoder decides it: its recursion never uses
    up the fuel given to it. *)
Lemma decode_fuel_suffices (exact : bool) (s : string) :
  decode exact s <> Exhausted.
Proof.
  unfold decode.
  pose proof (skip_ws_length s) as Hws.
  destruct (proj1 (decoder_consumes exact (S (2 * String.length s))) (skip_ws s))
    as [Hne _]; [lia | ].
  destruct (scan_once _ _ (skip_ws s)) as [[v r] | | | ]; simpl;
    try discriminate; try congruence.
  destruct (skip_ws r); discriminate.
Qed.

Theorem json_loads_fuel_suffices (s : string) : json_loads s <> Exhausted.
Proof.
  unfold json_loads.
  pose proof (decode_fuel_suffices true s) as H1.
  pose proof (decode_fuel_suffices false s) as H2.
  destruct (decode true s); try discriminate; try congruence.
  destruct (decode false s); try discriminate; congruence.
Qed.

(** *** The two runs of the decoder *)

Lemma dbind_coincide {A B} (m1 m2 : decoded A) (f1 f2 : A -> decoded B) :
  (m1 <> Beyond -> m2 = m1) ->
  (forall a, m1 = Parsed a -> f1 a <> Beyond -> f2 a = f1 a) ->
  dbind m1 f1 <> Beyond -> dbind m2 f2 = dbind m1 f1.
Proof.
  intros Hm Hf H.
  destruct m1 as [a | | | ]; simpl in *;
    try (rewrite Hm by discriminate; reflexivity).
  - rewrite Hm by discriminate. simpl. now apply Hf.
  - now contradiction H.
Qed.

Lemma scanstring_coincide (s : string) :
  scanstring true s <> Beyond -> scanstring false s = scanstring true s.
Proof.
  assert (H : forall n s, String.length s <= n ->
                scanstring true s <> Beyond ->
                scanstring false s = scanstring true s).
  { clear s. induction n as [ | n IH]; intros s Hn.
    - destruct s; [reflexivity | simpl in Hn; lia].
    - destruct s as [ | c s']; [reflexivity | ].
      simpl in Hn. simpl scanstring.
      assert (Hrest : forall (t : string) (c' : ascii),
                 String.length t <= n ->
                 dbind (scanstring true t)
                   (fun xr => Parsed (String c' (fst xr), snd xr)) <> Beyond ->
                 dbind (scanstring false t)
                   (fun xr => Parsed (String c' (fst xr), snd xr))
                 = dbind (scanstring true t)
                     (fun xr => Parsed (String c' (fst xr), snd xr))).
      { intros t c' Ht. apply dbind_coincide; [now apply IH | reflexivity]. }
      destruct (Ascii.eqb c dquote); [reflexivity | ].
      destruct (Ascii.eqb c backslash).
      + destruct s' as [ | e s'']; [reflexivity | ].
        simpl in Hn.
        destruct (Ascii.eqb e "u").
        * destruct s'' as [ | h1 [ | h2 [ | h3 [ | h4 t]]]]; try reflexivity.
          simpl in Hn.
          destruct (hex4 h1 h2 h3 h4) as [k | ]; [ | reflexivity].
          destruct (k <? 256)%N; [apply Hrest; lia | ].
          intros H. now contradiction H.
        * destruct (unescape e); [ | reflexivity].
          apply Hrest; lia.
      + destruct (N_of_ascii c <? 32)%N; [reflexivity | ].
        simpl. destruct (non_ascii c); [intros H; now contradiction H | ].
        apply Hrest; lia. }
  apply (H (String.length s)). lia.
Qed.

Lemma scan_number_coincide (s : string) :
  scan_number true s <> Beyond -> scan_number false s = scan_number true s.
Proof.
  unfold scan_number.
  destruct (match s with
            | EmptyString => (false, s)
            | String c s' => if Ascii.eqb c "-" then (true, s') else (false, s)
            end) as [negative body].
  destruct (span_digits body) as [ds r0].
  destruct ds as [ | d ds'].
  - destruct (_ || _); [intros H; now contradiction H | reflexivity].
  - destruct (if Ascii.eqb d "0" then _ else _) as [digits after].
    destruct (float_follows after); [intros H; now contradiction H | reflexivity].
Qed.

(** Where the exact run does not stop at a value outside the model, the
    other run does the same and gives the same answer. *)
Lemma decoder_coincide (fuel : nat) :
  (forall s, scan_once true fuel s <> Beyond ->
             scan_once false fuel s = scan_once true fuel s)
  /\ (forall s, array_items true fuel s <> Beyond ->
                array_items false fuel s = array_items true fuel s)
  /\ (forall s, object_items true fuel s <> Beyond ->
                object_items false fuel s = object_items true fuel s).
Proof.
  induction fuel as [ | fuel (IHs & IHa & IHo)];
    [repeat split; reflexivity | ].
  split; [ | split].
  - intros [ | c s']; [reflexivity | ].
    rewrite !scan_once_step.
    destruct (Ascii.eqb c dquote).
    { apply dbind_coincide; [apply scanstring_coincide | reflexivity]. }
    destruct (Ascii.eqb c "{").
    { destruct (starts_with "}" (skip_ws s')); [reflexivity | ].
      apply dbind_coincide; [apply IHo | reflexivity]. }
    destruct (Ascii.eqb c "[").
    { destruct (starts_with "]" (skip_ws s')); [reflexivity | ].
      apply dbind_coincide; [apply IHa | reflexivity]. }
    destruct (strip_prefix "null" _); [reflexivity | ].
    destruct (strip_prefix "true" _); [reflexivity | ].
    destruct (strip_prefix "false" _); [reflexivity | ].
    apply scan_number_coincide.
  - intros s. rewrite !array_items_step.
    apply dbind_coincide; [apply IHs | ].
    intros [value r] _.
    destruct (skip_ws r) as [ | c r1]; [reflexivity | ].
    destruct (Ascii.eqb_spec c "]") as [-> | Hclose]; [reflexivity | ].
    destruct (Ascii.eqb_spec c ",") as [-> | Hcomma].
    { apply dbind_coincide; [apply IHa | reflexivity]. }
    intros _. other_character c.
  - intros s. rewrite !(object_items_step_any _ fuel s).
    destruct s as [ | q s1]; [reflexivity | ].
    destruct (Ascii.eqb q dquote); [ | reflexivity].
    rewrite !object_items_step.
    apply dbind_coincide; [apply scanstring_coincide | ].
    intros [key r] _.
    destruct (skip_ws r) as [ | c r1]; [reflexivity | ].
    destruct (Ascii.eqb_spec c ":") as [-> | Hcolon];
      [ | intros _; other_character c].
    apply dbind_coincide; [apply IHs | ].
    intros [value r2] _.
    destruct (skip_ws r2) as [ | c r3]; [reflexivity | ].
    destruct (Ascii.eqb_spec c "}") as [-> | Hclose]; [reflexivity | ].
    destruct (Ascii.eqb_spec c ",") as [-> | Hcomma].
    { apply dbind_coincide; [apply IHo | reflexivity]. }
    intros _. other_character c.
Qed.

Lemma decode_coincide (s : string) :
  decode true s <> Beyond -> decode false s = decode true s.
Proof.
  unfold decode. apply dbind_coincide; [ | reflexivity].
  apply (proj1 (decoder_coincide _)).
Qed.

(** The run that reads on never gives a text up. *)

Lemma dbind_not_beyond {A B} (m : decoded A) (f : A -> decoded B) :
  m <> Beyond -> (forall a, f a <> Beyond) -> dbind m f <> Beyond.
Proof. destruct m as [a | | | ]; simpl; [auto | discriminate | tauto | discriminate]. Qed.

Lemma scanstring_reads_on (s : string) : scanstring false s <> Beyond.
Proof.
  assert (H : forall n s, String.length s <= n -> scanstring false s <> Beyond).
  { clear s. induction n as [ | n IH]; intros s Hn.
    - destruct s; [discriminate | simpl in Hn; lia].
    - destruct s as [ | c s']; [discriminate | ].
      simpl in Hn. simpl scanstring.
      assert (Hrest : forall (t : string) (c' : ascii),
                 String.length t <= n ->
                 dbind (scanstring false t)
                   (fun xr => Parsed (String c' (fst xr), snd xr)) <> Beyond).
      { intros t c' Ht. apply dbind_not_beyond; [now apply IH | discriminate]. }
      destruct (Ascii.eqb c dquote); [discriminate | ].
      destruct (Ascii.eqb c backslash).
      + destruct s' as [ | e s'']; [discriminate | ].
        simpl in Hn.
        destruct (Ascii.eqb e "u").
        * destruct s'' as [ | h1 [ | h2 [ | h3 [ | h4 t]]]]; try discriminate.
          simpl in Hn.
          destruct (hex4 h1 h2 h3 h4) as [k | ]; [ | discriminate].
          destruct (k <? 256)%N; apply Hrest; lia.
        * destruct (unescape e); [ | discriminate].
          apply Hrest; lia.
      + destruct (N_of_ascii c <? 32)%N; [discriminate | ].
        apply Hrest; lia. }
  apply (H (String.length s)). lia.
Qed.

Lemma scan_number_reads_on (s : string) : scan_number false s <> Beyond.
Proof.
  unfold scan_number.
  destruct (match s with
            | EmptyString => (false, s)
            | String c s' => if Ascii.eqb c "-" then (true, s') else (false, s)
            end) as [negative body].
  destruct (span_digits body) as [ds r0].
  destruct ds as [ | d ds'].
  - destruct (_ || _); discriminate.
  - destruct (if Ascii.eqb d "0" then _ else _) as [digits after].
    destruct (float_follows after); discriminate.
Qed.

Lemma decoder_reads_on (fuel : nat) :
  (forall s, scan_once false fuel s <> Beyond)
  /\ (forall s, array_items false fuel s <> Beyond)
  /\ (forall s, object_items false fuel s <> Beyond).
Proof.
  induction fuel as [ | fuel (IHs & IHa & IHo)];
    [repeat split; discriminate | ].
  split; [ | split].
  - intros [ | c s']; [discriminate | ].
    rewrite scan_once_step.
    destruct (Ascii.eqb c dquote).
    { apply dbind_not_beyond; [apply scanstring_reads_on | ].
      intros [x r]. discriminate. }
    destruct (Ascii.eqb c "{").
    { destruct (starts_with "}" (skip_ws s')); [discriminate | ].
      apply dbind_not_beyond; [apply IHo | ]. intros [x r]. discriminate. }
    destruct (Ascii.eqb c "[").
    { destruct (starts_with "]" (skip_ws s')); [discriminate | ].
      apply dbind_not_beyond; [apply IHa | ]. intros [x r]. discriminate. }
    destruct (strip_prefix "null" _); [discriminate | ].
    destruct (strip_prefix "true" _); [discriminate | ].
    destruct (strip_prefix "false" _); [discriminate | ].
    apply scan_number_reads_on.
  - intros s. rewrite array_items_step.
    apply dbind_not_beyond; [apply IHs | ].
    intros [value r].
    destruct (skip_ws r) as [ | c r1]; [discriminate | ].
    destruct (Ascii.eqb_spec c "]") as [-> | Hclose]; [discriminate | ].
    destruct (Ascii.eqb_spec c ",") as [-> | Hcomma].
    { apply dbind_not_beyond; [apply IHa | ]. intros [x r2]. discriminate. }
    other_character c.
  - intros s. rewrite (object_items_step_any _ fuel s).
    destruct s as [ | q s1]; [discriminate | ].
    destruct (Ascii.eqb q dquote); [ | discriminate].
    rewrite object_items_step.
    apply dbind_not_beyond; [apply scanstring_reads_on | ].
    intros [key r].
    destruct (skip_ws r) as [ | c r1]; [discriminate | ].
    destruct (Ascii.eqb_spec c ":") as [-> | Hcolon]; [ | other_character c].
    apply dbind_not_beyond; [apply IHs | ].
    intros [value r2].
    destruct (skip_ws r2) as [ | c r3]; [discriminate | ].
    destruct (Ascii.eqb_spec c "}") as [-> | Hclose]; [discriminate | ].
    destruct (Ascii.eqb_spec c ",") as [-> | Hcomma].
    { apply dbind_not_beyond; [apply IHo | ]. intros [x r4]. discriminate. }
    other_character c.
Qed.

Lemma decode_reads_on (s : string) : decode false s <> Beyond.
Proof.
  unfold decode. apply dbind_not_beyond; [apply (proj1 (decoder_reads_on _)) | ].
  intros [v r]. destruct (skip_ws r); discriminate.
Qed.

(** [json_loads] answers [Malformed] on the texts that are not JSON
    documents, and on no other. *)
Theorem json_loads_malformed (s : string) :
  json_loads s = Malformed <-> parses_as_json s = false.
Proof.
  unfold json_loads, parses_as_json.
  pose proof (decode_coincide s) as H.
  pose proof (decode_fuel_suffices false s) as Hfuel.
  pose proof (decode_fuel_suffices true s) as Hfuel'.
  pose proof (decode_reads_on s) as Hon.
  destruct (decode true s) as [v | | | ] eqn:E.
  - rewrite H by discriminate. split; discriminate.
  - rewrite H by discriminate. tauto.
  - destruct (decode false s); split; try discriminate; try reflexivity;
      congruence.
  - congruence.
Qed.

Example json_loads_around_a_float :
  json_loads "[1.5" = Malformed
  /\ json_loads "1.5 this is not json" = Malformed
  /\ json_loads ("{" ++ str1 dquote ++ "port" ++ str1 dquote ++ ": 22.5,")
     = Malformed
  /\ json_loads "[1.5]" = Beyond
  /\ json_loads "[NaN, -Infinity, 1e5]" = Beyond
  /\ json_loads ("[1" ++ str1 "233"%char ++ "]") = Malformed
  /\ json_loads ("[" ++ str1 dquote ++ str1 "233"%char ++ str1 dquote ++ "]")
     = Beyond.
Proof. repeat split; vm_compute; reflexivity. Qed.

(** ** The profile store *)

Lemma bind_done {A B} (m : M A) (f : A -> M B) (w w1 : world) (a : A)
    (r : outcome B * world) :
  m w = (Done a, w1) -> f a w1 = r -> bind m f w = r.
Proof. intros Hm Hf. unfold bind. now rewrite Hm. Qed.

Lemma bind_done_fst {A B} (m : M A) (f : A -> M B) (w w1 : world) (a : A)
    (r : outcome B) :
  m w = (Done a, w1) -> fst (f a w1) = r -> fst (bind m f w) = r.
Proof. intros Hm Hf. unfold bind. now rewrite Hm. Qed.

Lemma lift_ok {A} (r : res A) (a : A) (w : world) :
  r = Ok a -> lift r w = (Done a, w).
Proof. now intros ->. Qed.

(** One [bind] of an operation: run its first action, which is a pure
    Python operator or an effect of the model, and go on with the rest. *)
Ltac step :=
  first
    [ eapply bind_done; [first [reflexivity | apply lift_ok; reflexivity] | ]
    | eapply bind_done_fst; [first [reflexivity | apply lift_ok; reflexivity] | ] ].

Lemma load_profiles_same_world (w w' : world) (v : pyval) :
  load_profiles w = (Done v, w') -> w' = w /\ well_keyed v = true.
Proof.
  unfold load_profiles.
  destruct (profiles_file w) as [text | ]; [ | now intros [= <- <-]].
  destruct (json_loads text) as [v0 | | | ] eqn:E; try discriminate.
  - intros [= <- <-]. split; [reflexivity | ].
    now apply (json_loads_well_keyed text).
  - now intros [= <- <-].
Qed.

Lemma load_profiles_written (w : world) (v : pyval) :
  profiles_file w = Some (json_dumps v) ->
  well_keyed v = true ->
  load_profiles w = (Done v, w).
Proof.
  intros Hfile Hwk. unfold load_profiles.
  now rewrite Hfile, (json_loads_dumps v Hwk).
Qed.

(** C7: a store file that is absent, or whose text is not a JSON
    document, loads as the empty mapping: the failure of the parse is not
    raised to the caller and nothing else changes.  The text may be any
    sequence of bytes; floats and the constants [NaN] and [Infinity] count
    as JSON, as they do for [json.load]. *)
Theorem load_profiles_absent_or_malformed (w : world) :
  profiles_file w = None
  \/ (exists text, profiles_file w = Some text /\ parses_as_json text = false) ->
  load_profiles w = (Done (PDict []), w).
Proof.
  unfold load_profiles. intros [-> | (text & -> & Hbad)]; [reflexivity | ].
  apply json_loads_malformed in Hbad. now rewrite Hbad.
Qed.

Lemma load_profiles_absent_or_malformed_witness :
  let text := "{" ++ str1 dquote ++ "port" ++ str1 dquote ++ ": 22.5," in
  let w :=
    {| config_dir := true; profiles_file := Some text; active_file := None;
       console := []; clock_reads := 0 |} in
  (profiles_file w = None
   \/ (exists text, profiles_file w = Some text /\ parses_as_json text = false))
  /\ load_profiles w = (Done (PDict []), w).
Proof.
  intros text w.
  assert (H : profiles_file w = None
              \/ (exists text, profiles_file w = Some text
                               /\ parses_as_json text = false)).
  { right. exists text. split; reflexivity. }
  split; [exact H | ].
  exact (load_profiles_absent_or_malformed w H).
Defined.

(** C6: what [save_profiles] writes, [load_profiles] reads back as the
    same value, field for field. *)
Theorem save_then_load_profiles (profiles : pyval) (w : world) :
  well_keyed profiles = true ->
  exists w',
    save_profiles profiles w = (Done tt, w')
    /\ load_profiles w' = (Done profiles, w').
Proof.
  intros Hwk. eexists. split; [reflexivity | ].
  now apply load_profiles_written.
Qed.

Lemma save_then_load_profiles_witness :
  well_keyed Sample.two_profiles = true
  /\ exists w',
       save_profiles Sample.two_profiles Sample.fresh_world = (Done tt, w')
       /\ load_profiles w' = (Done Sample.two_profiles, w').
Proof.
  split; [reflexivity | ].
  exact (save_then_load_profiles Sample.two_profiles Sample.fresh_world eq_refl).
Defined.

(** *** dict updates *)

Lemma dict_get_in_keys (d : pydict) (k : string) :
  existsb (String.eqb k) (dict_keys d) = dict_mem d k.
Proof.
  unfold dict_mem. induction d as [ | [k' v] d IH]; simpl; [reflexivity | ].
  destruct (String.eqb k k'); simpl; [reflexivity | exact IH].
Qed.

Lemma dict_get_del_same (d : pydict) (k : string) :
  distinct (dict_keys d) = true -> dict_get (dict_del d k) k = None.
Proof.
  induction d as [ | [k' v] d IH]; simpl; [reflexivity | ].
  intros H. apply andb_true_iff in H as [Hk' Hd].
  destruct (String.eqb k k') eqn:E; simpl.
  - apply String.eqb_eq in E. subst k'.
    apply negb_true_iff in Hk'. rewrite dict_get_in_keys in Hk'.
    unfold dict_mem in Hk'. now destruct (dict_get d k).
  - rewrite E. now apply IH.
Qed.

Lemma dict_get_del_other (d : pydict) (k k' : string) :
  k' <> k -> dict_get (dict_del d k) k' = dict_get d k'.
Proof.
  intros Hne. induction d as [ | [k0 v] d IH]; simpl; [reflexivity | ].
  destruct (String.eqb k k0) eqn:E; simpl.
  - apply String.eqb_eq in E. subst k0.
    apply String.eqb_neq in Hne. now rewrite Hne.
  - now rewrite IH.
Qed.

Lemma dict_del_length (d : pydict) (k : string) :
  dict_mem d k = true -> S (List.length (dict_del d k)) = List.length d.
Proof.
  unfold dict_mem. induction d as [ | [k0 v] d IH]; simpl; [discriminate | ].
  destruct (String.eqb k k0); simpl; [reflexivity | ].
  intros H. now rewrite (IH H).
Qed.

Lemma dict_del_keys_in (d : pydict) (k k' : string) :
  existsb (String.eqb k') (dict_keys (dict_del d k)) = true ->
  existsb (String.eqb k') (dict_keys d) = true.
Proof.
  induction d as [ | [k0 v] d IH]; simpl; [auto | ].
  destruct (String.eqb k k0); simpl.
  - intros ->. now rewrite orb_true_r.
  - intros H. apply orb_true_iff in H as [-> | H]; [reflexivity | ].
    rewrite (IH H). now rewrite orb_true_r.
Qed.

Lemma dict_del_well_keyed (d : pydict) (k : string) :
  well_keyed (PDict d) = true -> well_keyed (PDict (dict_del d k)) = true.
Proof.
  simpl. induction d as [ | [k0 v] d IH]; simpl; [auto | ].
  intros H. apply andb_true_iff in H as [H1 H2].
  apply andb_true_iff in H1 as [Hk0 Hd].
  apply andb_true_iff in H2 as [Hv Hvs].
  destruct (String.eqb k k0); simpl.
  - now rewrite Hd, Hvs.
  - assert (IH' := IH (proj2 (andb_true_iff _ _) (conj Hd Hvs))).
    apply andb_true_iff in IH' as [IH1 IH2].
    rewrite IH1, IH2, Hv, !andb_true_r.
    apply negb_true_iff. apply negb_true_iff in Hk0.
    destruct (existsb (String.eqb k0) (dict_keys (dict_del d k))) eqn:E;
      [ | reflexivity].
    apply dict_del_keys_in in E. congruence.
Qed.

Lemma dict_get_set_same (d : pydict) (k : string) (v : pyval) :
  dict_get (dict_set d k v) k = Some v.
Proof.
  induction d as [ | [k0 v0] d IH]; simpl.
  - now rewrite String.eqb_refl.
  - destruct (String.eqb k k0) eqn:E; simpl; rewrite E; [reflexivity | exact IH].
Qed.

Lemma dict_get_set_other (d : pydict) (k k' : string) (v : pyval) :
  k' <> k -> dict_get (dict_set d k v) k' = dict_get d k'.
Proof.
  intros Hne. induction d as [ | [k0 v0] d IH]; simpl.
  - apply String.eqb_neq in Hne. now rewrite Hne.
  - destruct (String.eqb k k0) eqn:E; simpl.
    + apply String.eqb_eq in E. subst k0.
      apply String.eqb_neq in Hne. now rewrite Hne.
    + now rewrite IH.
Qed.

Lemma dict_set_keys_present (d : pydict) (k : string) (v : pyval) :
  dict_mem d k = true -> dict_keys (dict_set d k v) = dict_keys d.
Proof.
  unfold dict_mem. induction d as [ | [k0 v0] d IH]; simpl; [discriminate | ].
  destruct (String.eqb k k0); simpl; [reflexivity | ].
  intros H. now rewrite (IH H).
Qed.

Lemma dict_get_well_keyed (d : pydict) (k : string) (v : pyval) :
  well_keyed (PDict d) = true -> dict_get d k = Some v -> well_keyed v = true.
Proof.
  simpl. intros H. apply andb_true_iff in H as [_ H].
  induction d as [ | [k0 v0] d IH]; simpl in *; [discriminate | ].
  apply andb_true_iff in H as [H0 Hd].
  destruct (String.eqb k k0); [now intros [= <-] | now apply IH].
Qed.

(** *** Deleting a profile *)

(** C8: [delete_profile] answers whether the name is in the store.  After
    it the name is absent and every other entry is as before; when the
    name was present the store has one entry less, when it was absent
    neither store file has changed.  No exception is raised. *)
Theorem delete_profile_removes_exactly (name : string) (w : world) (d : pydict) :
  load_profiles w = (Done (PDict d), w) ->
  exists w' d',
    delete_profile name w = (Done (dict_mem d name), w')
    /\ load_profiles w' = (Done (PDict d'), w')
    /\ dict_get d' name = None
    /\ (forall k, k <> name -> dict_get d' k = dict_get d k)
    /\ (dict_mem d name = true -> S (List.length d') = List.length d)
    /\ (dict_mem d name = false ->
        d' = d /\ profiles_file w' = profiles_file w
        /\ active_file w' = active_file w).
Proof.
  intros Hload.
  destruct (load_profiles_same_world _ _ _ Hload) as [_ Hwk].
  destruct (dict_mem d name) eqn:Hmem.
  - eexists. exists (dict_del d name).
    split; [ | split; [ | split; [ | split; [ | split] ] ] ].
    + unfold delete_profile.
      eapply bind_done; [exact Hload | ].
      step.
      rewrite Hmem. cbn [negb].
      eapply bind_done; [apply lift_ok; simpl; rewrite Hmem; reflexivity | ].
      reflexivity.
    + apply load_profiles_written; [reflexivity | ].
      now apply dict_del_well_keyed.
    + apply dict_get_del_same. simpl in Hwk.
      now apply andb_true_iff in Hwk as [Hk _].
    + intros k Hk. now apply dict_get_del_other.
    + intros _. now apply dict_del_length.
    + discriminate.
  - eexists. exists d.
    split; [ | split; [ | split; [ | split; [ | split] ] ] ].
    + unfold delete_profile.
      eapply bind_done; [exact Hload | ].
      step.
      rewrite Hmem. reflexivity.
    + unfold load_profiles in *. simpl.
      destruct (profiles_file w) as [text | ]; [ | now injection Hload as <-].
      destruct (json_loads text); try discriminate; now injection Hload as <-.
    + unfold dict_mem in Hmem. now destruct (dict_get d name).
    + reflexivity.
    + discriminate.
    + auto.
Qed.

Lemma delete_profile_removes_exactly_witness :
  load_profiles (Sample.world_with Sample.two_profiles)
  = (Done Sample.two_profiles, Sample.world_with Sample.two_profiles)
  /\ exists w' d',
       delete_profile "s1" (Sample.world_with Sample.two_profiles)
       = (Done true, w')
       /\ load_profiles w' = (Done (PDict d'), w')
       /\ dict_get d' "s1" = None
       /\ (forall k, k <> "s1" ->
             dict_get d' k = dict_get [("web", Sample.busy_profile);
                                       ("s1", Sample.plain_profile)] k)
       /\ (true = true -> S (List.length d') = 2)
       /\ (true = false ->
           d' = [("web", Sample.busy_profile); ("s1", Sample.plain_profile)]
           /\ profiles_file w' = profiles_file (Sample.world_with Sample.two_profiles)
           /\ active_file w' = active_file (Sample.world_with Sample.two_profiles)).
Proof.
  assert (H : load_profiles (Sample.world_with Sample.two_profiles)
              = (Done Sample.two_profiles, Sample.world_with Sample.two_profiles))
    by (vm_compute; reflexivity).
  split; [exact H | ].
  exact (delete_profile_removes_exactly "s1"
           (Sample.world_with Sample.two_profiles) _ H).
Defined.

(** *** Appending a forward *)

Lemma forallb_snoc {A} (f : A -> bool) (l : list A) (x : A) :
  forallb f (l ++ [x])%list = forallb f l && f x.
Proof. rewrite forallb_app. simpl. now rewrite andb_true_r. Qed.

(** C9: [add_forward] answers whether the profile exists.  When it does
    not, the store files are as before.  When it does, the store read back
    has the same names in the same order, every other profile as before,
    and the named profile with the new record appended to its forwards and
    every other field as before. *)
Theorem add_forward_appends_and_frames
    (name : string) (local_port remote_port : Z) (remote_host forward_type : string)
    (w : world) (d : pydict) :
  load_profiles w = (Done (PDict d), w) ->
  (forall p, dict_get d name = Some p -> forwards_appendable p = true) ->
  exists w' d',
    add_forward name local_port remote_port remote_host forward_type w
    = (Done (dict_mem d name), w')
    /\ load_profiles w' = (Done (PDict d'), w')
    /\ dict_keys d' = dict_keys d
    /\ (forall k, k <> name -> dict_get d' k = dict_get d k)
    /\ (dict_mem d name = false ->
        d' = d /\ profiles_file w' = profiles_file w
        /\ active_file w' = active_file w)
    /\ (forall p, dict_get d name = Some p ->
        exists p',
          dict_get d' name = Some p'
          /\ profile_forwards p'
             = (profile_forwards p
                ++ [forward_record forward_type local_port remote_port remote_host])%list
          /\ forall f, f <> "forwards" -> py_getitem p' f = py_getitem p f).
Proof.
  intros Hload Hshape.
  destruct (load_profiles_same_world _ _ _ Hload) as [_ Hwk].
  set (fwd := forward_record forward_type local_port remote_port remote_host).
  assert (Hfwd : well_keyed fwd = true) by reflexivity.
  destruct (dict_get d name) as [p | ] eqn:Hget.
  - assert (Hmem : dict_mem d name = true) by (unfold dict_mem; now rewrite Hget).
    specialize (Hshape p eq_refl).
    destruct p as [ | | | | | pd]; try discriminate Hshape.
    simpl in Hshape.
    pose proof (dict_get_well_keyed d name _ Hwk Hget) as Hwkp.
    set (old := match dict_get pd "forwards" with Some (PList l) => l | _ => [] end).
    set (pd' := dict_set
                  (if dict_mem pd "forwards" then pd
                   else dict_set pd "forwards" (PList []))
                  "forwards" (PList (old ++ [fwd])%list)).
    assert (Hwkold : forallb well_keyed old = true).
    { subst old. destruct (dict_get pd "forwards") as [[ | | | | l | ] | ] eqn:E;
        try reflexivity.
      exact (dict_get_well_keyed pd "forwards" _ Hwkp E). }
    assert (Hwkp' : well_keyed (PDict pd') = true).
    { subst pd'. apply dict_set_well_keyed.
      - destruct (dict_mem pd "forwards"); [exact Hwkp | ].
        now apply dict_set_well_keyed.
      - simpl. rewrite forallb_snoc, Hwkold. exact Hfwd. }
    eexists. exists (dict_set d name (PDict pd')).
    split; [ | split; [ | split; [ | split; [ | split] ] ] ].
    + unfold add_forward.
      eapply bind_done; [exact Hload | ].
      step.
      rewrite Hmem. cbn [negb].
      eapply bind_done; [apply lift_ok; simpl; rewrite Hget; reflexivity | ].
      step.
      assert (Hprofile :
                forall w0,
                  (if negb (dict_mem pd "forwards")
                   then lift (py_setitem (PDict pd) "forwards" (PList []))
                   else ret (PDict pd)) w0
                  = (Done (PDict (if dict_mem pd "forwards" then pd
                                  else dict_set pd "forwards" (PList []))), w0)).
      { intros w0. destruct (dict_mem pd "forwards"); reflexivity. }
      eapply bind_done; [apply Hprofile | ].
      assert (Hold : py_getitem
                       (PDict (if dict_mem pd "forwards" then pd
                               else dict_set pd "forwards" (PList [])))
                       "forwards" = Ok (PList old)).
      { subst old. unfold dict_mem. simpl.
        destruct (dict_get pd "forwards") as [[ | | | | l | ] | ] eqn:E;
          try discriminate Hshape.
        - now rewrite E.
        - now rewrite dict_get_set_same. }
      eapply bind_done; [apply lift_ok; exact Hold | ].
      do 3 step.
      reflexivity.
    + apply load_profiles_written; [reflexivity | ].
      now apply dict_set_well_keyed.
    + now apply dict_set_keys_present.
    + intros k Hk. now apply dict_get_set_other.
    + rewrite Hmem. discriminate.
    + intros p [= <-]. exists (PDict pd').
      split; [apply dict_get_set_same | ].
      split.
      * unfold profile_forwards, field_or. simpl. subst pd'.
        rewrite dict_get_set_same. subst old.
        destruct (dict_get pd "forwards") as [[ | | | | l | ] | ];
          try discriminate Hshape; reflexivity.
      * intros f Hf. simpl. subst pd'.
        rewrite dict_get_set_other by exact Hf.
        destruct (dict_mem pd "forwards"); [reflexivity | ].
        now rewrite dict_get_set_other by exact Hf.
  - assert (Hmem : dict_mem d name = false) by (unfold dict_mem; now rewrite Hget).
    eexists. exists d.
    split; [ | split; [ | split; [ | split; [ | split] ] ] ].
    + unfold add_forward.
      eapply bind_done; [exact Hload | ].
      step.
      rewrite Hmem. reflexivity.
    + unfold load_profiles in *. simpl.
      destruct (profiles_file w) as [text | ]; [ | now injection Hload as <-].
      destruct (json_loads text); try discriminate; now injection Hload as <-.
    + reflexivity.
    + reflexivity.
    + auto.
    + discriminate.
Qed.

Lemma add_forward_appends_and_frames_witness :
  load_profiles (Sample.world_with Sample.two_profiles)
  = (Done Sample.two_profiles, Sample.world_with Sample.two_profiles)
  /\ (forall p,
        dict_get [("web", Sample.busy_profile); ("s1", Sample.plain_profile)] "web"
        = Some p -> forwards_appendable p = true)
  /\ exists w' d',
       add_forward "web" 9000 9001 "db.internal" "remote"
         (Sample.world_with Sample.two_profiles)
       = (Done true, w')
       /\ load_profiles w' = (Done (PDict d'), w')
       /\ dict_keys d' = ["web"; "s1"]
       /\ (forall k, k <> "web" ->
             dict_get d' k = dict_get [("web", Sample.busy_profile);
                                       ("s1", Sample.plain_profile)] k)
       /\ (true = false ->
           d' = [("web", Sample.busy_profile); ("s1", Sample.plain_profile)]
           /\ profiles_file w' = profiles_file (Sample.world_with Sample.two_profiles)
           /\ active_file w' = active_file (Sample.world_with Sample.two_profiles))
       /\ (forall p,
             dict_get [("web", Sample.busy_profile); ("s1", Sample.plain_profile)] "web"
             = Some p ->
             exists p',
               dict_get d' "web" = Some p'
               /\ profile_forwards p'
                  = (profile_forwards p
                     ++ [forward_record "remote" 9000 9001 "db.internal"])%list
               /\ forall f, f <> "forwards" -> py_getitem p' f = py_getitem p f).
Proof.
  assert (H : load_profiles (Sample.world_with Sample.two_profiles)
              = (Done Sample.two_profiles, Sample.world_with Sample.two_profiles))
    by (vm_compute; reflexivity).
  assert (Hshape : forall p,
             dict_get [("web", Sample.busy_profile); ("s1", Sample.plain_profile)] "web"
             = Some p -> forwards_appendable p = true)
    by (intros p [= <-]; reflexivity).
  split; [exact H | split; [exact Hshape | ] ].
  exact (add_forward_appends_and_frames "web" 9000 9001 "db.internal" "remote"
           (Sample.world_with Sample.two_profiles) _ H Hshape).
Defined.

(** *** Connecting in the foreground *)

Lemma print_forward_well_formed (fwd : pyval) (w : world) :
  well_formed_forward fwd = true ->
  exists w', print_forward fwd w = (Done tt, w').
Proof.
  destruct fwd as [ | | | | | fd]; simpl; try discriminate.
  unfold dict_mem. intros H.
  destruct (dict_get fd "local_port") as [lp | ] eqn:Hl; [ | discriminate].
  destruct (dict_get fd "remote_port") as [rp | ] eqn:Hr; [ | discriminate].
  unfold print_forward.
  destruct (py_eq match dict_get fd "type" with
                  | Some v => v | None => PStr "local" end (PStr "local")) eqn:E;
    eexists;
    step;
    (eapply bind_done; [apply lift_ok; simpl; rewrite Hl; reflexivity | ]);
    (eapply bind_done; [apply lift_ok; simpl; rewrite Hr; reflexivity | ]);
    step;
    rewrite E; reflexivity.
Qed.

Lemma for_each_print_forward (fwds : list pyval) :
  forallb well_formed_forward fwds = true ->
  forall w, exists w', for_each fwds print_forward w = (Done tt, w').
Proof.
  induction fwds as [ | fwd fwds IH]; simpl; intros H w; [now eexists | ].
  apply andb_true_iff in H as [Hf Hr].
  destruct (print_forward_well_formed fwd w Hf) as [w1 H1].
  destruct (IH Hr w1) as [w2 H2].
  exists w2. eapply bind_done; [exact H1 | exact H2].
Qed.

(** C2, as the code has it: with an existing profile that the builder
    accepts, a foreground [connect] answers false exactly when running the
    client raises an exception other than the operator's interrupt; an
    interrupt and a client that ran to its end, whatever its exit status,
    both give true. *)
Theorem connect_foreground_outcome
    (os : machine) (name : string) (w : world) (d : pydict) (p : pyval) :
  load_profiles w = (Done (PDict d), w) ->
  dict_get d name = Some p ->
  well_formed_profile p = true ->
  exists cmd,
    build_ssh_command (files os) p = Ok cmd
    /\ fst (connect os name false w)
       = match subprocess_run os cmd with
         | Completed _ => Done true
         | Interrupted => Done true
         | Failed _ => Done false
         end.
Proof.
  intros Hload Hget Hp.
  pose proof (build_ssh_command_shape (files os) p Hp) as Hcmd.
  eexists. split; [exact Hcmd | ].
  set (cmd := ("ssh" :: _)%list) in *.
  pose proof (profile_forwards_well_formed p Hp) as Hfw.
  destruct p as [ | | | | | pd]; try discriminate Hp.
  simpl in Hp.
  apply andb_true_iff in Hp as [Hp Hfws].
  apply andb_true_iff in Hp as [Hp _].
  apply andb_true_iff in Hp as [Hu Hh].
  unfold dict_mem in Hu, Hh.
  destruct (dict_get pd "user") as [u | ] eqn:Eu; [ | discriminate].
  destruct (dict_get pd "host") as [h | ] eqn:Eh; [ | discriminate].
  assert (Hmem : dict_mem d name = true) by (unfold dict_mem; now rewrite Hget).
  assert (Hshow :
            forall stamp w0,
              exists w1,
                (if py_truthy match dict_get (dict_set pd "last_used" (PStr stamp))
                                      "forwards" with
                              | Some v => v | None => PList [] end
                 then
                   bind (print (String char_nl "[>] Port Forwards:")) (fun _ =>
                   bind (lift (py_iter
                                 match dict_get (dict_set pd "last_used" (PStr stamp))
                                         "forwards" with
                                 | Some v => v | None => PList [] end))
                     (fun fwds => for_each fwds print_forward))
                 else ret tt) w0 = (Done tt, w1)).
  { intros stamp w0.
    rewrite dict_get_set_other by discriminate.
    unfold profile_forwards, field_or in Hfw. simpl in Hfw.
    destruct (dict_get pd "forwards") as [[ | | | | l | ] | ];
      try discriminate Hfws; [ | now eexists].
    destruct l as [ | fwd l]; [now eexists | ].
    cbn [py_truthy].
    destruct (for_each_print_forward (fwd :: l) Hfw
                (snd (print (String char_nl "[>] Port Forwards:") w0)))
      as [w1 H1].
    exists w1.
    do 2 step.
    exact H1. }
  unfold connect.
  eapply bind_done_fst; [exact Hload | ].
  step.
  rewrite Hmem. cbn [negb].
  eapply bind_done_fst; [apply lift_ok; simpl; rewrite Hget; reflexivity | ].
  eapply bind_done_fst; [apply lift_ok; exact Hcmd | ].
  do 5 step.
  eapply bind_done_fst;
    [apply lift_ok; simpl; rewrite dict_get_set_other by discriminate;
     rewrite Eu; reflexivity | ].
  eapply bind_done_fst;
    [apply lift_ok; simpl; rewrite dict_get_set_other by discriminate;
     rewrite Eh; reflexivity | ].
  do 3 step.
  match goal with |- fst (bind _ _ ?w0) = _ =>
    destruct (Hshow (isoformat_now os (clock_reads w)) w0) as [w1 H1] end.
  eapply bind_done_fst; [exact H1 | ].
  step.
  destruct (subprocess_run os cmd); reflexivity.
Qed.

Lemma connect_foreground_outcome_witness :
  load_profiles (Sample.world_with Sample.two_profiles)
  = (Done Sample.two_profiles, Sample.world_with Sample.two_profiles)
  /\ dict_get [("web", Sample.busy_profile); ("s1", Sample.plain_profile)] "web"
     = Some Sample.busy_profile
  /\ well_formed_profile Sample.busy_profile = true
  /\ exists cmd,
       build_ssh_command (files Sample.machine_without_ssh) Sample.busy_profile
       = Ok cmd
       /\ fst (connect Sample.machine_without_ssh "web" false
                 (Sample.world_with Sample.two_profiles))
          = match subprocess_run Sample.machine_without_ssh cmd with
            | Completed _ => Done true
            | Interrupted => Done true
            | Failed _ => Done false
            end.
Proof.
  assert (H : load_profiles (Sample.world_with Sample.two_profiles)
              = (Done Sample.two_profiles, Sample.world_with Sample.two_profiles))
    by (vm_compute; reflexivity).
  split; [exact H | split; [reflexivity | split; [reflexivity | ] ] ].
  exact (connect_foreground_outcome Sample.machine_without_ssh "web"
           (Sample.world_with Sample.two_profiles) _ Sample.busy_profile
           H eq_refl eq_refl).
Defined.

(** C2, the part of the claim the code does not keep: the client starts,
    leaves with exit status 255, and the foreground [connect] answers
    true. *)
Lemma connect_ignores_exit_status :
  build_ssh_command (files (Sample.machine_exiting 255)) Sample.plain_profile
  = Ok ["ssh"; "bob@example.com"]
  /\ subprocess_run (Sample.machine_exiting 255) ["ssh"; "bob@example.com"]
     = Completed 255
  /\ fst (connect (Sample.machine_exiting 255) "s1" false
            (Sample.world_with Sample.two_profiles))
     = Done true
  /\ fst (connect (Sample.machine_exiting 255) "s1" false
            (Sample.world_with Sample.two_profiles))
     <> Done false.
Proof.
  assert (H : fst (connect (Sample.machine_exiting 255) "s1" false
                     (Sample.world_with Sample.two_profiles))
              = Done true) by (vm_compute; reflexivity).
  split; [reflexivity | split; [reflexivity | split; [exact H | ] ] ].
  rewrite H. discriminate.
Qed.

(** *** The examples of the specification, run *)

Example example_1_add_then_build :
  let profile :=
    PDict [("host", PStr "example.com"); ("user", PStr "bob"); ("port", PInt 22);
           ("created", PStr "2024-05-01T12:00:00"); ("last_used", PNone);
           ("forwards", PList [])] in
  exists w,
    add_profile (Sample.machine_exiting 0) "s1" "example.com" "bob" 22 None None
      Sample.fresh_world = (Done tt, w)
    /\ load_profiles w = (Done (PDict [("s1", profile)]), w)
    /\ build_ssh_command Sample.bare_env profile = Ok ["ssh"; "bob@example.com"].
Proof.
  eexists. split; [vm_compute; reflexivity | ].
  split; [vm_compute; reflexivity | reflexivity].
Qed.

Example example_5_delete_missing :
  exists w,
    delete_profile "nonexistent" (Sample.world_with Sample.two_profiles)
    = (Done false, w)
    /\ profiles_file w = profiles_file (Sample.world_with Sample.two_profiles)
    /\ load_profiles w = (Done Sample.two_profiles, w).
Proof.
  eexists. split; [vm_compute; reflexivity | ].
  split; vm_compute; reflexivity.
Qed.

Example connect_interrupted_is_success :
  fst (connect Sample.machine_interrupted "s1" false
         (Sample.world_with Sample.two_profiles)) = Done true.
Proof. vm_compute. reflexivity. Qed.

Example connect_background_not_observed :
  fst (connect (Sample.machine_exiting 255) "s1" true
         (Sample.world_with Sample.two_profiles)) = Done true.
Proof. vm_compute. reflexivity. Qed.

(** * Further properties of the operations *)

(** ** Stepping through an operation *)

Lemma bind_run {A B} (P : outcome B * world -> Prop) (m : M A) (f : A -> M B)
    (w w1 : world) (a : A) :
  m w = (Done a, w1) -> P (f a w1) -> P (bind m f w).
Proof. intros Hm Hf. unfold bind. now rewrite Hm. Qed.

Lemma bind_raised {A B} (m : M A) (f : A -> M B) (w w1 : world) (e : exn) :
  m w = (Raised e, w1) -> bind m f w = (Raised e, w1).
Proof. intros Hm. unfold bind. now rewrite Hm. Qed.

(** One [bind] under a predicate on the result. *)
Ltac run :=
  eapply bind_run; [first [reflexivity | apply lift_ok; reflexivity] | ].

Lemma same_but_console_refl (w : world) : same_but_console w w.
Proof. repeat split. Qed.

Lemma same_but_console_trans (w1 w2 w3 : world) :
  same_but_console w1 w2 -> same_but_console w2 w3 -> same_but_console w1 w3.
Proof.
  intros (A1 & A2 & A3 & A4) (B1 & B2 & B3 & B4).
  repeat split; congruence.
Qed.

Lemma print_same_but_console (line : string) (w : world) :
  same_but_console w (snd (print line w)).
Proof. repeat split. Qed.

Lemma load_profiles_same_but_console (w w' : world) :
  same_but_console w w' ->
  fst (load_profiles w') = fst (load_profiles w)
  /\ snd (load_profiles w') = w'.
Proof.
  intros (_ & Hf & _). unfold load_profiles. rewrite Hf.
  destruct (profiles_file w) as [text | ]; [ | auto].
  destruct (json_loads text); auto.
Qed.

Lemma load_active_same_but_console (w w' : world) :
  same_but_console w w' ->
  fst (load_active w') = fst (load_active w)
  /\ snd (load_active w') = w'.
Proof.
  intros (_ & _ & Hf & _). unfold load_active. rewrite Hf.
  destruct (active_file w) as [text | ]; [ | auto].
  destruct (json_loads text); auto.
Qed.

Lemma load_active_written (w : world) (v : pyval) :
  active_file w = Some (json_dumps v) ->
  well_keyed v = true ->
  load_active w = (Done v, w).
Proof.
  intros Hfile Hwk. unfold load_active.
  now rewrite Hfile, (json_loads_dumps v Hwk).
Qed.

Lemma load_active_same_world (w w' : world) (v : pyval) :
  load_active w = (Done v, w') -> w' = w /\ well_keyed v = true.
Proof.
  unfold load_active.
  destruct (active_file w) as [text | ]; [ | now intros [= <- <-]].
  destruct (json_loads text) as [v0 | | | ] eqn:E; try discriminate.
  - intros [= <- <-]. split; [reflexivity | ].
    now apply (json_loads_well_keyed text).
  - now intros [= <- <-].
Qed.

(** ** Adding a profile *)

Lemma dict_set_keys_absent (d : pydict) (k : string) (v : pyval) :
  dict_mem d k = false -> dict_keys (dict_set d k v) = (dict_keys d ++ [k])%list.
Proof.
  unfold dict_mem. induction d as [ | [k0 v0] d IH]; simpl; [reflexivity | ].
  destruct (String.eqb k k0); simpl; [discriminate | ].
  intros H. now rewrite (IH H).
Qed.

Lemma profile_record_well_keyed (host user : string) (port : Z) (created : string)
    (key : option string) (forwards : option (list pyval)) :
  forallb well_keyed match forwards with Some l => l | None => [] end = true ->
  well_keyed (profile_record host user port created key forwards) = true.
Proof.
  intros H. unfold profile_record.
  destruct key as [k | ]; [destruct (String.eqb k "") | ];
    simpl; rewrite H; reflexivity.
Qed.

Lemma add_profile_runs (os : machine) (name host user : string) (port : Z)
    (key : option string) (forwards : option (list pyval)) (w : world)
    (profiles : pyval) :
  load_profiles w = (Done profiles, w) ->
  exists lines,
    add_profile os name host user port key forwards w
    = match py_setitem profiles name
              (profile_record host user port (isoformat_now os (clock_reads w))
                 key forwards) with
      | Ok stored =>
          (Done tt,
           {| config_dir := true;
              profiles_file := Some (json_dumps stored);
              active_file := active_file w;
              console := (console w ++ lines)%list;
              clock_reads := S (clock_reads w) |})
      | Raise e =>
          (Raised e,
           {| config_dir := config_dir w;
              profiles_file := profiles_file w;
              active_file := active_file w;
              console := console w;
              clock_reads := S (clock_reads w) |})
      end.
Proof.
  intros Hload. unfold add_profile, profile_record.
  destruct key as [k | ]; [destruct (String.eqb k "") eqn:Ek | ];
    destruct forwards as [[ | f fs] | ];
    (destruct profiles as [ | | | | | d];
     [ exists []; unfold bind at 1; rewrite Hload; reflexivity ..
     | eexists; unfold bind at 1; rewrite Hload;
       unfold bind, now_isoformat, lift, save_profiles, ensure_config_dir,
         print, ret; simpl; rewrite <- ?app_assoc; reflexivity ]).
Qed.

Lemma add_profile_written (os : machine) (name host user : string) (port : Z)
    (key : option string) (forwards : option (list pyval)) (w : world)
    (d : pydict) :
  load_profiles w = (Done (PDict d), w) ->
  forallb well_keyed match forwards with Some l => l | None => [] end = true ->
  exists w',
    add_profile os name host user port key forwards w = (Done tt, w')
    /\ load_profiles w'
       = (Done (PDict (dict_set d name
                         (profile_record host user port
                            (isoformat_now os (clock_reads w)) key forwards))), w')
    /\ same_but_console
         {| config_dir := true; profiles_file := profiles_file w';
            active_file := active_file w; console := console w;
            clock_reads := S (clock_reads w) |} w'.
Proof.
  intros Hload Hfw.
  destruct (load_profiles_same_world _ _ _ Hload) as [_ Hwk].
  destruct (add_profile_runs os name host user port key forwards w _ Hload)
    as [lines Hrun].
  simpl in Hrun.
  eexists. split; [exact Hrun | ].
  split; [ | repeat split].
  apply load_profiles_written; [reflexivity | ].
  apply dict_set_well_keyed; [exact Hwk | ].
  now apply profile_record_well_keyed.
Qed.

(** X1: [add_profile] on a store that loads as a mapping stores the new
    record under the name, whether or not the name was there: the record
    read back is the new one whole (an older record of that name, its
    forwards and its creation time are gone), every other profile is as
    before, and a new name goes last.  The clock is read once, the active
    store is not touched. *)
Theorem add_profile_upserts (os : machine) (name host user : string) (port : Z)
    (key : option string) (forwards : option (list pyval)) (w : world)
    (d : pydict) :
  load_profiles w = (Done (PDict d), w) ->
  forallb well_keyed match forwards with Some l => l | None => [] end = true ->
  let record :=
    profile_record host user port (isoformat_now os (clock_reads w)) key forwards in
  exists w' d',
    add_profile os name host user port key forwards w = (Done tt, w')
    /\ load_profiles w' = (Done (PDict d'), w')
    /\ dict_get d' name = Some record
    /\ (forall k, k <> name -> dict_get d' k = dict_get d k)
    /\ dict_keys d'
       = (if dict_mem d name then dict_keys d else dict_keys d ++ [name])%list
    /\ clock_reads w' = S (clock_reads w)
    /\ active_file w' = active_file w.
Proof.
  intros Hload Hfw record.
  destruct (add_profile_written os name host user port key forwards w d Hload Hfw)
    as (w' & Hrun & Hload' & (_ & _ & Hactive & Hclock)).
  exists w', (dict_set d name record).
  split; [exact Hrun | split; [exact Hload' | ] ].
  split; [apply dict_get_set_same | ].
  split; [intros k Hk; now apply dict_get_set_other | ].
  split; [ | split; [exact Hclock | exact Hactive] ].
  destruct (dict_mem d name) eqn:Hmem.
  - now apply dict_set_keys_present.
  - now apply dict_set_keys_absent.
Qed.

Lemma add_profile_upserts_witness :
  load_profiles (Sample.world_with Sample.two_profiles)
  = (Done Sample.two_profiles, Sample.world_with Sample.two_profiles)
  /\ exists w' d',
       add_profile (Sample.machine_exiting 0) "s1" "db.example.com" "alice" 2222
         (Some "~/.ssh/id_ed25519") None (Sample.world_with Sample.two_profiles)
       = (Done tt, w')
       /\ load_profiles w' = (Done (PDict d'), w')
       /\ dict_get d' "s1"
          = Some (profile_record "db.example.com" "alice" 2222 "2024-05-01T12:00:00"
                    (Some "~/.ssh/id_ed25519") None)
       /\ (forall k, k <> "s1" ->
             dict_get d' k = dict_get [("web", Sample.busy_profile);
                                       ("s1", Sample.plain_profile)] k)
       /\ dict_keys d' = ["web"; "s1"]
       /\ clock_reads w' = 1
       /\ active_file w' = None.
Proof.
  assert (H : load_profiles (Sample.world_with Sample.two_profiles)
              = (Done Sample.two_profiles, Sample.world_with Sample.two_profiles))
    by (vm_compute; reflexivity).
  split; [exact H | ].
  exact (add_profile_upserts (Sample.machine_exiting 0) "s1" "db.example.com"
           "alice" 2222 (Some "~/.ssh/id_ed25519") None
           (Sample.world_with Sample.two_profiles) _ H eq_refl).
Defined.

Lemma profile_record_well_formed (host user : string) (port : Z) (created : string)
    (key : option string) :
  well_formed_profile (profile_record host user port created key None) = true.
Proof.
  unfold profile_record.
  destruct key as [k | ]; [destruct (String.eqb k "") | ]; reflexivity.
Qed.

(** X2: a profile added without a key and read back from the store builds
    to [ssh user@host], with [-p port] in between exactly when the port is
    not 22, on every machine and for every host and user. *)
Theorem add_profile_then_build (os : machine) (env : os_env)
    (name host user : string) (port : Z) (w : world) (d : pydict) :
  load_profiles w = (Done (PDict d), w) ->
  exists w' profiles profile,
    add_profile os name host user port None None w = (Done tt, w')
    /\ load_profiles w' = (Done profiles, w')
    /\ py_getitem profiles name = Ok profile
    /\ build_ssh_command env profile
       = Ok ("ssh" :: (if Z.eqb port 22 then [] else ["-p"; str_of_Z port])
               ++ [(user ++ "@" ++ host)%string])%list.
Proof.
  intros Hload.
  destruct (add_profile_written os name host user port None None w d Hload eq_refl)
    as (w' & Hrun & Hload' & _).
  exists w'. eexists. eexists.
  split; [exact Hrun | split; [exact Hload' | ] ].
  split; [simpl; rewrite dict_get_set_same; reflexivity | ].
  unfold profile_record, build_ssh_command. simpl.
  destruct (Z.eqb port 22); reflexivity.
Qed.

Lemma add_profile_then_build_witness :
  load_profiles Sample.fresh_world = (Done (PDict []), Sample.fresh_world)
  /\ exists w' profiles profile,
       add_profile (Sample.machine_exiting 0) "s2" "example.com" "bob" 2222
         None None Sample.fresh_world = (Done tt, w')
       /\ load_profiles w' = (Done profiles, w')
       /\ py_getitem profiles "s2" = Ok profile
       /\ build_ssh_command Sample.keyed_env profile
          = Ok ["ssh"; "-p"; "2222"; "bob@example.com"].
Proof.
  split; [reflexivity | ].
  exact (add_profile_then_build (Sample.machine_exiting 0) Sample.keyed_env
           "s2" "example.com" "bob" 2222 Sample.fresh_world [] eq_refl).
Defined.

(** X3: when the store file holds a text that does not parse, [add_profile]
    does not complain: it writes a store that holds the new profile alone,
    and whatever the file held is lost. *)
Theorem add_profile_replaces_unreadable_store (os : machine)
    (name host user : string) (port : Z) (key : option string) (w : world)
    (text : string) :
  profiles_file w = Some text ->
  json_loads text = Malformed ->
  exists w',
    add_profile os name host user port key None w = (Done tt, w')
    /\ load_profiles w'
       = (Done (PDict [(name, profile_record host user port
                                (isoformat_now os (clock_reads w)) key None)]), w')
    /\ profiles_file w' <> Some text.
Proof.
  intros Hfile Hbad.
  assert (Hload : load_profiles w = (Done (PDict []), w))
    by (unfold load_profiles; now rewrite Hfile, Hbad).
  destruct (add_profile_written os name host user port key None w [] Hload eq_refl)
    as (w' & Hrun & Hload' & _).
  exists w'. split; [exact Hrun | split; [exact Hload' | ] ].
  intros Hsame. unfold load_profiles in Hload'.
  rewrite Hsame, Hbad in Hload'. discriminate Hload'.
Qed.

Lemma add_profile_replaces_unreadable_store_witness :
  profiles_file Sample.corrupt_world = Some "invalid json content"
  /\ json_loads "invalid json content" = Malformed
  /\ exists w',
       add_profile (Sample.machine_exiting 0) "s1" "example.com" "bob" 22 None None
         Sample.corrupt_world = (Done tt, w')
       /\ load_profiles w'
          = (Done (PDict [("s1", profile_record "example.com" "bob" 22
                                   "2024-05-01T12:00:00" None None)]), w')
       /\ profiles_file w' <> Some "invalid json content".
Proof.
  split; [reflexivity | split; [reflexivity | ] ].
  exact (add_profile_replaces_unreadable_store (Sample.machine_exiting 0)
           "s1" "example.com" "bob" 22 None Sample.corrupt_world
           "invalid json content" eq_refl eq_refl).
Defined.

(** ** Deleting, again *)

Lemma delete_profile_present (name : string) (w : world) (d : pydict) :
  load_profiles w = (Done (PDict d), w) ->
  dict_mem d name = true ->
  exists w',
    delete_profile name w = (Done true, w')
    /\ load_profiles w' = (Done (PDict (dict_del d name)), w')
    /\ active_file w' = active_file w
    /\ clock_reads w' = clock_reads w.
Proof.
  intros Hload Hmem.
  destruct (load_profiles_same_world _ _ _ Hload) as [_ Hwk].
  eexists. split; [ | split; [ | split] ].
  - unfold delete_profile.
    eapply bind_done; [exact Hload | ].
    step. rewrite Hmem. cbn [negb].
    eapply bind_done; [apply lift_ok; simpl; rewrite Hmem; reflexivity | ].
    reflexivity.
  - apply load_profiles_written; [reflexivity | ].
    now apply dict_del_well_keyed.
  - reflexivity.
  - reflexivity.
Qed.

Lemma delete_profile_absent (name : string) (w : world) (d : pydict) :
  load_profiles w = (Done (PDict d), w) ->
  dict_mem d name = false ->
  exists w',
    delete_profile name w = (Done false, w') /\ same_but_console w w'.
Proof.
  intros Hload Hmem. eexists. split.
  - unfold delete_profile.
    eapply bind_done; [exact Hload | ].
    step. rewrite Hmem. reflexivity.
  - repeat split.
Qed.

Lemma load_profiles_after_prints (w w' : world) (v : pyval) :
  load_profiles w = (Done v, w) ->
  same_but_console w w' ->
  load_profiles w' = (Done v, w').
Proof.
  intros Hload Hsame.
  destruct (load_profiles_same_but_console w w' Hsame) as [Hfst Hsnd].
  rewrite Hload in Hfst. simpl in Hfst.
  destruct (load_profiles w') as [r w0]. simpl in *. now subst.
Qed.

Lemma dict_del_set_absent (d : pydict) (k : string) (v : pyval) :
  dict_mem d k = false -> dict_del (dict_set d k v) k = d.
Proof.
  unfold dict_mem. induction d as [ | [k0 v0] d IH]; simpl.
  - now rewrite String.eqb_refl.
  - destruct (String.eqb k k0) eqn:E; simpl; [discriminate | ].
    rewrite E. intros H. now rewrite (IH H).
Qed.

Lemma dict_mem_set_same (d : pydict) (k : string) (v : pyval) :
  dict_mem (dict_set d k v) k = true.
Proof. unfold dict_mem. now rewrite dict_get_set_same. Qed.

Lemma dict_mem_del_same (d : pydict) (k : string) :
  distinct (dict_keys d) = true -> dict_mem (dict_del d k) k = false.
Proof. intros H. unfold dict_mem. now rewrite dict_get_del_same. Qed.

(** X4: adding a profile under a name the store does not have and then
    deleting that name gives back the mapping the store had, entry for
    entry and in the same order. *)
Theorem add_then_delete_restores (os : machine) (name host user : string)
    (port : Z) (key : option string) (w : world) (d : pydict) :
  load_profiles w = (Done (PDict d), w) ->
  dict_mem d name = false ->
  exists w1 w2,
    add_profile os name host user port key None w = (Done tt, w1)
    /\ delete_profile name w1 = (Done true, w2)
    /\ load_profiles w2 = (Done (PDict d), w2).
Proof.
  intros Hload Hmem.
  destruct (add_profile_written os name host user port key None w d Hload eq_refl)
    as (w1 & Hadd & Hload1 & _).
  destruct (delete_profile_present name w1 _ Hload1 (dict_mem_set_same _ _ _))
    as (w2 & Hdel & Hload2 & _).
  exists w1, w2. split; [exact Hadd | split; [exact Hdel | ] ].
  now rewrite dict_del_set_absent in Hload2.
Qed.

Lemma add_then_delete_restores_witness :
  load_profiles (Sample.world_with Sample.two_profiles)
  = (Done Sample.two_profiles, Sample.world_with Sample.two_profiles)
  /\ dict_mem [("web", Sample.busy_profile); ("s1", Sample.plain_profile)] "tmp"
     = false
  /\ exists w1 w2,
       add_profile (Sample.machine_exiting 0) "tmp" "example.org" "carol" 22
         (Some "~/.ssh/id_rsa") None (Sample.world_with Sample.two_profiles)
       = (Done tt, w1)
       /\ delete_profile "tmp" w1 = (Done true, w2)
       /\ load_profiles w2 = (Done Sample.two_profiles, w2).
Proof.
  assert (H : load_profiles (Sample.world_with Sample.two_profiles)
              = (Done Sample.two_profiles, Sample.world_with Sample.two_profiles))
    by (vm_compute; reflexivity).
  split; [exact H | split; [reflexivity | ] ].
  exact (add_then_delete_restores (Sample.machine_exiting 0) "tmp" "example.org"
           "carol" 22 (Some "~/.ssh/id_rsa") (Sample.world_with Sample.two_profiles)
           _ H eq_refl).
Defined.

Lemma dict_del_absent (d : pydict) (k : string) :
  dict_mem d k = false -> dict_del d k = d.
Proof.
  unfold dict_mem. induction d as [ | [k0 v0] d IH]; simpl; [reflexivity | ].
  destruct (String.eqb k k0); [discriminate | ].
  intros H. now rewrite IH.
Qed.

(** X5: [delete_profile] answers whether the name was in the store, true
    for a name that was; deleting the same name a second time answers
    false and leaves the store file as the first deletion left it.  The
    store then holds the old mapping without the name. *)
Theorem delete_profile_twice (name : string) (w : world) (d : pydict) :
  load_profiles w = (Done (PDict d), w) ->
  exists w1 w2,
    delete_profile name w = (Done (dict_mem d name), w1)
    /\ delete_profile name w1 = (Done false, w2)
    /\ profiles_file w2 = profiles_file w1
    /\ load_profiles w2 = (Done (PDict (dict_del d name)), w2).
Proof.
  intros Hload.
  destruct (load_profiles_same_world _ _ _ Hload) as [_ Hwk].
  assert (Hdistinct : distinct (dict_keys d) = true)
    by (simpl in Hwk; now apply andb_true_iff in Hwk as [Hk _]).
  destruct (dict_mem d name) eqn:Hmem.
  - destruct (delete_profile_present name w d Hload Hmem)
      as (w1 & Hdel & Hload1 & _).
    destruct (delete_profile_absent name w1 _ Hload1
                (dict_mem_del_same d name Hdistinct))
      as (w2 & Hdel2 & Hsame).
    exists w1, w2. split; [exact Hdel | split; [exact Hdel2 | ] ].
    split; [apply Hsame | ].
    exact (load_profiles_after_prints w1 w2 _ Hload1 Hsame).
  - destruct (delete_profile_absent name w d Hload Hmem) as (w1 & Hdel & Hsame).
    pose proof (load_profiles_after_prints w w1 _ Hload Hsame) as Hload1.
    destruct (delete_profile_absent name w1 d Hload1 Hmem) as (w2 & Hdel2 & Hsame2).
    exists w1, w2. split; [exact Hdel | split; [exact Hdel2 | ] ].
    split; [apply Hsame2 | ].
    rewrite (dict_del_absent d name Hmem).
    exact (load_profiles_after_prints w1 w2 _ Hload1 Hsame2).
Qed.

Lemma delete_profile_twice_witness :
  load_profiles (Sample.world_with Sample.two_profiles)
  = (Done Sample.two_profiles, Sample.world_with Sample.two_profiles)
  /\ exists w1 w2,
       delete_profile "web" (Sample.world_with Sample.two_profiles)
       = (Done true, w1)
       /\ delete_profile "web" w1 = (Done false, w2)
       /\ profiles_file w2 = profiles_file w1
       /\ load_profiles w2 = (Done (PDict [("s1", Sample.plain_profile)]), w2).
Proof.
  assert (H : load_profiles (Sample.world_with Sample.two_profiles)
              = (Done Sample.two_profiles, Sample.world_with Sample.two_profiles))
    by (vm_compute; reflexivity).
  split; [exact H | ].
  exact (delete_profile_twice "web" (Sample.world_with Sample.two_profiles) _ H).
Defined.

(** ** A store document that is not an object *)

Lemma for_each_print_same_but_console (names : list string) (w : world) :
  exists w',
    for_each names (fun name => print ("  - " ++ name)) w = (Done tt, w')
    /\ same_but_console w w'.
Proof.
  revert w. induction names as [ | n names IH]; intros w.
  - exists w. split; [reflexivity | apply same_but_console_refl].
  - destruct (IH (snd (print ("  - " ++ n) w))) as (w' & Hrun & Hsame).
    exists w'. split.
    + simpl. eapply bind_done; [reflexivity | exact Hrun].
    + eapply same_but_console_trans; [ | exact Hsame]. repeat split.
Qed.

(** X6: when the store file parses to something other than an object (a
    list, a string, a number, [null]), no operation writes to either store
    file: [delete_profile], [add_forward] and [connect] raise or answer
    false, never true, and [add_profile] raises [TypeError]. *)
Theorem non_mapping_store_is_never_written (os : machine) (name : string)
    (w : world) (v : pyval) :
  load_profiles w = (Done v, w) ->
  (forall d, v <> PDict d) ->
  (forall lp rp rh ft,
      fst (add_forward name lp rp rh ft w) <> Done true
      /\ same_but_console w (snd (add_forward name lp rp rh ft w)))
  /\ (fst (delete_profile name w) <> Done true
      /\ same_but_console w (snd (delete_profile name w)))
  /\ (forall background,
        fst (connect os name background w) <> Done true
        /\ same_but_console w (snd (connect os name background w)))
  /\ (forall host user port key forwards,
        fst (add_profile os name host user port key forwards w) = Raised TypeError
        /\ profiles_file (snd (add_profile os name host user port key forwards w))
           = profiles_file w
        /\ active_file (snd (add_profile os name host user port key forwards w))
           = active_file w).
Proof.
  intros Hload Hnot.
  assert (Hset : forall x, py_setitem v name x = Raise TypeError).
  { intros x. destruct v as [ | | | | | d]; try reflexivity.
    now destruct (Hnot d). }
  assert (Hget : py_getitem v name = Raise TypeError).
  { destruct v as [ | | | | | d]; try reflexivity. now destruct (Hnot d). }
  assert (Hdel : py_delitem v name = Raise TypeError).
  { destruct v as [ | | | | | d]; try reflexivity. now destruct (Hnot d). }
  assert (Hkeys : py_keys v = Raise AttributeError).
  { destruct v as [ | | | | | d]; try reflexivity. now destruct (Hnot d). }
  assert (Hlift : forall (A : Type) (e : exn) (w0 : world),
             @lift A (Raise e) w0 = (Raised e, w0)) by reflexivity.
  split; [ | split; [ | split] ].
  - intros lp rp rh ft.
    destruct (py_contains name v) as [[ | ] | e] eqn:Hc.
    + assert (Heq : add_forward name lp rp rh ft w = (Raised TypeError, w)).
      { unfold add_forward.
        eapply bind_done; [exact Hload | ].
        eapply bind_done; [apply lift_ok; exact Hc | ].
        cbn [negb]. apply bind_raised. rewrite Hget. apply Hlift. }
      rewrite Heq. split; [discriminate | apply same_but_console_refl].
    + assert (Heq : add_forward name lp rp rh ft w
                    = (Done false,
                       snd (print ("[X] Profile '" ++ name ++ "' not found.") w))).
      { unfold add_forward.
        eapply bind_done; [exact Hload | ].
        eapply bind_done; [apply lift_ok; exact Hc | ].
        reflexivity. }
      rewrite Heq. split; [discriminate | repeat split].
    + assert (Heq : add_forward name lp rp rh ft w = (Raised e, w)).
      { unfold add_forward.
        eapply bind_done; [exact Hload | ].
        apply bind_raised. rewrite Hc. apply Hlift. }
      rewrite Heq. split; [discriminate | apply same_but_console_refl].
  - destruct (py_contains name v) as [[ | ] | e] eqn:Hc.
    + assert (Heq : delete_profile name w = (Raised TypeError, w)).
      { unfold delete_profile.
        eapply bind_done; [exact Hload | ].
        eapply bind_done; [apply lift_ok; exact Hc | ].
        cbn [negb]. apply bind_raised. rewrite Hdel. apply Hlift. }
      rewrite Heq. split; [discriminate | apply same_but_console_refl].
    + assert (Heq : delete_profile name w
                    = (Done false,
                       snd (print ("[X] Profile '" ++ name ++ "' not found.") w))).
      { unfold delete_profile.
        eapply bind_done; [exact Hload | ].
        eapply bind_done; [apply lift_ok; exact Hc | ].
        reflexivity. }
      rewrite Heq. split; [discriminate | repeat split].
    + assert (Heq : delete_profile name w = (Raised e, w)).
      { unfold delete_profile.
        eapply bind_done; [exact Hload | ].
        apply bind_raised. rewrite Hc. apply Hlift. }
      rewrite Heq. split; [discriminate | apply same_but_console_refl].
  - intros background.
    destruct (py_contains name v) as [[ | ] | e] eqn:Hc.
    + assert (Heq : connect os name background w = (Raised TypeError, w)).
      { unfold connect.
        eapply bind_done; [exact Hload | ].
        eapply bind_done; [apply lift_ok; exact Hc | ].
        cbn [negb]. apply bind_raised. rewrite Hget. apply Hlift. }
      rewrite Heq. split; [discriminate | apply same_but_console_refl].
    + assert (Heq : connect os name background w
                    = (Raised AttributeError,
                       snd (print (String char_nl "Available profiles:")
                              (snd (print ("[X] Profile '" ++ name ++ "' not found.")
                                      w))))).
      { unfold connect.
        eapply bind_done; [exact Hload | ].
        eapply bind_done; [apply lift_ok; exact Hc | ].
        cbn [negb]. do 2 step.
        apply bind_raised. rewrite Hkeys. apply Hlift. }
      rewrite Heq. split; [discriminate | repeat split].
    + assert (Heq : connect os name background w = (Raised e, w)).
      { unfold connect.
        eapply bind_done; [exact Hload | ].
        apply bind_raised. rewrite Hc. apply Hlift. }
      rewrite Heq. split; [discriminate | apply same_but_console_refl].
  - intros host user port key forwards.
    destruct (add_profile_runs os name host user port key forwards w v Hload)
      as [lines Hrun].
    rewrite Hrun, Hset. repeat split.
Qed.

Lemma non_mapping_store_is_never_written_witness :
  let w := Sample.world_with (PList [PStr "web"]) in
  load_profiles w = (Done (PList [PStr "web"]), w)
  /\ (forall d, PList [PStr "web"] <> PDict d)
  /\ fst (delete_profile "web" w) <> Done true
  /\ same_but_console w (snd (delete_profile "web" w)).
Proof.
  intros w.
  assert (H : load_profiles w = (Done (PList [PStr "web"]), w))
    by (vm_compute; reflexivity).
  assert (Hnot : forall d, PList [PStr "web"] <> PDict d) by discriminate.
  split; [exact H | split; [exact Hnot | ] ].
  exact (proj1 (proj2 (non_mapping_store_is_never_written
                         (Sample.machine_exiting 0) "web" w _ H Hnot))).
Defined.

(** ** Forwards, one after the other *)

Lemma dict_set_set (d : pydict) (k : string) (a b : pyval) :
  dict_set (dict_set d k a) k b = dict_set d k b.
Proof.
  induction d as [ | [k0 v0] d IH]; simpl.
  - now rewrite String.eqb_refl.
  - destruct (String.eqb k k0) eqn:E; simpl; rewrite E; [reflexivity | ].
    now rewrite IH.
Qed.

(** The profile [add_forward] leaves behind. *)
Lemma add_forward_written
    (name : string) (local_port remote_port : Z) (remote_host forward_type : string)
    (w : world) (d pd : pydict) :
  load_profiles w = (Done (PDict d), w) ->
  dict_get d name = Some (PDict pd) ->
  forwards_appendable (PDict pd) = true ->
  exists w',
    add_forward name local_port remote_port remote_host forward_type w
    = (Done true, w')
    /\ load_profiles w'
       = (Done (PDict
                  (dict_set d name
                     (PDict
                        (dict_set pd "forwards"
                           (PList
                              (profile_forwards (PDict pd)
                               ++ [forward_record forward_type local_port
                                     remote_port remote_host])%list))))), w').
Proof.
  intros Hload Hget Hshape.
  destruct (load_profiles_same_world _ _ _ Hload) as [_ Hwk].
  set (fwd := forward_record forward_type local_port remote_port remote_host).
  assert (Hmem : dict_mem d name = true) by (unfold dict_mem; now rewrite Hget).
  pose proof (dict_get_well_keyed d name _ Hwk Hget) as Hwkp.
  simpl in Hshape.
  set (old := profile_forwards (PDict pd)).
  assert (Hold_eq : old = match dict_get pd "forwards" with
                          | Some (PList l) => l | _ => [] end).
  { subst old. unfold profile_forwards, field_or. simpl.
    now destruct (dict_get pd "forwards") as [[ | | | | l | ] | ]. }
  assert (Hwkold : forallb well_keyed old = true).
  { rewrite Hold_eq.
    destruct (dict_get pd "forwards") as [[ | | | | l | ] | ] eqn:E;
      try reflexivity.
    exact (dict_get_well_keyed pd "forwards" _ Hwkp E). }
  assert (Hpd' : dict_set
                   (if dict_mem pd "forwards" then pd
                    else dict_set pd "forwards" (PList []))
                   "forwards" (PList (old ++ [fwd])%list)
                 = dict_set pd "forwards" (PList (old ++ [fwd])%list)).
  { destruct (dict_mem pd "forwards"); [reflexivity | apply dict_set_set]. }
  fold fwd. rewrite <- Hpd'.
  eexists. split.
  - unfold add_forward.
    eapply bind_done; [exact Hload | ].
    step. rewrite Hmem. cbn [negb].
    eapply bind_done; [apply lift_ok; simpl; rewrite Hget; reflexivity | ].
    step.
    assert (Hprofile :
              forall w0,
                (if negb (dict_mem pd "forwards")
                 then lift (py_setitem (PDict pd) "forwards" (PList []))
                 else ret (PDict pd)) w0
                = (Done (PDict (if dict_mem pd "forwards" then pd
                                else dict_set pd "forwards" (PList []))), w0)).
    { intros w0. destruct (dict_mem pd "forwards"); reflexivity. }
    eapply bind_done; [apply Hprofile | ].
    assert (Hold : py_getitem
                     (PDict (if dict_mem pd "forwards" then pd
                             else dict_set pd "forwards" (PList [])))
                     "forwards" = Ok (PList old)).
    { rewrite Hold_eq. unfold dict_mem. simpl.
      destruct (dict_get pd "forwards") as [[ | | | | l | ] | ] eqn:E;
        try discriminate Hshape.
      - now rewrite E.
      - now rewrite dict_get_set_same. }
    eapply bind_done; [apply lift_ok; exact Hold | ].
    do 3 step.
    reflexivity.
  - apply load_profiles_written; [reflexivity | ].
    apply dict_set_well_keyed; [exact Hwk | ].
    rewrite Hpd'.
    apply dict_set_well_keyed; [exact Hwkp | ].
    simpl. rewrite forallb_snoc, Hwkold. reflexivity.
Qed.

Lemma well_formed_profile_appendable (p : pyval) :
  well_formed_profile p = true ->
  exists pd, p = PDict pd /\ forwards_appendable p = true.
Proof.
  destruct p as [ | | | | | pd]; simpl; try discriminate.
  intros H. exists pd. split; [reflexivity | ].
  apply andb_true_iff in H as [_ H].
  now destruct (dict_get pd "forwards") as [[ | | | | l | ] | ].
Qed.

Lemma forward_record_option (forward_type : string) (local_port remote_port : Z)
    (remote_host : string) :
  well_formed_forward
    (forward_record forward_type local_port remote_port remote_host) = true
  /\ forward_option (forward_record forward_type local_port remote_port remote_host)
     = if String.eqb forward_type "local"
       then ["-L"; str_of_Z local_port ++ ":" ++ remote_host ++ ":"
                   ++ str_of_Z remote_port]
       else ["-R"; str_of_Z remote_port ++ ":" ++ remote_host ++ ":"
                   ++ str_of_Z local_port].
Proof.
  split; [reflexivity | ].
  rewrite forward_option_by_direction by reflexivity.
  unfold field, field_or. simpl.
  now destruct (String.eqb forward_type "local").
Qed.

Lemma extended_profile_segments (env : os_env) (pd : pydict) (fwd : pyval) :
  well_formed_profile (PDict pd) = true ->
  well_formed_forward fwd = true ->
  let p' := PDict (dict_set pd "forwards"
                     (PList (profile_forwards (PDict pd) ++ [fwd])%list)) in
  well_formed_profile p' = true
  /\ port_option p' = port_option (PDict pd)
  /\ identity_option env p' = identity_option env (PDict pd)
  /\ destination p' = destination (PDict pd)
  /\ profile_forwards p' = (profile_forwards (PDict pd) ++ [fwd])%list.
Proof.
  intros Hp Hf p'.
  pose proof (profile_forwards_well_formed _ Hp) as Hall.
  subst p'. simpl in Hp.
  unfold port_option, identity_option, destination, profile_port, profile_forwards,
    field, field_or in *.
  simpl in *. unfold dict_mem in *.
  rewrite dict_get_set_same.
  rewrite !dict_get_set_other by discriminate.
  repeat split; try reflexivity.
  apply andb_true_iff in Hp as [Hp _]. rewrite Hp. simpl.
  rewrite forallb_snoc, Hall. exact Hf.
Qed.

(** What [add_forward] does to the command of a profile that the builder
    accepts: the tokens of the new record go in before the destination. *)
Lemma add_forward_command (env : os_env)
    (name : string) (local_port remote_port : Z) (remote_host forward_type : string)
    (w : world) (d pd : pydict) :
  load_profiles w = (Done (PDict d), w) ->
  dict_get d name = Some (PDict pd) ->
  well_formed_profile (PDict pd) = true ->
  let body :=
    ("ssh" :: port_option (PDict pd) ++ identity_option env (PDict pd)
       ++ flat_map forward_option (profile_forwards (PDict pd)))%list in
  exists w' d' p',
    add_forward name local_port remote_port remote_host forward_type w
    = (Done true, w')
    /\ load_profiles w' = (Done (PDict d'), w')
    /\ dict_get d' name = Some p'
    /\ build_ssh_command env (PDict pd)
       = Ok (body ++ [destination (PDict pd)])%list
    /\ build_ssh_command env p'
       = Ok (body
             ++ forward_option
                  (forward_record forward_type local_port remote_port remote_host)
             ++ [destination (PDict pd)])%list.
Proof.
  intros Hload Hget Hp body.
  destruct (well_formed_profile_appendable _ Hp) as (pd0 & [= <-] & Hshape).
  destruct (add_forward_written name local_port remote_port remote_host
              forward_type w d pd Hload Hget Hshape) as (w' & Hrun & Hload').
  destruct (forward_record_option forward_type local_port remote_port remote_host)
    as [Hfwd _].
  destruct (extended_profile_segments env pd _ Hp Hfwd)
    as (Hp' & Hport & Hid & Hdest & Hfws).
  exists w'. eexists. eexists.
  split; [exact Hrun | split; [exact Hload' | ] ].
  split; [apply dict_get_set_same | ].
  split.
  - rewrite (build_ssh_command_shape env _ Hp). subst body. simpl.
    now rewrite <- !app_assoc.
  - rewrite (build_ssh_command_shape env _ Hp').
    rewrite Hport, Hid, Hdest, Hfws, flat_map_app. simpl flat_map.
    rewrite app_nil_r. subst body. simpl. now rewrite <- !app_assoc.
Qed.

(** X7: on a profile the builder accepts, [add_forward] changes the built
    command in one way only: the flag pair of the new forward is put in
    just before the destination.  The pair is [-L local:host:remote] when
    the type is ['local'] and [-R remote:host:local] for every other type. *)
Theorem add_forward_extends_command (env : os_env)
    (name : string) (local_port remote_port : Z) (remote_host forward_type : string)
    (w : world) (d : pydict) (p : pyval) :
  load_profiles w = (Done (PDict d), w) ->
  dict_get d name = Some p ->
  well_formed_profile p = true ->
  exists w' d' p' body,
    add_forward name local_port remote_port remote_host forward_type w
    = (Done true, w')
    /\ load_profiles w' = (Done (PDict d'), w')
    /\ dict_get d' name = Some p'
    /\ build_ssh_command env p = Ok (body ++ [destination p])%list
    /\ build_ssh_command env p'
       = Ok (body
             ++ (if String.eqb forward_type "local"
                 then ["-L"; (str_of_Z local_port ++ ":" ++ remote_host ++ ":"
                              ++ str_of_Z remote_port)%string]
                 else ["-R"; (str_of_Z remote_port ++ ":" ++ remote_host ++ ":"
                              ++ str_of_Z local_port)%string])
             ++ [destination p])%list.
Proof.
  intros Hload Hget Hp.
  destruct (well_formed_profile_appendable p Hp) as (pd & -> & _).
  destruct (add_forward_command env name local_port remote_port remote_host
              forward_type w d pd Hload Hget Hp)
    as (w' & d' & p' & Hrun & Hload' & Hget' & Hb & Hb').
  destruct (forward_record_option forward_type local_port remote_port remote_host)
    as [_ Hopt].
  exists w', d', p'. eexists.
  split; [exact Hrun | split; [exact Hload' | split; [exact Hget' | ] ] ].
  split; [exact Hb | ].
  rewrite Hb', Hopt. reflexivity.
Qed.

Lemma add_forward_extends_command_witness :
  load_profiles (Sample.world_with Sample.two_profiles)
  = (Done Sample.two_profiles, Sample.world_with Sample.two_profiles)
  /\ dict_get [("web", Sample.busy_profile); ("s1", Sample.plain_profile)] "s1"
     = Some Sample.plain_profile
  /\ well_formed_profile Sample.plain_profile = true
  /\ exists w' d' p' body,
       add_forward "s1" 8080 80 "localhost" "local"
         (Sample.world_with Sample.two_profiles) = (Done true, w')
       /\ load_profiles w' = (Done (PDict d'), w')
       /\ dict_get d' "s1" = Some p'
       /\ build_ssh_command Sample.bare_env Sample.plain_profile
          = Ok (body ++ ["bob@example.com"])%list
       /\ build_ssh_command Sample.bare_env p'
          = Ok (body ++ ["-L"; "8080:localhost:80"] ++ ["bob@example.com"])%list.
Proof.
  assert (H : load_profiles (Sample.world_with Sample.two_profiles)
              = (Done Sample.two_profiles, Sample.world_with Sample.two_profiles))
    by (vm_compute; reflexivity).
  split; [exact H | split; [reflexivity | split; [reflexivity | ] ] ].
  exact (add_forward_extends_command Sample.bare_env "s1" 8080 80 "localhost"
           "local" (Sample.world_with Sample.two_profiles) _ Sample.plain_profile
           H eq_refl eq_refl).
Defined.

(** X8: two calls of [add_forward] on the same profile leave its forwards
    as they were, followed by the first new record and then the second. *)
Theorem add_forward_twice_in_order
    (name : string) (lp1 rp1 : Z) (rh1 ft1 : string) (lp2 rp2 : Z) (rh2 ft2 : string)
    (w : world) (d : pydict) (p : pyval) :
  load_profiles w = (Done (PDict d), w) ->
  dict_get d name = Some p ->
  forwards_appendable p = true ->
  exists w1 w2 d2 p2,
    add_forward name lp1 rp1 rh1 ft1 w = (Done true, w1)
    /\ add_forward name lp2 rp2 rh2 ft2 w1 = (Done true, w2)
    /\ load_profiles w2 = (Done (PDict d2), w2)
    /\ dict_get d2 name = Some p2
    /\ profile_forwards p2
       = (profile_forwards p
          ++ [forward_record ft1 lp1 rp1 rh1; forward_record ft2 lp2 rp2 rh2])%list.
Proof.
  intros Hload Hget Hshape.
  destruct p as [ | | | | | pd]; try discriminate Hshape.
  destruct (add_forward_written name lp1 rp1 rh1 ft1 w d pd Hload Hget Hshape)
    as (w1 & Hrun1 & Hload1).
  set (pd1 := dict_set pd "forwards"
                (PList (profile_forwards (PDict pd)
                        ++ [forward_record ft1 lp1 rp1 rh1])%list)) in *.
  assert (Hshape1 : forwards_appendable (PDict pd1) = true).
  { subst pd1. simpl. now rewrite dict_get_set_same. }
  destruct (add_forward_written name lp2 rp2 rh2 ft2 w1 _ pd1 Hload1
              (dict_get_set_same _ _ _) Hshape1) as (w2 & Hrun2 & Hload2).
  exists w1, w2. eexists. eexists.
  split; [exact Hrun1 | split; [exact Hrun2 | split; [exact Hload2 | ] ] ].
  split; [apply dict_get_set_same | ].
  unfold profile_forwards at 1, field_or. simpl.
  rewrite dict_get_set_same.
  unfold profile_forwards at 1, field_or. simpl. subst pd1.
  rewrite dict_get_set_same. now rewrite <- app_assoc.
Qed.

Lemma add_forward_twice_in_order_witness :
  load_profiles (Sample.world_with Sample.two_profiles)
  = (Done Sample.two_profiles, Sample.world_with Sample.two_profiles)
  /\ dict_get [("web", Sample.busy_profile); ("s1", Sample.plain_profile)] "s1"
     = Some Sample.plain_profile
  /\ forwards_appendable Sample.plain_profile = true
  /\ exists w1 w2 d2 p2,
       add_forward "s1" 8080 80 "localhost" "local"
         (Sample.world_with Sample.two_profiles) = (Done true, w1)
       /\ add_forward "s1" 3000 3000 "localhost" "remote" w1 = (Done true, w2)
       /\ load_profiles w2 = (Done (PDict d2), w2)
       /\ dict_get d2 "s1" = Some p2
       /\ profile_forwards p2
          = (profile_forwards Sample.plain_profile
             ++ [forward_record "local" 8080 80 "localhost";
                 forward_record "remote" 3000 3000 "localhost"])%list.
Proof.
  assert (H : load_profiles (Sample.world_with Sample.two_profiles)
              = (Done Sample.two_profiles, Sample.world_with Sample.two_profiles))
    by (vm_compute; reflexivity).
  split; [exact H | split; [reflexivity | split; [reflexivity | ] ] ].
  exact (add_forward_twice_in_order "s1" 8080 80 "localhost" "local"
           3000 3000 "localhost" "remote"
           (Sample.world_with Sample.two_profiles) _ Sample.plain_profile
           H eq_refl eq_refl).
Defined.

(** ** Connecting *)

Lemma for_each_print_lines {A} (l : list A) (line : A -> string) (w : world) :
  for_each l (fun x => print (line x)) w
  = (Done tt,
     {| config_dir := config_dir w; profiles_file := profiles_file w;
        active_file := active_file w;
        console := (console w ++ map line l)%list;
        clock_reads := clock_reads w |}).
Proof.
  revert w. induction l as [ | x l IH]; intros w.
  - destruct w. simpl. now rewrite app_nil_r.
  - simpl. eapply bind_done; [reflexivity | ].
    rewrite IH. simpl. now rewrite <- app_assoc.
Qed.

Lemma print_forward_same_but_console (fwd : pyval) (w : world) :
  same_but_console w (snd (print_forward fwd w)).
Proof.
  unfold print_forward, bind, lift.
  destruct (py_get fwd "type" (PStr "local")); [ | apply same_but_console_refl].
  destruct (py_getitem fwd "local_port"); [ | apply same_but_console_refl].
  destruct (py_getitem fwd "remote_port"); [ | apply same_but_console_refl].
  destruct (py_get fwd "remote_host" (PStr "localhost"));
    [ | apply same_but_console_refl].
  destruct (py_eq _ _); repeat split.
Qed.

Lemma for_each_print_forward_same_but_console (fwds : list pyval) (w : world) :
  same_but_console w (snd (for_each fwds print_forward w)).
Proof.
  revert w. induction fwds as [ | fwd fwds IH]; intros w.
  - apply same_but_console_refl.
  - simpl. unfold bind.
    pose proof (print_forward_same_but_console fwd w) as H.
    destruct (print_forward fwd w) as [[[] | e | ] w1]; simpl in *; try exact H.
    eapply same_but_console_trans; [exact H | apply IH].
Qed.

Lemma for_each_print_forward_done (fwds : list pyval) (w : world) :
  forallb well_formed_forward fwds = true ->
  for_each fwds print_forward w
  = (Done tt, snd (for_each fwds print_forward w)).
Proof.
  intros H. destruct (for_each_print_forward fwds H w) as [w' ->]. reflexivity.
Qed.

(** The forward listing of [connect], on the forwards of a profile that
    the builder accepts. *)
Lemma show_forwards_runs (forwards : pyval) (w : world) :
  (exists l, forwards = PList l /\ forallb well_formed_forward l = true) ->
  let m :=
    (if py_truthy forwards
     then bind (print (String char_nl "[>] Port Forwards:")) (fun _ =>
          bind (lift (py_iter forwards)) (fun fwds =>
          for_each fwds print_forward))
     else ret tt) in
  m w = (Done tt, snd (m w)) /\ same_but_console w (snd (m w)).
Proof.
  intros (l & -> & Hl) m. subst m.
  destruct l as [ | fwd l]; [split; [reflexivity | apply same_but_console_refl] | ].
  cbn [py_truthy].
  set (w0 := snd (print (String char_nl "[>] Port Forwards:") w)).
  assert (E : bind (print (String char_nl "[>] Port Forwards:")) (fun _ =>
              bind (lift (py_iter (PList (fwd :: l)))) (fun fwds =>
              for_each fwds print_forward)) w
              = for_each (fwd :: l) print_forward w0) by reflexivity.
  rewrite E. split.
  - now apply for_each_print_forward_done.
  - eapply same_but_console_trans;
      [ | apply for_each_print_forward_same_but_console].
    repeat split.
Qed.

(** [connect] on a profile that the builder accepts, up to the point where
    the client is started: the profile has been stamped and the store
    written, the clock read once, and what is left to run is the launch. *)
Lemma connect_reaches_launch (os : machine) (name : string) (w : world)
    (d pd : pydict) :
  load_profiles w = (Done (PDict d), w) ->
  dict_get d name = Some (PDict pd) ->
  well_formed_profile (PDict pd) = true ->
  let profile :=
    PDict (dict_set pd "last_used" (PStr (isoformat_now os (clock_reads w)))) in
  exists cmd w1,
    build_ssh_command (files os) (PDict pd) = Ok cmd
    /\ (forall background,
           connect os name background w
           = (if background then
                bind (match background_spawn os cmd with
                      | Spawned => ret tt
                      | PopenRaised e => lift (Raise e)
                      end) (fun _ =>
                bind (print "[OK] Connection started in background") (fun _ =>
                bind load_active (fun active =>
                bind (now_isoformat os) (fun started =>
                bind (lift (py_setitem active name
                              (PDict [("started", PStr started);
                                      ("profile", profile)]))) (fun active =>
                bind (save_active active) (fun _ => ret true))))))
              else
                match subprocess_run os cmd with
                | Completed _ => ret true
                | Interrupted =>
                    bind (print (String char_nl "[OK] Connection closed"))
                      (fun _ => ret true)
                | Failed message =>
                    bind (print (String char_nl ("[X] Error: " ++ message)))
                      (fun _ => ret false)
                end) w1)
    /\ config_dir w1 = true
    /\ profiles_file w1 = Some (json_dumps (PDict (dict_set d name profile)))
    /\ active_file w1 = active_file w
    /\ clock_reads w1 = S (clock_reads w).
Proof.
  intros Hload Hget Hp profile.
  pose proof (build_ssh_command_shape (files os) _ Hp) as Hcmd.
  pose proof (profile_forwards_well_formed _ Hp) as Hfw.
  set (cmd := ("ssh" :: _)%list) in Hcmd.
  simpl in Hp.
  apply andb_true_iff in Hp as [Hp Hfws].
  apply andb_true_iff in Hp as [Hp _].
  apply andb_true_iff in Hp as [Hu Hh].
  unfold dict_mem in Hu, Hh.
  destruct (dict_get pd "user") as [u | ] eqn:Eu; [ | discriminate].
  destruct (dict_get pd "host") as [h | ] eqn:Eh; [ | discriminate].
  assert (Hmem : dict_mem d name = true) by (unfold dict_mem; now rewrite Hget).
  set (forwards := match dict_get pd "forwards" with
                   | Some v => v | None => PList [] end).
  assert (Hforwards : exists l, forwards = PList l
                                /\ forallb well_formed_forward l = true).
  { subst forwards. unfold profile_forwards, field_or in Hfw. simpl in Hfw.
    destruct (dict_get pd "forwards") as [[ | | | | l | ] | ];
      try discriminate Hfws; eauto. }
  assert (Hget_forwards :
            py_get profile "forwards" (PList []) = Ok forwards).
  { subst profile forwards. simpl.
    now rewrite dict_get_set_other by discriminate. }
  exists cmd. eexists.
  split; [exact Hcmd | ].
  split; [ | ].
  - intros background. unfold connect.
    eapply bind_done; [exact Hload | ].
    step. rewrite Hmem. cbn [negb].
    eapply bind_done; [apply lift_ok; simpl; rewrite Hget; reflexivity | ].
    eapply bind_done; [apply lift_ok; exact Hcmd | ].
    do 5 step.
    eapply bind_done;
      [apply lift_ok; simpl; rewrite dict_get_set_other by discriminate;
       rewrite Eu; reflexivity | ].
    eapply bind_done;
      [apply lift_ok; simpl; rewrite dict_get_set_other by discriminate;
       rewrite Eh; reflexivity | ].
    do 2 step.
    eapply bind_done; [apply lift_ok; exact Hget_forwards | ].
    eapply bind_done; [apply (show_forwards_runs forwards _ Hforwards) | ].
    step.
    reflexivity.
  - match goal with
    | |- context [snd ((if py_truthy forwards then ?a else ?b) ?w0)] =>
        destruct (show_forwards_runs forwards w0 Hforwards) as [_ Hsame];
        cbv zeta in Hsame;
        set (w1 := snd ((if py_truthy forwards then a else b) w0)) in *
    end.
    destruct Hsame as (H1 & H2 & H3 & H4).
    cbn [config_dir profiles_file active_file clock_reads].
    rewrite H1, H2, H3, H4. repeat split.
Qed.

Lemma load_active_same_file (w w' : world) (v : pyval) :
  load_active w = (Done v, w) ->
  active_file w' = active_file w ->
  load_active w' = (Done v, w').
Proof.
  unfold load_active. intros H ->.
  destruct (active_file w) as [text | ]; [ | now injection H as <-].
  destruct (json_loads text); try discriminate H; now injection H as <-.
Qed.

Lemma stamped_profile_well_keyed (d pd : pydict) (name stamp : string) :
  well_keyed (PDict d) = true ->
  dict_get d name = Some (PDict pd) ->
  well_keyed (PDict (dict_set pd "last_used" (PStr stamp))) = true
  /\ well_keyed
       (PDict (dict_set d name (PDict (dict_set pd "last_used" (PStr stamp)))))
     = true.
Proof.
  intros Hwk Hget.
  assert (H : well_keyed (PDict (dict_set pd "last_used" (PStr stamp))) = true).
  { apply dict_set_well_keyed; [ | reflexivity].
    exact (dict_get_well_keyed d name _ Hwk Hget). }
  split; [exact H | now apply dict_set_well_keyed].
Qed.

Lemma connect_not_found (os : machine) (name : string) (background : bool)
    (w : world) (d : pydict) :
  load_profiles w = (Done (PDict d), w) ->
  dict_mem d name = false ->
  connect os name background w
  = (Done false,
     {| config_dir := config_dir w; profiles_file := profiles_file w;
        active_file := active_file w;
        console :=
          (console w
           ++ [("[X] Profile '" ++ name ++ "' not found.")%string;
               String char_nl "Available profiles:"]
           ++ map (fun n => ("  - " ++ n)%string) (sorted (dict_keys d)))%list;
        clock_reads := clock_reads w |}).
Proof.
  intros Hload Hmem. unfold connect.
  eapply bind_done; [exact Hload | ].
  step. rewrite Hmem. cbn [negb].
  do 3 step.
  eapply bind_done; [apply for_each_print_lines | ].
  simpl. now rewrite <- !app_assoc.
Qed.

(** X9: [connect] with a name the store does not hold answers false after
    printing the names it does hold, one per line in sorted order; no
    file is written, the clock is not read, and this is so in the
    foreground and in the background alike. *)
Theorem connect_unknown_profile (os : machine) (name : string) (background : bool)
    (w : world) (d : pydict) :
  load_profiles w = (Done (PDict d), w) ->
  dict_mem d name = false ->
  connect os name background w
  = (Done false,
     {| config_dir := config_dir w; profiles_file := profiles_file w;
        active_file := active_file w;
        console :=
          (console w
           ++ [("[X] Profile '" ++ name ++ "' not found.")%string;
               String char_nl "Available profiles:"]
           ++ map (fun n => ("  - " ++ n)%string) (sorted (dict_keys d)))%list;
        clock_reads := clock_reads w |}).
Proof.
  intros Hload Hmem. unfold connect.
  eapply bind_done; [exact Hload | ].
  step. rewrite Hmem. cbn [negb].
  do 3 step.
  eapply bind_done; [apply for_each_print_lines | ].
  simpl. now rewrite <- !app_assoc.
Qed.

Lemma connect_unknown_profile_witness :
  load_profiles (Sample.world_with Sample.two_profiles)
  = (Done Sample.two_profiles, Sample.world_with Sample.two_profiles)
  /\ dict_mem [("web", Sample.busy_profile); ("s1", Sample.plain_profile)] "db"
     = false
  /\ connect Sample.machine_without_ssh "db" true
       (Sample.world_with Sample.two_profiles)
     = (Done false,
        {| config_dir := true;
           profiles_file := Some (json_dumps Sample.two_profiles);
           active_file := None;
           console := ["[X] Profile 'db' not found.";
                       String char_nl "Available profiles:";
                       "  - s1"; "  - web"];
           clock_reads := 0 |}).
Proof.
  assert (H : load_profiles (Sample.world_with Sample.two_profiles)
              = (Done Sample.two_profiles, Sample.world_with Sample.two_profiles))
    by (vm_compute; reflexivity).
  split; [exact H | split; [reflexivity | ] ].
  exact (connect_unknown_profile Sample.machine_without_ssh "db" true
           (Sample.world_with Sample.two_profiles) _ H eq_refl).
Defined.

(** X10: a foreground [connect] on a profile that the builder accepts
    stamps the profile's [last_used] with the time read before the client
    starts and writes the store, and it does so whatever becomes of the
    client: also when the client cannot be started and [connect] answers
    false.  Every other field and every other profile is kept; the
    active-connections file is not written. *)
Theorem connect_stamps_last_used (os : machine) (name : string) (w : world)
    (d : pydict) (p : pyval) :
  load_profiles w = (Done (PDict d), w) ->
  dict_get d name = Some p ->
  well_formed_profile p = true ->
  exists r w' p',
    connect os name false w = (Done r, w')
    /\ load_profiles w' = (Done (PDict (dict_set d name p')), w')
    /\ py_getitem p' "last_used" = Ok (PStr (isoformat_now os (clock_reads w)))
    /\ (forall f, f <> "last_used" -> py_getitem p' f = py_getitem p f)
    /\ active_file w' = active_file w
    /\ clock_reads w' = S (clock_reads w).
Proof.
  intros Hload Hget Hp.
  destruct (load_profiles_same_world _ _ _ Hload) as [_ Hwk].
  destruct (well_formed_profile_appendable p Hp) as (pd & -> & _).
  destruct (connect_reaches_launch os name w d pd Hload Hget Hp)
    as (cmd & w1 & _ & Hrun & _ & Hpf & Haf & Hclock).
  destruct (stamped_profile_well_keyed d pd name
              (isoformat_now os (clock_reads w)) Hwk Hget) as [_ Hwk'].
  specialize (Hrun false). cbv beta iota in Hrun.
  assert (Hfields :
            py_getitem (PDict (dict_set pd "last_used"
                                 (PStr (isoformat_now os (clock_reads w)))))
              "last_used" = Ok (PStr (isoformat_now os (clock_reads w)))
            /\ forall f, f <> "last_used" ->
                 py_getitem (PDict (dict_set pd "last_used"
                                      (PStr (isoformat_now os (clock_reads w))))) f
                 = py_getitem (PDict pd) f).
  { split; simpl; [now rewrite dict_get_set_same | ].
    intros f Hf. now rewrite dict_get_set_other by exact Hf. }
  destruct (subprocess_run os cmd) as [status | | message];
    eexists; eexists; eexists;
    (split; [exact Hrun | ]);
    (split; [apply load_profiles_written; [exact Hpf | exact Hwk'] | ]);
    (split; [apply Hfields | ]);
    (split; [apply Hfields | ]);
    (split; [exact Haf | exact Hclock]).
Qed.

Lemma connect_stamps_last_used_witness :
  load_profiles (Sample.world_with Sample.two_profiles)
  = (Done Sample.two_profiles, Sample.world_with Sample.two_profiles)
  /\ dict_get [("web", Sample.busy_profile); ("s1", Sample.plain_profile)] "web"
     = Some Sample.busy_profile
  /\ well_formed_profile Sample.busy_profile = true
  /\ exists r w' p',
       connect Sample.machine_without_ssh "web" false
         (Sample.world_with Sample.two_profiles) = (Done r, w')
       /\ load_profiles w'
          = (Done (PDict (dict_set [("web", Sample.busy_profile);
                                    ("s1", Sample.plain_profile)] "web" p')), w')
       /\ py_getitem p' "last_used" = Ok (PStr "2024-05-01T12:00:00")
       /\ (forall f, f <> "last_used" ->
           py_getitem p' f = py_getitem Sample.busy_profile f)
       /\ active_file w' = None
       /\ clock_reads w' = 1.
Proof.
  assert (H : load_profiles (Sample.world_with Sample.two_profiles)
              = (Done Sample.two_profiles, Sample.world_with Sample.two_profiles))
    by (vm_compute; reflexivity).
  split; [exact H | split; [reflexivity | split; [reflexivity | ] ] ].
  exact (connect_stamps_last_used Sample.machine_without_ssh "web"
           (Sample.world_with Sample.two_profiles) _ Sample.busy_profile
           H eq_refl eq_refl).
Defined.

(** X11: when the builder raises on the stored profile, [connect] raises
    the same exception before anything else happens: the profile is not
    stamped, no file is written, nothing is printed and no client is
    started, in the foreground and in the background alike. *)
Theorem connect_unbuildable_profile (os : machine) (name : string)
    (background : bool) (w : world) (d : pydict) (p : pyval) (e : exn) :
  load_profiles w = (Done (PDict d), w) ->
  dict_get d name = Some p ->
  build_ssh_command (files os) p = Raise e ->
  connect os name background w = (Raised e, w).
Proof.
  intros Hload Hget Hbuild. unfold connect.
  eapply bind_done; [exact Hload | ].
  assert (Hmem : dict_mem d name = true) by (unfold dict_mem; now rewrite Hget).
  step. rewrite Hmem. cbn [negb].
  eapply bind_done; [apply lift_ok; simpl; rewrite Hget; reflexivity | ].
  apply bind_raised. now rewrite Hbuild.
Qed.

Lemma connect_unbuildable_profile_witness :
  let w := Sample.world_with (PDict [("bad", Sample.broken_profile)]) in
  load_profiles w = (Done (PDict [("bad", Sample.broken_profile)]), w)
  /\ dict_get [("bad", Sample.broken_profile)] "bad" = Some Sample.broken_profile
  /\ build_ssh_command (files (Sample.machine_exiting 0)) Sample.broken_profile
     = Raise (KeyError "local_port")
  /\ connect (Sample.machine_exiting 0) "bad" true w
     = (Raised (KeyError "local_port"), w).
Proof.
  intros w.
  assert (H : load_profiles w = (Done (PDict [("bad", Sample.broken_profile)]), w))
    by (vm_compute; reflexivity).
  split; [exact H | split; [reflexivity | split; [reflexivity | ] ] ].
  exact (connect_unbuildable_profile (Sample.machine_exiting 0) "bad" true w _
           Sample.broken_profile (KeyError "local_port") H eq_refl eq_refl).
Defined.

Lemma connect_background_spawned (os : machine) (name : string) (w : world)
    (d a pd : pydict) (cmd : list string) :
  load_profiles w = (Done (PDict d), w) ->
  load_active w = (Done (PDict a), w) ->
  dict_get d name = Some (PDict pd) ->
  well_formed_profile (PDict pd) = true ->
  build_ssh_command (files os) (PDict pd) = Ok cmd ->
  background_spawn os cmd = Spawned ->
  let profile :=
    PDict (dict_set pd "last_used" (PStr (isoformat_now os (clock_reads w)))) in
  exists w',
    connect os name true w = (Done true, w')
    /\ load_profiles w' = (Done (PDict (dict_set d name profile)), w')
    /\ load_active w'
       = (Done (PDict
                  (dict_set a name
                     (PDict [("started",
                              PStr (isoformat_now os (S (clock_reads w))));
                             ("profile", profile)]))), w')
    /\ clock_reads w' = S (S (clock_reads w)).
Proof.
  intros Hload Hactive Hget Hp Hcmd Hspawn profile.
  destruct (load_profiles_same_world _ _ _ Hload) as [_ Hwk].
  destruct (load_active_same_world _ _ _ Hactive) as [_ Hwka].
  destruct (connect_reaches_launch os name w d pd Hload Hget Hp)
    as (cmd0 & w1 & Hcmd0 & Hrun & _ & Hpf & Haf & Hclock).
  assert (cmd0 = cmd) as -> by congruence.
  destruct (stamped_profile_well_keyed d pd name
              (isoformat_now os (clock_reads w)) Hwk Hget) as [Hwkp Hwk'].
  specialize (Hrun true). cbv beta iota in Hrun.
  rewrite Hspawn in Hrun.
  set (w2 := snd (print "[OK] Connection started in background" w1)).
  assert (Hactive2 : load_active w2 = (Done (PDict a), w2))
    by (apply (load_active_same_file w w2 _ Hactive); exact Haf).
  eexists. split.
  - rewrite Hrun.
    do 2 step.
    eapply bind_done; [exact Hactive2 | ].
    do 3 step.
    reflexivity.
  - split; [apply load_profiles_written; [exact Hpf | exact Hwk'] | ].
    split; [ | simpl; now rewrite Hclock].
    apply load_active_written; [simpl; now rewrite Hclock | ].
    apply dict_set_well_keyed; [exact Hwka | ].
    simpl. simpl in Hwkp. now rewrite Hwkp.
Qed.

(** X12: a background [connect] whose client is spawned answers true and
    records the connection under the profile's name in the
    active-connections store: the entry holds the time read after the
    spawn and the profile as just stamped, and it replaces an entry of
    the same name.  The clock is read twice. *)
Theorem connect_background_records (os : machine) (name : string) (w : world)
    (d a : pydict) (p : pyval) (cmd : list string) :
  load_profiles w = (Done (PDict d), w) ->
  load_active w = (Done (PDict a), w) ->
  dict_get d name = Some p ->
  well_formed_profile p = true ->
  build_ssh_command (files os) p = Ok cmd ->
  background_spawn os cmd = Spawned ->
  exists w' p',
    connect os name true w = (Done true, w')
    /\ load_profiles w' = (Done (PDict (dict_set d name p')), w')
    /\ load_active w'
       = (Done (PDict
                  (dict_set a name
                     (PDict [("started",
                              PStr (isoformat_now os (S (clock_reads w))));
                             ("profile", p')]))), w')
    /\ py_getitem p' "last_used" = Ok (PStr (isoformat_now os (clock_reads w)))
    /\ (forall f, f <> "last_used" -> py_getitem p' f = py_getitem p f)
    /\ clock_reads w' = S (S (clock_reads w)).
Proof.
  intros Hload Hactive Hget Hp Hcmd Hspawn.
  destruct (well_formed_profile_appendable p Hp) as (pd & -> & _).
  destruct (connect_background_spawned os name w d a pd cmd Hload Hactive Hget
              Hp Hcmd Hspawn) as (w' & Hrun & Hload' & Hactive' & Hclock).
  exists w'. eexists.
  split; [exact Hrun | split; [exact Hload' | split; [exact Hactive' | ] ] ].
  split; [simpl; now rewrite dict_get_set_same | ].
  split; [ | exact Hclock].
  intros f Hf. simpl. now rewrite dict_get_set_other by exact Hf.
Qed.

Lemma connect_background_records_witness :
  let w := Sample.world_with Sample.two_profiles in
  load_profiles w = (Done Sample.two_profiles, w)
  /\ load_active w = (Done (PDict []), w)
  /\ dict_get [("web", Sample.busy_profile); ("s1", Sample.plain_profile)] "s1"
     = Some Sample.plain_profile
  /\ well_formed_profile Sample.plain_profile = true
  /\ build_ssh_command (files (Sample.machine_exiting 0)) Sample.plain_profile
     = Ok ["ssh"; "bob@example.com"]
  /\ background_spawn (Sample.machine_exiting 0) ["ssh"; "bob@example.com"]
     = Spawned
  /\ exists w' p',
       connect (Sample.machine_exiting 0) "s1" true w = (Done true, w')
       /\ load_profiles w'
          = (Done (PDict (dict_set [("web", Sample.busy_profile);
                                    ("s1", Sample.plain_profile)] "s1" p')), w')
       /\ load_active w'
          = (Done (PDict
                     (dict_set [] "s1"
                        (PDict [("started", PStr "2024-05-01T12:00:01");
                                ("profile", p')]))), w')
       /\ py_getitem p' "last_used" = Ok (PStr "2024-05-01T12:00:00")
       /\ (forall f, f <> "last_used" ->
           py_getitem p' f = py_getitem Sample.plain_profile f)
       /\ clock_reads w' = 2.
Proof.
  intros w.
  assert (H : load_profiles w = (Done Sample.two_profiles, w))
    by (vm_compute; reflexivity).
  split; [exact H | ].
  split; [reflexivity | split; [reflexivity | split; [reflexivity | ] ] ].
  split; [reflexivity | split; [reflexivity | ] ].
  exact (connect_background_records (Sample.machine_exiting 0) "s1" w _ []
           Sample.plain_profile ["ssh"; "bob@example.com"]
           H eq_refl eq_refl eq_refl eq_refl eq_refl).
Defined.

(** X13: when spawning the background client raises, [connect] does not
    catch the exception as the foreground branch does: it is raised to
    the caller.  By then the profile has been stamped and the store
    written; the active-connections file is left as it was. *)
Theorem connect_background_spawn_failure (os : machine) (name : string)
    (w : world) (d : pydict) (p : pyval) (cmd : list string) (e : exn) :
  load_profiles w = (Done (PDict d), w) ->
  dict_get d name = Some p ->
  well_formed_profile p = true ->
  build_ssh_command (files os) p = Ok cmd ->
  background_spawn os cmd = PopenRaised e ->
  exists w' p',
    connect os name true w = (Raised e, w')
    /\ load_profiles w' = (Done (PDict (dict_set d name p')), w')
    /\ py_getitem p' "last_used" = Ok (PStr (isoformat_now os (clock_reads w)))
    /\ active_file w' = active_file w.
Proof.
  intros Hload Hget Hp Hcmd Hspawn.
  destruct (load_profiles_same_world _ _ _ Hload) as [_ Hwk].
  destruct (well_formed_profile_appendable p Hp) as (pd & -> & _).
  destruct (connect_reaches_launch os name w d pd Hload Hget Hp)
    as (cmd0 & w1 & Hcmd0 & Hrun & _ & Hpf & Haf & Hclock).
  assert (cmd0 = cmd) as -> by congruence.
  destruct (stamped_profile_well_keyed d pd name
              (isoformat_now os (clock_reads w)) Hwk Hget) as [_ Hwk'].
  specialize (Hrun true). cbv beta iota in Hrun.
  rewrite Hspawn in Hrun.
  exists w1. eexists. split; [exact Hrun | ].
  split; [apply load_profiles_written; [exact Hpf | exact Hwk'] | ].
  split; [simpl; now rewrite dict_get_set_same | exact Haf].
Qed.

Lemma connect_background_spawn_failure_witness :
  let w := Sample.world_with Sample.two_profiles in
  let e := OSError "[Errno 2] No such file or directory: 'ssh'" in
  load_profiles w = (Done Sample.two_profiles, w)
  /\ dict_get [("web", Sample.busy_profile); ("s1", Sample.plain_profile)] "s1"
     = Some Sample.plain_profile
  /\ well_formed_profile Sample.plain_profile = true
  /\ build_ssh_command (files Sample.machine_without_ssh) Sample.plain_profile
     = Ok ["ssh"; "bob@example.com"]
  /\ background_spawn Sample.machine_without_ssh ["ssh"; "bob@example.com"]
     = PopenRaised e
  /\ exists w' p',
       connect Sample.machine_without_ssh "s1" true w = (Raised e, w')
       /\ load_profiles w'
          = (Done (PDict (dict_set [("web", Sample.busy_profile);
                                    ("s1", Sample.plain_profile)] "s1" p')), w')
       /\ py_getitem p' "last_used" = Ok (PStr "2024-05-01T12:00:00")
       /\ active_file w' = None.
Proof.
  intros w e.
  assert (H : load_profiles w = (Done Sample.two_profiles, w))
    by (vm_compute; reflexivity).
  split; [exact H | ].
  split; [reflexivity | split; [reflexivity | split; [reflexivity | ] ] ].
  split; [reflexivity | ].
  exact (connect_background_spawn_failure Sample.machine_without_ssh "s1" w _
           Sample.plain_profile ["ssh"; "bob@example.com"] e
           H eq_refl eq_refl eq_refl eq_refl).
Defined.

(** ** The two stores *)

(** X14: the profile store and the active-connections store are two
    files: saved one after the other, in either order, each loads back
    as the value that was saved to it, and the configuration directory
    exists afterwards. *)
Theorem stores_are_independent (profiles active : pyval) (w : world) :
  well_keyed profiles = true ->
  well_keyed active = true ->
  (exists w',
      bind (save_profiles profiles) (fun _ => save_active active) w = (Done tt, w')
      /\ load_profiles w' = (Done profiles, w')
      /\ load_active w' = (Done active, w')
      /\ config_dir w' = true)
  /\ (exists w',
         bind (save_active active) (fun _ => save_profiles profiles) w
         = (Done tt, w')
         /\ load_profiles w' = (Done profiles, w')
         /\ load_active w' = (Done active, w')
         /\ config_dir w' = true).
Proof.
  intros Hp Ha.
  split; eexists; (split; [reflexivity | ]);
    (split; [now apply load_profiles_written | ]);
    (split; [now apply load_active_written | reflexivity]).
Qed.

Lemma stores_are_independent_witness :
  let active :=
    PDict [("s1", PDict [("started", PStr "2024-05-01T12:00:01");
                         ("profile", Sample.plain_profile)])] in
  well_keyed Sample.two_profiles = true
  /\ well_keyed active = true
  /\ (exists w',
         bind (save_profiles Sample.two_profiles) (fun _ => save_active active)
           Sample.fresh_world = (Done tt, w')
         /\ load_profiles w' = (Done Sample.two_profiles, w')
         /\ load_active w' = (Done active, w')
         /\ config_dir w' = true)
  /\ (exists w',
         bind (save_active active) (fun _ => save_profiles Sample.two_profiles)
           Sample.fresh_world = (Done tt, w')
         /\ load_profiles w' = (Done Sample.two_profiles, w')
         /\ load_active w' = (Done active, w')
         /\ config_dir w' = true).
Proof.
  intros active.
  split; [reflexivity | split; [reflexivity | ] ].
  exact (stores_are_independent Sample.two_profiles active Sample.fresh_world
           eq_refl eq_refl).
Defined.

(** ** The builder, once more *)

Lemma rbind_ok {A B} (m : res A) (f : A -> res B) (b : B) :
  rbind m f = Ok b -> exists a, m = Ok a /\ f a = Ok b.
Proof. destruct m as [a | e]; simpl; [eauto | discriminate]. Qed.

Lemma extend_forwards_extends (fwds : list pyval) (cmd cmd' : list string) :
  extend_forwards cmd fwds = Ok cmd' -> exists toks, cmd' = (cmd ++ toks)%list.
Proof.
  revert cmd. induction fwds as [ | fwd fwds IH]; simpl; intros cmd H.
  - injection H as <-. exists []. now rewrite app_nil_r.
  - apply rbind_ok in H as (toks & _ & H).
    destruct (IH _ H) as [rest ->].
    exists (toks ++ rest)%list. now rewrite app_assoc.
Qed.

(** X15: whenever the builder returns a command, the profile is a dict
    that holds [user] and [host], and the command starts with [ssh] and
    ends with the destination [user@host]; on anything else the builder
    raises. *)
Theorem build_ssh_command_returns (env : os_env) (p : pyval) (cmd : list string) :
  build_ssh_command env p = Ok cmd ->
  exists d user host options,
    p = PDict d
    /\ dict_get d "user" = Some user
    /\ dict_get d "host" = Some host
    /\ cmd = ("ssh" :: options ++ [(py_str user ++ "@" ++ py_str host)%string])%list.
Proof.
  unfold build_ssh_command. intros H.
  apply rbind_ok in H as (port & Hport & H).
  destruct p as [ | | | | | d]; try discriminate Hport.
  apply rbind_ok in H as (cmd1 & Hcmd1 & H).
  apply rbind_ok in H as (has_key & _ & H).
  apply rbind_ok in H as (key & _ & H).
  apply rbind_ok in H as (cmd2 & Hcmd2 & H).
  apply rbind_ok in H as (forwards & _ & H).
  apply rbind_ok in H as (fwds & _ & H).
  apply rbind_ok in H as (cmd3 & Hcmd3 & H).
  apply rbind_ok in H as (user & Huser & H).
  apply rbind_ok in H as (host & Hhost & H).
  injection H as <-.
  simpl in Huser, Hhost.
  destruct (dict_get d "user") as [u | ] eqn:Eu; [ | discriminate Huser].
  destruct (dict_get d "host") as [h | ] eqn:Eh; [ | discriminate Hhost].
  injection Huser as <-. injection Hhost as <-.
  assert (H1 : exists t1, cmd1 = "ssh" :: t1).
  { destruct (negb (py_eq port (PInt 22))).
    - apply rbind_ok in Hcmd1 as (p0 & _ & Hcmd1). injection Hcmd1 as <-.
      now eexists.
    - injection Hcmd1 as <-. now exists []. }
  destruct H1 as [t1 ->].
  assert (H2 : exists t2, cmd2 = "ssh" :: t2).
  { destruct (py_truthy key).
    - apply rbind_ok in Hcmd2 as (key_path & _ & Hcmd2).
      destruct (path_exists env key_path); injection Hcmd2 as <-; now eexists.
    - injection Hcmd2 as <-. now eexists. }
  destruct H2 as [t2 ->].
  destruct (extend_forwards_extends _ _ _ Hcmd3) as [t3 ->].
  exists d, u, h, (t2 ++ t3)%list.
  split; [reflexivity | split; [exact Eu | split; [exact Eh | ] ] ].
  simpl. now rewrite <- app_assoc.
Qed.

Lemma build_ssh_command_returns_witness :
  build_ssh_command Sample.keyed_env Sample.busy_profile
  = Ok ["ssh"; "-p"; "2222"; "-i"; "/home/bob/.ssh/id_rsa";
        "-L"; "8080:localhost:80"; "-R"; "3001:localhost:3000";
        "-L"; "5432:localhost:5433"; "-R"; "1081:gw:1080"; "bob@example.com"]
  /\ exists d user host options,
       Sample.busy_profile = PDict d
       /\ dict_get d "user" = Some user
       /\ dict_get d "host" = Some host
       /\ ["ssh"; "-p"; "2222"; "-i"; "/home/bob/.ssh/id_rsa";
           "-L"; "8080:localhost:80"; "-R"; "3001:localhost:3000";
           "-L"; "5432:localhost:5433"; "-R"; "1081:gw:1080"; "bob@example.com"]
          = ("ssh" :: options ++ [(py_str user ++ "@" ++ py_str host)%string])%list.
Proof.
  split; [reflexivity | ].
  exact (build_ssh_command_returns Sample.keyed_env Sample.busy_profile _ eq_refl).
Defined.

(** X16: when the profile's key is a non-empty string and the path it
    expands to exists, the command holds [-i] and that expanded path,
    after the port option and before every forward. *)
Theorem identity_option_emitted (env : os_env) (p : pyval) (k : string) :
  well_formed_profile p = true ->
  py_getitem p "key" = Ok (PStr k) ->
  k <> "" ->
  path_exists env (if starts_with "~" k then expand_tilde env k else k) = true ->
  build_ssh_command env p
  = Ok ("ssh" :: port_option p
          ++ ["-i"; if starts_with "~" k then expand_tilde env k else k]
          ++ flat_map forward_option (profile_forwards p)
          ++ [destination p])%list.
Proof.
  intros Hp Hkey Hk Hexists.
  rewrite (build_ssh_command_shape env p Hp).
  destruct p as [ | | | | | d]; try discriminate Hp.
  unfold identity_option, field_or. simpl in *.
  destruct (dict_get d "key") as [key | ]; [ | discriminate Hkey].
  injection Hkey as ->.
  apply String.eqb_neq in Hk. now rewrite Hk, Hexists.
Qed.

Lemma identity_option_emitted_witness :
  well_formed_profile Sample.busy_profile = true
  /\ py_getitem Sample.busy_profile "key" = Ok (PStr "~/.ssh/id_rsa")
  /\ "~/.ssh/id_rsa" <> ""
  /\ path_exists Sample.keyed_env "/home/bob/.ssh/id_rsa" = true
  /\ build_ssh_command Sample.keyed_env Sample.busy_profile
     = Ok ("ssh" :: port_option Sample.busy_profile
             ++ ["-i"; "/home/bob/.ssh/id_rsa"]
             ++ flat_map forward_option (profile_forwards Sample.busy_profile)
             ++ [destination Sample.busy_profile])%list.
Proof.
  assert (Hk : "~/.ssh/id_rsa" <> "") by discriminate.
  split; [reflexivity | split; [reflexivity | split; [exact Hk | ] ] ].
  split; [reflexivity | ].
  exact (identity_option_emitted Sample.keyed_env Sample.busy_profile
           "~/.ssh/id_rsa" eq_refl eq_refl Hk eq_refl).
Defined.

Lemma build_ssh_command_reads_five_fields (env : os_env) (d d' : pydict) :
  (forall f, In f ["port"; "key"; "forwards"; "user"; "host"] ->
             dict_get d' f = dict_get d f) ->
  build_ssh_command env (PDict d') = build_ssh_command env (PDict d).
Proof.
  intros H.
  unfold build_ssh_command. simpl. unfold dict_mem.
  rewrite (H "port"), (H "key"), (H "forwards"), (H "user"), (H "host")
    by (simpl; tauto).
  reflexivity.
Qed.

(** X17: the stamp that [connect] leaves on a profile does not change
    its command: after a foreground [connect], the profile as stored
    builds, on every machine, to what the profile built to before. *)
Theorem connect_keeps_command (os : machine) (env : os_env) (name : string)
    (w : world) (d : pydict) (p : pyval) :
  load_profiles w = (Done (PDict d), w) ->
  dict_get d name = Some p ->
  well_formed_profile p = true ->
  exists r w' d' p',
    connect os name false w = (Done r, w')
    /\ load_profiles w' = (Done (PDict d'), w')
    /\ dict_get d' name = Some p'
    /\ build_ssh_command env p' = build_ssh_command env p.
Proof.
  intros Hload Hget Hp.
  destruct (load_profiles_same_world _ _ _ Hload) as [_ Hwk].
  destruct (well_formed_profile_appendable p Hp) as (pd & -> & _).
  destruct (connect_reaches_launch os name w d pd Hload Hget Hp)
    as (cmd & w1 & _ & Hrun & _ & Hpf & Haf & Hclock).
  destruct (stamped_profile_well_keyed d pd name
              (isoformat_now os (clock_reads w)) Hwk Hget) as [_ Hwk'].
  specialize (Hrun false). cbv beta iota in Hrun.
  assert (Hbuild :
            build_ssh_command env
              (PDict (dict_set pd "last_used"
                        (PStr (isoformat_now os (clock_reads w)))))
            = build_ssh_command env (PDict pd)).
  { apply build_ssh_command_reads_five_fields.
    intros f Hf. apply dict_get_set_other.
    simpl in Hf. intuition (subst; discriminate). }
  destruct (subprocess_run os cmd) as [status | | message];
    eexists; eexists; eexists; eexists;
    (split; [exact Hrun | ]);
    (split; [apply load_profiles_written; [exact Hpf | exact Hwk'] | ]);
    (split; [apply dict_get_set_same | exact Hbuild]).
Qed.

Lemma connect_keeps_command_witness :
  load_profiles (Sample.world_with Sample.two_profiles)
  = (Done Sample.two_profiles, Sample.world_with Sample.two_profiles)
  /\ dict_get [("web", Sample.busy_profile); ("s1", Sample.plain_profile)] "web"
     = Some Sample.busy_profile
  /\ well_formed_profile Sample.busy_profile = true
  /\ exists r w' d' p',
       connect Sample.machine_interrupted "web" false
         (Sample.world_with Sample.two_profiles) = (Done r, w')
       /\ load_profiles w' = (Done (PDict d'), w')
       /\ dict_get d' "web" = Some p'
       /\ build_ssh_command Sample.keyed_env p'
          = build_ssh_command Sample.keyed_env Sample.busy_profile.
Proof.
  assert (H : load_profiles (Sample.world_with Sample.two_profiles)
              = (Done Sample.two_profiles, Sample.world_with Sample.two_profiles))
    by (vm_compute; reflexivity).
  split; [exact H | split; [reflexivity | split; [reflexivity | ] ] ].
  exact (connect_keeps_command Sample.machine_interrupted Sample.keyed_env "web"
           (Sample.world_with Sample.two_profiles) _ Sample.busy_profile
           H eq_refl eq_refl).
Defined.

(** * The listings and the command line *)

(** ** Actions that keep a part of the world *)

Section Frame.

Variable R : world -> world -> Prop.
Hypothesis R_refl : forall w, R w w.
Hypothesis R_trans : forall w1 w2 w3, R w1 w2 -> R w2 w3 -> R w1 w3.
Hypothesis R_print : forall line w, R w (snd (print line w)).

Lemma preserves_ret {A} (a : A) : preserves R (ret a).
Proof. intros w. apply R_refl. Qed.

Lemma preserves_lift {A} (r : res A) : preserves R (lift r).
Proof. intros w. destruct r; apply R_refl. Qed.

Lemma preserves_print (line : string) : preserves R (print line).
Proof. intros w. apply R_print. Qed.

Lemma preserves_unmodelled {A} : preserves R (@unmodelled A).
Proof. intros w. apply R_refl. Qed.

Lemma preserves_bind {A B} (m : M A) (f : A -> M B) :
  preserves R m -> (forall a, preserves R (f a)) -> preserves R (bind m f).
Proof.
  intros Hm Hf w. unfold bind.
  pose proof (Hm w) as H.
  destruct (m w) as [[a | e | ] w1]; simpl in *; try exact H.
  eapply R_trans; [exact H | apply Hf].
Qed.

Lemma preserves_for_each {A} (l : list A) (body : A -> M unit) :
  (forall x, preserves R (body x)) -> preserves R (for_each l body).
Proof.
  intros Hbody. induction l as [ | x l IH]; simpl.
  - apply preserves_ret.
  - apply preserves_bind; [apply Hbody | intros _; exact IH].
Qed.

Lemma preserves_load_profiles : preserves R load_profiles.
Proof.
  intros w. unfold load_profiles.
  destruct (profiles_file w) as [text | ]; [ | apply R_refl].
  destruct (json_loads text); apply R_refl.
Qed.

Lemma preserves_load_active : preserves R load_active.
Proof.
  intros w. unfold load_active.
  destruct (active_file w) as [text | ]; [ | apply R_refl].
  destruct (json_loads text); apply R_refl.
Qed.

Lemma preserves_if {A} (b : bool) (m1 m2 : M A) :
  preserves R m1 -> preserves R m2 -> preserves R (if b then m1 else m2).
Proof. now destruct b. Qed.

End Frame.

Lemma same_profiles_file_trans (w1 w2 w3 : world) :
  same_profiles_file w1 w2 -> same_profiles_file w2 w3 ->
  same_profiles_file w1 w3.
Proof. unfold same_profiles_file. congruence. Qed.

(** Takes an action built from [bind], [print], [lift], [ret], loops and
    conditionals apart. *)
Ltac only_prints :=
  repeat first
    [ apply preserves_ret; apply same_but_console_refl
    | apply preserves_lift; apply same_but_console_refl
    | apply preserves_print; apply print_same_but_console
    | apply preserves_unmodelled; apply same_but_console_refl
    | apply preserves_load_profiles; apply same_but_console_refl
    | apply preserves_load_active; apply same_but_console_refl
    | apply preserves_if
    | apply preserves_for_each;
        [apply same_but_console_refl | apply same_but_console_trans | intros ?]
    | apply preserves_bind; [apply same_but_console_trans | | intros ?] ].

Lemma list_profile_only_prints (strftime_minutes : string -> option string)
    (name : string) (prof : pyval) :
  preserves same_but_console (list_profile strftime_minutes name prof).
Proof. unfold list_profile, print_listed_forward. only_prints. Qed.

Lemma show_connection_only_prints (strftime_minutes : string -> option string)
    (name : string) (info : pyval) :
  preserves same_but_console (show_connection strftime_minutes name info).
Proof.
  unfold show_connection, print_active_forward. only_prints.
  match goal with |- preserves _ (match ?v with _ => _ end) =>
    destruct v as [ | | | text | | ] end; only_prints.
  destruct (strftime_minutes text); only_prints.
Qed.

Lemma list_profiles_only_prints (strftime_minutes : string -> option string) :
  preserves same_but_console (list_profiles strftime_minutes).
Proof.
  unfold list_profiles.
  apply preserves_bind;
    [apply same_but_console_trans
    | apply preserves_load_profiles; apply same_but_console_refl
    | intros v].
  apply preserves_if; [only_prints | ].
  apply preserves_bind;
    [apply same_but_console_trans
    | apply preserves_lift; apply same_but_console_refl | intros n].
  apply preserves_bind;
    [apply same_but_console_trans
    | apply preserves_print; apply print_same_but_console | intros _].
  apply preserves_bind;
    [apply same_but_console_trans
    | apply preserves_lift; apply same_but_console_refl | intros items].
  apply preserves_for_each;
    [apply same_but_console_refl | apply same_but_console_trans | intros item].
  apply list_profile_only_prints.
Qed.

Lemma show_active_only_prints (strftime_minutes : string -> option string) :
  preserves same_but_console (show_active strftime_minutes).
Proof.
  unfold show_active.
  apply preserves_bind;
    [apply same_but_console_trans
    | apply preserves_load_active; apply same_but_console_refl
    | intros v].
  apply preserves_if; [only_prints | ].
  apply preserves_bind;
    [apply same_but_console_trans
    | apply preserves_lift; apply same_but_console_refl | intros n].
  apply preserves_bind;
    [apply same_but_console_trans
    | apply preserves_print; apply print_same_but_console | intros _].
  apply preserves_bind;
    [apply same_but_console_trans
    | apply preserves_lift; apply same_but_console_refl | intros items].
  apply preserves_for_each;
    [apply same_but_console_refl | apply same_but_console_trans | intros item].
  apply show_connection_only_prints.
Qed.

(** X18: the two listings only print: whatever the store files hold and
    however the listing ends, [list_profiles] and [show_active] leave
    both files as they were and do not read the clock. *)
Theorem listings_only_print (strftime_minutes : string -> option string)
    (w : world) :
  same_but_console w (snd (list_profiles strftime_minutes w))
  /\ same_but_console w (snd (show_active strftime_minutes w)).
Proof.
  split.
  - apply list_profiles_only_prints.
  - apply show_active_only_prints.
Qed.

(** ** The command line *)

Lemma str_contains_char (c : ascii) (s : string) :
  str_contains (str1 c) s = str_has c s.
Proof.
  induction s as [ | a s IH]; [reflexivity | ].
  cbn [str_contains str_has]. rewrite IH. f_equal.
  unfold str1. cbn [String.prefix].
  destruct (ascii_dec c a) as [-> | Hne].
  - rewrite Ascii.eqb_refl. now destruct s.
  - apply Ascii.eqb_neq in Hne. now rewrite Hne.
Qed.

Lemma split_once_found (c : ascii) (s : string) :
  str_has c s = true ->
  exists before after,
    split_once c s = Some (before, after)
    /\ s = before ++ String c after
    /\ str_has c before = false.
Proof.
  induction s as [ | a s IH]; simpl; [discriminate | ].
  rewrite (Ascii.eqb_sym c a).
  destruct (Ascii.eqb a c) eqn:E.
  - apply Ascii.eqb_eq in E as ->. intros _.
    exists EmptyString, s. repeat split.
  - simpl. intros H. destruct (IH H) as (before & after & -> & Hs & Hb).
    exists (String a before), after. simpl.
    rewrite (Ascii.eqb_sym c a), E. simpl.
    repeat split; [now rewrite <- Hs | exact Hb].
Qed.

Lemma main_of_dispatch (os : machine) (strftime_minutes : string -> option string)
    (help_text : string) (describe : exn -> string) (c : command)
    (w w' : world) (status : Z) :
  dispatch os strftime_minutes c w = (Done status, w') ->
  main os strftime_minutes help_text describe (Some c) w = (Done status, w').
Proof. intros H. unfold main. now rewrite H. Qed.

Lemma main_of_raised (os : machine) (strftime_minutes : string -> option string)
    (help_text : string) (describe : exn -> string) (c : command)
    (w w' : world) (e : exn) :
  dispatch os strftime_minutes c w = (Raised e, w') ->
  main os strftime_minutes help_text describe (Some c) w
  = (Done 1%Z,
     snd (print (String char_nl ("[X] Error: " ++ str_of_exn describe e)) w')).
Proof. intros H. unfold main. now rewrite H. Qed.

(** X19: [main] with [add] splits the connection at its first [@]: what
    stands before it is stored as the user and everything after it, further
    [@] signs included, as the host; the exit status is 0.  A connection
    without [@] is turned down with exit status 1 and one printed line,
    and no file is written. *)
Theorem main_add (os : machine) (strftime_minutes : string -> option string)
    (help_text : string) (describe : exn -> string)
    (name connection : string) (port : Z) (key : option string)
    (w : world) (d : pydict) :
  load_profiles w = (Done (PDict d), w) ->
  if str_contains "@" connection then
    exists user host w',
      connection = user ++ "@" ++ host
      /\ str_contains "@" user = false
      /\ main os strftime_minutes help_text describe
           (Some (CmdAdd name connection port key)) w = (Done 0%Z, w')
      /\ load_profiles w'
         = (Done (PDict (dict_set d name
                           (profile_record host user port
                              (isoformat_now os (clock_reads w)) key None))), w')
  else
    main os strftime_minutes help_text describe
      (Some (CmdAdd name connection port key)) w
    = (Done 1%Z,
       {| config_dir := config_dir w; profiles_file := profiles_file w;
          active_file := active_file w;
          console :=
            (console w ++ ["[X] Connection must be in format: user@host"])%list;
          clock_reads := clock_reads w |}).
Proof.
  intros Hload.
  destruct (str_contains "@" connection) eqn:Hat.
  - pose proof Hat as Hhas.
    change "@" with (str1 "@"%char) in Hhas. rewrite str_contains_char in Hhas.
    destruct (split_once_found _ _ Hhas) as (user & host & Hsplit & Hconn & Huser).
    destruct (add_profile_written os name host user port key None w d Hload
                eq_refl) as (w' & Hrun & Hload' & _).
    exists user, host, w'.
    split; [exact Hconn | ].
    split; [change "@" with (str1 "@"%char); now rewrite str_contains_char | ].
    split; [ | exact Hload'].
    apply main_of_dispatch. unfold dispatch.
    rewrite Hat, Hsplit. cbn [negb].
    eapply bind_done; [exact Hrun | reflexivity].
  - apply main_of_dispatch. unfold dispatch. rewrite Hat. reflexivity.
Qed.

Lemma main_add_witness :
  load_profiles Sample.fresh_world = (Done (PDict []), Sample.fresh_world)
  /\ exists user host w',
       "git@proxy@example.com" = user ++ "@" ++ host
       /\ str_contains "@" user = false
       /\ main (Sample.machine_exiting 0) (fun _ => None) "usage" (fun _ => "")
            (Some (CmdAdd "s1" "git@proxy@example.com" 22 None))
            Sample.fresh_world = (Done 0%Z, w')
       /\ load_profiles w'
          = (Done (PDict (dict_set [] "s1"
                            (profile_record host user 22 "2024-05-01T12:00:00"
                               None None))), w').
Proof.
  split; [reflexivity | ].
  exact (main_add (Sample.machine_exiting 0) (fun _ => None) "usage"
           (fun _ => "") "s1" "git@proxy@example.com" 22 None
           Sample.fresh_world [] eq_refl).
Defined.

(** X20: [main] drops what [delete_profile], [add_forward] and [connect]
    return: with a name that the store does not hold, each of the three
    commands prints its message and [main] still ends with exit status 0,
    the files and the clock untouched. *)
Theorem main_exit_status_unknown_name (os : machine)
    (strftime_minutes : string -> option string)
    (help_text : string) (describe : exn -> string)
    (name : string) (local_port remote_port : Z) (host : string)
    (remote background : bool) (w : world) (d : pydict) (c : command) :
  load_profiles w = (Done (PDict d), w) ->
  dict_mem d name = false ->
  In c [CmdDelete name;
        CmdForward name local_port remote_port host remote;
        CmdConnect name background] ->
  exists w',
    main os strftime_minutes help_text describe (Some c) w = (Done 0%Z, w')
    /\ same_but_console w w'.
Proof.
  intros Hload Hmem Hc.
  destruct Hc as [<- | [<- | [<- | [] ] ] ].
  - destruct (delete_profile_absent name w d Hload Hmem) as (w' & Hrun & Hsame).
    exists w'. split; [ | exact Hsame].
    apply main_of_dispatch. unfold dispatch.
    eapply bind_done; [exact Hrun | reflexivity].
  - eexists. split.
    + apply main_of_dispatch. unfold dispatch, add_forward.
      eapply bind_done; [ | reflexivity].
      eapply bind_done; [exact Hload | ].
      step. rewrite Hmem. reflexivity.
    + repeat split.
  - eexists. split.
    + apply main_of_dispatch. unfold dispatch.
      eapply bind_done; [ | reflexivity].
      exact (connect_not_found os name background w d Hload Hmem).
    + repeat split.
Qed.

Lemma main_exit_status_unknown_name_witness :
  let w := Sample.world_with Sample.two_profiles in
  load_profiles w = (Done Sample.two_profiles, w)
  /\ dict_mem [("web", Sample.busy_profile); ("s1", Sample.plain_profile)] "db"
     = false
  /\ In (CmdConnect "db" true)
       [CmdDelete "db"; CmdForward "db" 8080 80 "localhost" false;
        CmdConnect "db" true]
  /\ exists w',
       main Sample.machine_without_ssh (fun _ => None) "usage" (fun _ => "")
         (Some (CmdConnect "db" true)) w = (Done 0%Z, w')
       /\ same_but_console w w'.
Proof.
  intros w.
  assert (H : load_profiles w = (Done Sample.two_profiles, w))
    by (vm_compute; reflexivity).
  assert (Hc : In (CmdConnect "db" true)
                 [CmdDelete "db"; CmdForward "db" 8080 80 "localhost" false;
                  CmdConnect "db" true]) by (simpl; tauto).
  split; [exact H | split; [reflexivity | split; [exact Hc | ] ] ].
  exact (main_exit_status_unknown_name Sample.machine_without_ssh (fun _ => None)
           "usage" (fun _ => "") "db" 8080 80 "localhost" false true w _
           (CmdConnect "db" true) H eq_refl Hc).
Defined.

(** X21: on a machine where starting the client raises, the exit status
    of [main] depends on the mode.  In the foreground [connect] catches
    the exception and answers false, which [main] drops: the status is 0,
    as it is for every foreground run.  In the background the exception
    reaches [main], which prints it after what [connect] has printed and
    ends with status 1. *)
Theorem main_connect_exit_status (os : machine)
    (strftime_minutes : string -> option string)
    (help_text : string) (describe : exn -> string)
    (name : string) (w : world) (d : pydict) (p : pyval)
    (cmd : list string) (e : exn) :
  load_profiles w = (Done (PDict d), w) ->
  dict_get d name = Some p ->
  well_formed_profile p = true ->
  build_ssh_command (files os) p = Ok cmd ->
  background_spawn os cmd = PopenRaised e ->
  fst (main os strftime_minutes help_text describe
         (Some (CmdConnect name false)) w) = Done 0%Z
  /\ exists w1,
       connect os name true w = (Raised e, w1)
       /\ main os strftime_minutes help_text describe
            (Some (CmdConnect name true)) w
          = (Done 1%Z,
             {| config_dir := config_dir w1; profiles_file := profiles_file w1;
                active_file := active_file w1;
                console :=
                  (console w1
                   ++ [String char_nl ("[X] Error: " ++ str_of_exn describe e)])%list;
                clock_reads := clock_reads w1 |}).
Proof.
  intros Hload Hget Hp Hcmd Hspawn.
  destruct (well_formed_profile_appendable p Hp) as (pd & -> & _).
  destruct (connect_reaches_launch os name w d pd Hload Hget Hp)
    as (cmd0 & w1 & Hcmd0 & Hrun & _).
  assert (cmd0 = cmd) as -> by congruence.
  split.
  - specialize (Hrun false). cbv beta iota in Hrun.
    assert (H : exists b w', connect os name false w = (Done b, w')).
    { rewrite Hrun. destruct (subprocess_run os cmd); eexists; eexists; reflexivity. }
    destruct H as (b & w' & H).
    erewrite main_of_dispatch; [reflexivity | ].
    unfold dispatch. eapply bind_done; [exact H | reflexivity].
  - specialize (Hrun true). cbv beta iota in Hrun. rewrite Hspawn in Hrun.
    exists w1. split; [exact Hrun | ].
    erewrite main_of_raised; [reflexivity | ].
    unfold dispatch. apply bind_raised. exact Hrun.
Qed.

Lemma main_connect_exit_status_witness :
  let w := Sample.world_with Sample.two_profiles in
  let e := OSError "[Errno 2] No such file or directory: 'ssh'" in
  load_profiles w = (Done Sample.two_profiles, w)
  /\ dict_get [("web", Sample.busy_profile); ("s1", Sample.plain_profile)] "s1"
     = Some Sample.plain_profile
  /\ well_formed_profile Sample.plain_profile = true
  /\ build_ssh_command (files Sample.machine_without_ssh) Sample.plain_profile
     = Ok ["ssh"; "bob@example.com"]
  /\ background_spawn Sample.machine_without_ssh ["ssh"; "bob@example.com"]
     = PopenRaised e
  /\ fst (main Sample.machine_without_ssh (fun _ => None) "usage" (fun _ => "")
            (Some (CmdConnect "s1" false)) w) = Done 0%Z
  /\ exists w1,
       connect Sample.machine_without_ssh "s1" true w = (Raised e, w1)
       /\ main Sample.machine_without_ssh (fun _ => None) "usage" (fun _ => "")
            (Some (CmdConnect "s1" true)) w
          = (Done 1%Z,
             {| config_dir := config_dir w1; profiles_file := profiles_file w1;
                active_file := active_file w1;
                console :=
                  (console w1
                   ++ [String char_nl
                         "[X] Error: [Errno 2] No such file or directory: 'ssh'"])%list;
                clock_reads := clock_reads w1 |}).
Proof.
  intros w e.
  assert (H : load_profiles w = (Done Sample.two_profiles, w))
    by (vm_compute; reflexivity).
  split; [exact H | ].
  split; [reflexivity | split; [reflexivity | split; [reflexivity | ] ] ].
  split; [reflexivity | ].
  exact (main_connect_exit_status Sample.machine_without_ssh (fun _ => None)
           "usage" (fun _ => "") "s1" w _ Sample.plain_profile
           ["ssh"; "bob@example.com"] e H eq_refl eq_refl eq_refl eq_refl).
Defined.

(** ** Listing the profiles *)

Lemma dict_get_values (P : pyval -> bool) (d : pydict) (k : string) (v : pyval) :
  forallb (fun kv => P (snd kv)) d = true -> dict_get d k = Some v -> P v = true.
Proof.
  induction d as [ | [k0 v0] d IH]; simpl; [discriminate | ].
  intros H. apply andb_true_iff in H as [H0 Hd].
  destruct (String.eqb k k0); [now intros [= <-] | now apply IH].
Qed.

Lemma dict_del_values (P : pyval -> bool) (d : pydict) (k : string) :
  forallb (fun kv => P (snd kv)) d = true ->
  forallb (fun kv => P (snd kv)) (dict_del d k) = true.
Proof.
  induction d as [ | [k0 v0] d IH]; simpl; [auto | ].
  intros H. apply andb_true_iff in H as [H0 Hd].
  destruct (String.eqb k k0); simpl; [exact Hd | ].
  now rewrite H0, IH.
Qed.

Lemma insert_item_values (P : string * pyval -> bool) (x : string * pyval)
    (l : list (string * pyval)) :
  forallb P (insert_item x l) = P x && forallb P l.
Proof.
  induction l as [ | y l IH]; simpl; [reflexivity | ].
  destruct (String.leb (fst x) (fst y)); simpl; [reflexivity | ].
  rewrite IH. now destruct (P x), (P y).
Qed.

Lemma sorted_items_values (P : string * pyval -> bool)
    (l : list (string * pyval)) :
  forallb P (sorted_items l) = forallb P l.
Proof.
  induction l as [ | x l IH]; simpl; [reflexivity | ].
  now rewrite insert_item_values, IH.
Qed.

Lemma for_each_done {A} (l : list A) (body : A -> M unit) (P : A -> bool) :
  (forall x w, P x = true -> fst (body x w) = Done tt) ->
  forallb P l = true ->
  forall w, fst (for_each l body w) = Done tt.
Proof.
  intros Hbody. induction l as [ | x l IH]; simpl; intros H w; [reflexivity | ].
  apply andb_true_iff in H as [Hx Hl].
  unfold bind. specialize (Hbody x w Hx).
  destruct (body x w) as [[[] | e | ] w1]; try discriminate Hbody.
  now apply IH.
Qed.

Lemma print_listed_forward_done (fwd : pyval) (w : world) :
  match fwd with PDict _ => true | _ => false end = true ->
  fst (print_listed_forward fwd w) = Done tt.
Proof.
  destruct fwd as [ | | | | | fd]; try discriminate. intros _.
  unfold print_listed_forward.
  do 4 step.
  now destruct (py_eq _ _).
Qed.

Lemma fst_done {A} (m : M A) (w : world) (a : A) :
  fst (m w) = Done a -> m w = (Done a, snd (m w)).
Proof. destruct (m w) as [r w']. simpl. now intros ->. Qed.

Lemma list_profile_done (strftime_minutes : string -> option string)
    (name : string) (prof : pyval) (w : world) :
  listable_profile prof = true ->
  fst (list_profile strftime_minutes name prof w) = Done tt.
Proof.
  destruct prof as [ | | | | | d]; try discriminate.
  simpl. intros H.
  apply andb_true_iff in H as [H Hfws].
  apply andb_true_iff in H as [H Hkey].
  apply andb_true_iff in H as [Hu Hh].
  unfold dict_mem in Hu, Hh.
  destruct (dict_get d "user") as [u | ] eqn:Eu; [ | discriminate].
  destruct (dict_get d "host") as [h | ] eqn:Eh; [ | discriminate].
  unfold list_profile.
  eapply bind_done_fst; [apply lift_ok; simpl; rewrite Eu; reflexivity | ].
  eapply bind_done_fst; [apply lift_ok; simpl; rewrite Eh; reflexivity | ].
  do 6 step.
  assert (Hauth : exists auth,
             (if negb (py_eq match dict_get d "key" with
                             | Some v => v | None => PStr "password" end
                         (PStr "password"))
              then py_add_str "Key: " match dict_get d "key" with
                                      | Some v => v | None => PStr "password" end
              else Ok "Password") = Ok auth).
  { destruct (dict_get d "key") as [[ | | | k | | ] | ]; try discriminate Hkey;
      destruct (negb (py_eq _ _)); simpl; eauto. }
  destruct Hauth as [auth Hauth].
  eapply bind_done_fst; [apply lift_ok; exact Hauth | ].
  step.
  assert (Hshow : forall w0,
             fst ((if py_truthy match dict_get d "forwards" with
                                | Some v => v | None => PList [] end
                   then
                     bind (print "    Forwards:") (fun _ =>
                     bind (lift (py_iter match dict_get d "forwards" with
                                         | Some v => v | None => PList [] end))
                       (fun fwds => for_each fwds print_listed_forward))
                   else ret tt) w0) = Done tt).
  { intros w0.
    destruct (dict_get d "forwards") as [[ | | | | l | ] | ];
      try discriminate Hfws; [ | reflexivity].
    destruct l as [ | fwd l]; [reflexivity | ].
    cbn [py_truthy]. do 2 step.
    eapply for_each_done; [ | exact Hfws].
    intros x w1 Hx. now apply print_listed_forward_done. }
  eapply bind_done_fst; [apply fst_done; apply Hshow | ].
  reflexivity.
Qed.

(** X23: [list_profiles] shows every store whose profiles hold a user and
    a host, a key that is a string when there is one, and forwards that
    are dicts.  A forward needs no ports to be listed (the builder and
    [connect] raise [KeyError] on such a forward), and [last_used] may
    hold anything.  The listing returns without raising and only prints. *)
Theorem list_profiles_shows_listable_store
    (strftime_minutes : string -> option string) (w : world) (d : pydict) :
  load_profiles w = (Done (PDict d), w) ->
  forallb (fun kv => listable_profile (snd kv)) d = true ->
  exists w',
    list_profiles strftime_minutes w = (Done tt, w')
    /\ same_but_console w w'.
Proof.
  intros Hload Hd.
  exists (snd (list_profiles strftime_minutes w)).
  split; [ | apply list_profiles_only_prints].
  apply fst_done. unfold list_profiles.
  eapply bind_done_fst; [exact Hload | ].
  destruct d as [ | kv d]; [reflexivity | ].
  cbn [py_truthy negb].
  do 3 step.
  eapply for_each_done;
    [ | rewrite sorted_items_values; exact Hd].
  intros item w0 Hitem. now apply list_profile_done.
Qed.

Lemma list_profiles_shows_listable_store_witness :
  let d := [("bad", Sample.broken_profile); ("s1", Sample.plain_profile)] in
  let w := Sample.world_with (PDict d) in
  load_profiles w = (Done (PDict d), w)
  /\ forallb (fun kv => listable_profile (snd kv)) d = true
  /\ exists w',
       list_profiles (fun _ => None) w = (Done tt, w')
       /\ same_but_console w w'.
Proof.
  intros d w.
  assert (H : load_profiles w = (Done (PDict d), w)) by (vm_compute; reflexivity).
  split; [exact H | split; [reflexivity | ] ].
  exact (list_profiles_shows_listable_store (fun _ => None) w d H eq_refl).
Defined.

(** ** An invariant of the profile store *)

Lemma load_profiles_same_file (w w' : world) (v : pyval) :
  load_profiles w = (Done v, w) ->
  same_profiles_file w w' ->
  load_profiles w' = (Done v, w').
Proof.
  unfold load_profiles, same_profiles_file. intros H ->.
  destruct (profiles_file w) as [text | ]; [ | now injection H as <-].
  destruct (json_loads text); try discriminate H; now injection H as <-.
Qed.

Lemma usable_world_same_file (w w' : world) :
  usable_world w -> same_profiles_file w w' -> usable_world w'.
Proof.
  intros (d & Hload & Hd) Hsame. exists d. split; [ | exact Hd].
  exact (load_profiles_same_file w w' _ Hload Hsame).
Qed.

Lemma same_but_console_same_file (w w' : world) :
  same_but_console w w' -> same_profiles_file w w'.
Proof. now intros (_ & H & _). Qed.

Lemma usable_world_written (w : world) (d : pydict) :
  profiles_file w = Some (json_dumps (PDict d)) ->
  well_keyed (PDict d) = true ->
  forallb (fun kv => usable_profile (snd kv)) d = true ->
  usable_world w.
Proof.
  intros Hfile Hwk Hd. exists d. split; [ | exact Hd].
  now apply load_profiles_written.
Qed.

Lemma usable_profile_parts (p : pyval) :
  usable_profile p = true ->
  well_formed_profile p = true /\ listable_profile p = true.
Proof. unfold usable_profile. intros H. now apply andb_true_iff in H. Qed.

Lemma usable_profile_reads_four_fields (d d' : pydict) :
  (forall f, In f ["user"; "host"; "key"; "forwards"] ->
             dict_get d' f = dict_get d f) ->
  usable_profile (PDict d') = usable_profile (PDict d).
Proof.
  intros H. unfold usable_profile. simpl. unfold dict_mem.
  rewrite (H "user"), (H "host"), (H "key"), (H "forwards") by (simpl; tauto).
  reflexivity.
Qed.

Lemma usable_profile_stamped (pd : pydict) (v : pyval) :
  usable_profile (PDict pd) = true ->
  usable_profile (PDict (dict_set pd "last_used" v)) = true.
Proof.
  intros H. rewrite <- H. apply usable_profile_reads_four_fields.
  intros f Hf. apply dict_get_set_other.
  simpl in Hf. intuition (subst; discriminate).
Qed.

Lemma usable_profile_record (host user : string) (port : Z) (created : string)
    (key : option string) :
  usable_profile (profile_record host user port created key None) = true.
Proof.
  unfold profile_record.
  destruct key as [k | ]; [destruct (String.eqb k "") | ]; reflexivity.
Qed.

Lemma usable_profile_extended (pd : pydict) (forward_type : string)
    (local_port remote_port : Z) (remote_host : string) :
  usable_profile (PDict pd) = true ->
  usable_profile
    (PDict (dict_set pd "forwards"
              (PList (profile_forwards (PDict pd)
                      ++ [forward_record forward_type local_port remote_port
                            remote_host])%list))) = true.
Proof.
  intros H. destruct (usable_profile_parts _ H) as [Hwf Hl].
  destruct (forward_record_option forward_type local_port remote_port remote_host)
    as [Hfwd _].
  destruct (extended_profile_segments
              {| expand_tilde := fun s => s; path_exists := fun _ => false |}
              pd _ Hwf Hfwd) as (Hwf' & _).
  unfold usable_profile. rewrite Hwf'. simpl.
  simpl in Hl. unfold dict_mem in *.
  rewrite dict_get_set_same.
  rewrite !dict_get_set_other by discriminate.
  apply andb_true_iff in Hl as [Hl Hfws]. rewrite Hl. simpl.
  rewrite forallb_snoc.
  unfold profile_forwards, field_or. simpl.
  destruct (dict_get pd "forwards") as [[ | | | | l | ] | ];
    try discriminate Hfws; [ | reflexivity].
  now rewrite Hfws.
Qed.

Lemma snd_bind_ret {A B} (m : M A) (b : B) (w : world) :
  snd (bind m (fun _ => ret b) w) = snd (m w).
Proof. unfold bind. now destruct (m w) as [[a | e | ] w1]. Qed.

Lemma add_profile_keeps_usable (os : machine) (name host user : string)
    (port : Z) (key : option string) (w : world) :
  usable_world w ->
  usable_world (snd (add_profile os name host user port key None w)).
Proof.
  intros (d & Hload & Hd).
  destruct (add_profile_written os name host user port key None w d Hload eq_refl)
    as (w' & Hrun & Hload' & _).
  rewrite Hrun. simpl. eexists. split; [exact Hload' | ].
  apply dict_set_values; [exact Hd | apply usable_profile_record].
Qed.

Lemma delete_profile_keeps_usable (name : string) (w : world) :
  usable_world w -> usable_world (snd (delete_profile name w)).
Proof.
  intros (d & Hload & Hd).
  destruct (dict_mem d name) eqn:Hmem.
  - destruct (delete_profile_present name w d Hload Hmem)
      as (w' & Hrun & Hload' & _).
    rewrite Hrun. simpl. eexists. split; [exact Hload' | ].
    now apply dict_del_values.
  - destruct (delete_profile_absent name w d Hload Hmem) as (w' & Hrun & Hsame).
    rewrite Hrun. simpl.
    apply (usable_world_same_file w); [now exists d | ].
    now apply same_but_console_same_file.
Qed.

Lemma add_forward_keeps_usable (name : string) (local_port remote_port : Z)
    (remote_host forward_type : string) (w : world) :
  usable_world w ->
  usable_world
    (snd (add_forward name local_port remote_port remote_host forward_type w)).
Proof.
  intros (d & Hload & Hd).
  destruct (dict_get d name) as [p | ] eqn:Hget.
  - pose proof (dict_get_values usable_profile d name p Hd Hget) as Hp.
    destruct (usable_profile_parts _ Hp) as [Hwf _].
    destruct (well_formed_profile_appendable p Hwf) as (pd & -> & Hshape).
    destruct (add_forward_written name local_port remote_port remote_host
                forward_type w d pd Hload Hget Hshape) as (w' & Hrun & Hload').
    rewrite Hrun. simpl. eexists. split; [exact Hload' | ].
    apply dict_set_values; [exact Hd | ].
    now apply usable_profile_extended.
  - assert (Hrun : add_forward name local_port remote_port remote_host
                     forward_type w
                   = (Done false,
                      snd (print ("[X] Profile '" ++ name ++ "' not found.") w))).
    { unfold add_forward.
      eapply bind_done; [exact Hload | ].
      step. unfold dict_mem. rewrite Hget. reflexivity. }
    rewrite Hrun.
    apply (usable_world_same_file w); [now exists d | reflexivity].
Qed.

Lemma connect_keeps_usable (os : machine) (name : string) (background : bool)
    (w : world) :
  usable_world w -> usable_world (snd (connect os name background w)).
Proof.
  intros (d & Hload & Hd).
  destruct (load_profiles_same_world _ _ _ Hload) as [_ Hwk].
  destruct (dict_get d name) as [p | ] eqn:Hget.
  - pose proof (dict_get_values usable_profile d name p Hd Hget) as Hp.
    destruct (usable_profile_parts _ Hp) as [Hwf _].
    destruct (well_formed_profile_appendable p Hwf) as (pd & -> & _).
    destruct (connect_reaches_launch os name w d pd Hload Hget Hwf)
      as (cmd & w1 & _ & Hrun & _ & Hpf & _).
    destruct (stamped_profile_well_keyed d pd name
                (isoformat_now os (clock_reads w)) Hwk Hget) as [_ Hwk'].
    assert (H1 : usable_world w1).
    { apply (usable_world_written w1 _ Hpf Hwk').
      apply dict_set_values; [exact Hd | now apply usable_profile_stamped]. }
    rewrite (Hrun background).
    apply (usable_world_same_file w1); [exact H1 | ].
    assert (Hrefl : forall w0, same_profiles_file w0 w0) by reflexivity.
    assert (Hprint : forall line w0, same_profiles_file w0 (snd (print line w0)))
      by reflexivity.
    destruct background.
    + assert (H : preserves same_profiles_file
                    (bind (match background_spawn os cmd with
                           | Spawned => ret tt
                           | PopenRaised e => lift (Raise e)
                           end) (fun _ =>
                     bind (print "[OK] Connection started in background") (fun _ =>
                     bind load_active (fun active =>
                     bind (now_isoformat os) (fun started =>
                     bind (lift (py_setitem active name
                                   (PDict [("started", PStr started);
                                           ("profile",
                                            PDict (dict_set pd "last_used"
                                                     (PStr (isoformat_now os
                                                              (clock_reads w)))))])))
                       (fun active =>
                     bind (save_active active) (fun _ => ret true)))))))).
      { repeat first
          [ apply preserves_ret; exact Hrefl
          | apply preserves_lift; exact Hrefl
          | apply preserves_print; exact Hprint
          | apply preserves_load_active; exact Hrefl
          | (intros w0; reflexivity)
          | apply preserves_bind; [exact same_profiles_file_trans | | intros ?] ].
        destruct (background_spawn os cmd);
          [apply preserves_ret | apply preserves_lift]; exact Hrefl. }
      apply H.
    + destruct (subprocess_run os cmd); reflexivity.
  - assert (Hmem : dict_mem d name = false) by (unfold dict_mem; now rewrite Hget).
    rewrite (connect_not_found os name background w d Hload Hmem).
    apply (usable_world_same_file w); [now exists d | reflexivity].
Qed.

(** X24: the commands keep the profile store usable.  When the store
    loads as a mapping of profiles that the builder accepts and the
    listing can show, it still does after [main] has run any command,
    however the command ends: with status 0 or 1, or stopped by an
    exception that [main] reports. *)
Theorem main_keeps_store_usable (os : machine)
    (strftime_minutes : string -> option string)
    (help_text : string) (describe : exn -> string)
    (args : option command) (w : world) :
  usable_world w ->
  usable_world (snd (main os strftime_minutes help_text describe args w)).
Proof.
  intros Hw.
  destruct args as [c | ];
    [ | apply (usable_world_same_file w); [exact Hw | reflexivity] ].
  assert (Hd : usable_world (snd (dispatch os strftime_minutes c w))).
  { destruct c; unfold dispatch.
    - destruct (negb (str_contains "@" connection));
        [apply (usable_world_same_file w); [exact Hw | reflexivity] | ].
      destruct (split_once "@" connection) as [[user host] | ]; [ | exact Hw].
      rewrite snd_bind_ret. now apply add_profile_keeps_usable.
    - rewrite snd_bind_ret.
      apply (usable_world_same_file w); [exact Hw | ].
      apply same_but_console_same_file. apply list_profiles_only_prints.
    - rewrite snd_bind_ret. now apply delete_profile_keeps_usable.
    - rewrite snd_bind_ret. now apply add_forward_keeps_usable.
    - rewrite snd_bind_ret. now apply connect_keeps_usable.
    - rewrite snd_bind_ret.
      apply (usable_world_same_file w); [exact Hw | ].
      apply same_but_console_same_file. apply show_active_only_prints. }
  unfold main.
  destruct (dispatch os strftime_minutes c w) as [[status | e | ] w1];
    simpl in *; try exact Hd.
  apply (usable_world_same_file w1); [exact Hd | reflexivity].
Qed.

Lemma main_keeps_store_usable_witness :
  let w := Sample.world_with Sample.two_profiles in
  usable_world w
  /\ usable_world
       (snd (main Sample.machine_without_ssh (fun _ => None) "usage"
               (fun _ => "") (Some (CmdConnect "web" true)) w)).
Proof.
  intros w.
  assert (H : usable_world w).
  { exists [("web", Sample.busy_profile); ("s1", Sample.plain_profile)].
    split; [vm_compute; reflexivity | reflexivity]. }
  split; [exact H | ].
  exact (main_keeps_store_usable Sample.machine_without_ssh (fun _ => None)
           "usage" (fun _ => "") (Some (CmdConnect "web" true)) w H).
Defined.

(** ** Showing the active connections *)

Lemma print_active_forward_done (fwd : pyval) (w : world) :
  well_formed_forward fwd = true ->
  fst (print_active_forward fwd w) = Done tt.
Proof.
  destruct fwd as [ | | | | | fd]; simpl; try discriminate.
  unfold dict_mem. intros H.
  destruct (dict_get fd "local_port") as [lp | ] eqn:Hl; [ | discriminate].
  destruct (dict_get fd "remote_port") as [rp | ] eqn:Hr; [ | discriminate].
  unfold print_active_forward.
  step.
  eapply bind_done_fst; [apply lift_ok; simpl; rewrite Hl; reflexivity | ].
  eapply bind_done_fst; [apply lift_ok; simpl; rewrite Hr; reflexivity | ].
  step.
  now destruct (py_eq _ _).
Qed.

Lemma show_connection_done (strftime_minutes : string -> option string)
    (name : string) (info : pyval) (w : world) :
  showable_connection strftime_minutes info = true ->
  fst (show_connection strftime_minutes name info w) = Done tt.
Proof.
  destruct info as [ | | | | | entry]; try discriminate.
  simpl.
  destruct (dict_get entry "started") as [[ | | | text | | ] | ] eqn:Es;
    try discriminate.
  destruct (dict_get entry "profile") as [profile | ] eqn:Ep; [ | discriminate].
  destruct (strftime_minutes text) as [minutes | ] eqn:Et; [ | discriminate].
  intros Hp.
  pose proof (profile_forwards_well_formed _ Hp) as Hfw.
  destruct profile as [ | | | | | pd]; try discriminate Hp.
  simpl in Hp.
  apply andb_true_iff in Hp as [Hp Hfws].
  apply andb_true_iff in Hp as [Hp _].
  apply andb_true_iff in Hp as [Hu Hh].
  unfold dict_mem in Hu, Hh.
  destruct (dict_get pd "user") as [u | ] eqn:Eu; [ | discriminate].
  destruct (dict_get pd "host") as [h | ] eqn:Eh; [ | discriminate].
  unfold show_connection.
  eapply bind_done_fst; [apply lift_ok; simpl; rewrite Es; reflexivity | ].
  cbv beta iota. rewrite Et. step.
  eapply bind_done_fst; [apply lift_ok; simpl; rewrite Ep; reflexivity | ].
  step.
  eapply bind_done_fst; [apply lift_ok; simpl; rewrite Eu; reflexivity | ].
  eapply bind_done_fst; [apply lift_ok; simpl; rewrite Eh; reflexivity | ].
  do 4 step.
  assert (Hshow : forall w0,
             fst ((if py_truthy match dict_get pd "forwards" with
                                | Some v => v | None => PList [] end
                   then
                     bind (lift (py_iter match dict_get pd "forwards" with
                                         | Some v => v | None => PList [] end))
                       (fun fwds => for_each fwds print_active_forward)
                   else ret tt) w0) = Done tt).
  { intros w0.
    unfold profile_forwards, field_or in Hfw. simpl in Hfw.
    destruct (dict_get pd "forwards") as [[ | | | | l | ] | ];
      try discriminate Hfws; [ | reflexivity].
    destruct l as [ | fwd l]; [reflexivity | ].
    cbn [py_truthy]. step.
    eapply for_each_done; [ | exact Hfw].
    intros x w1 Hx. now apply print_active_forward_done. }
  eapply bind_done_fst; [apply fst_done; apply Hshow | ].
  reflexivity.
Qed.

Lemma well_formed_profile_stamped (pd : pydict) (v : pyval) :
  well_formed_profile (PDict pd) = true ->
  well_formed_profile (PDict (dict_set pd "last_used" v)) = true.
Proof.
  intros H. rewrite <- H. simpl. unfold dict_mem.
  now rewrite !dict_get_set_other by discriminate.
Qed.

Lemma dict_set_not_empty (d : pydict) (k : string) (v : pyval) :
  dict_set d k v <> [].
Proof.
  destruct d as [ | [k0 v0] d]; simpl; [discriminate | ].
  destruct (String.eqb k k0); discriminate.
Qed.

(** X25: what a background [connect] records can be shown.  When every
    entry of the active-connections store holds a date and a profile
    that the builder accepts, and the time read after the spawn is a
    date, the store is still so after a background [connect], and
    [show_active] then lists it without raising and only prints. *)
Theorem show_active_after_connect (os : machine)
    (strftime_minutes : string -> option string) (name : string) (w : world)
    (d a : pydict) (p : pyval) (cmd : list string) :
  load_profiles w = (Done (PDict d), w) ->
  load_active w = (Done (PDict a), w) ->
  forallb (fun kv => showable_connection strftime_minutes (snd kv)) a = true ->
  dict_get d name = Some p ->
  well_formed_profile p = true ->
  build_ssh_command (files os) p = Ok cmd ->
  background_spawn os cmd = Spawned ->
  strftime_minutes (isoformat_now os (S (clock_reads w))) <> None ->
  exists w1 a1 w2,
    connect os name true w = (Done true, w1)
    /\ load_active w1 = (Done (PDict a1), w1)
    /\ dict_mem a1 name = true
    /\ forallb (fun kv => showable_connection strftime_minutes (snd kv)) a1 = true
    /\ show_active strftime_minutes w1 = (Done tt, w2)
    /\ same_but_console w1 w2.
Proof.
  intros Hload Hactive Ha Hget Hp Hcmd Hspawn Hdate.
  destruct (well_formed_profile_appendable p Hp) as (pd & -> & _).
  destruct (connect_background_spawned os name w d a pd cmd Hload Hactive Hget
              Hp Hcmd Hspawn) as (w1 & Hrun & _ & Hactive1 & _).
  set (entry := PDict [("started", PStr (isoformat_now os (S (clock_reads w))));
                       ("profile",
                        PDict (dict_set pd "last_used"
                                 (PStr (isoformat_now os (clock_reads w)))))])
    in *.
  assert (Hentry : showable_connection strftime_minutes entry = true).
  { subst entry. simpl.
    destruct (strftime_minutes (isoformat_now os (S (clock_reads w))));
      [ | now contradiction Hdate].
    now apply well_formed_profile_stamped. }
  assert (Ha1 : forallb (fun kv => showable_connection strftime_minutes (snd kv))
                  (dict_set a name entry) = true)
    by (apply dict_set_values; [exact Ha | exact Hentry]).
  exists w1, (dict_set a name entry), (snd (show_active strftime_minutes w1)).
  split; [exact Hrun | split; [exact Hactive1 | ] ].
  split; [apply dict_mem_set_same | ].
  split; [exact Ha1 | ].
  split; [ | apply show_active_only_prints].
  apply fst_done. unfold show_active.
  eapply bind_done_fst; [exact Hactive1 | ].
  destruct (dict_set a name entry) as [ | kv a1] eqn:E;
    [now apply dict_set_not_empty in E | ].
  cbn [py_truthy negb].
  do 3 step.
  eapply for_each_done; [ | exact Ha1].
  intros item w0 Hitem. now apply show_connection_done.
Qed.

Lemma show_active_after_connect_witness :
  let w := Sample.world_with Sample.two_profiles in
  let minutes := fun text : string => Some (substring 0 16 text) in
  load_profiles w = (Done Sample.two_profiles, w)
  /\ load_active w = (Done (PDict []), w)
  /\ forallb (fun kv : string * pyval => showable_connection minutes (snd kv)) []
     = true
  /\ dict_get [("web", Sample.busy_profile); ("s1", Sample.plain_profile)] "s1"
     = Some Sample.plain_profile
  /\ well_formed_profile Sample.plain_profile = true
  /\ build_ssh_command (files (Sample.machine_exiting 0)) Sample.plain_profile
     = Ok ["ssh"; "bob@example.com"]
  /\ background_spawn (Sample.machine_exiting 0) ["ssh"; "bob@example.com"]
     = Spawned
  /\ minutes (isoformat_now (Sample.machine_exiting 0) (S (clock_reads w)))
     <> None
  /\ exists w1 a1 w2,
       connect (Sample.machine_exiting 0) "s1" true w = (Done true, w1)
       /\ load_active w1 = (Done (PDict a1), w1)
       /\ dict_mem a1 "s1" = true
       /\ forallb (fun kv => showable_connection minutes (snd kv)) a1 = true
       /\ show_active minutes w1 = (Done tt, w2)
       /\ same_but_console w1 w2.
Proof.
  intros w minutes.
  assert (H : load_profiles w = (Done Sample.two_profiles, w))
    by (vm_compute; reflexivity).
  assert (Hdate : minutes (isoformat_now (Sample.machine_exiting 0)
                             (S (clock_reads w))) <> None) by discriminate.
  split; [exact H | ].
  split; [reflexivity | split; [reflexivity | split; [reflexivity | ] ] ].
  split; [reflexivity | split; [reflexivity | split; [reflexivity | ] ] ].
  split; [exact Hdate | ].
  exact (show_active_after_connect (Sample.machine_exiting 0) minutes "s1" w _ []
           Sample.plain_profile ["ssh"; "bob@example.com"]
           H eq_refl eq_refl eq_refl eq_refl eq_refl eq_refl Hdate).
Defined.

(** ** Commands, one after the other *)

(** X26: through [main], the flag [--remote] decides the flag pair of the
    command: [forward name L R] on a profile that the builder accepts
    puts [-L L:host:R] just before the destination of the built command,
    and with [--remote] it puts [-R R:host:L] there; the exit status
    is 0. *)
Theorem main_forward_extends_command (os : machine)
    (strftime_minutes : string -> option string)
    (help_text : string) (describe : exn -> string) (env : os_env)
    (name : string) (local_port remote_port : Z) (host : string) (remote : bool)
    (w : world) (d : pydict) (p : pyval) :
  load_profiles w = (Done (PDict d), w) ->
  dict_get d name = Some p ->
  well_formed_profile p = true ->
  exists w' d' p' body,
    main os strftime_minutes help_text describe
      (Some (CmdForward name local_port remote_port host remote)) w
    = (Done 0%Z, w')
    /\ load_profiles w' = (Done (PDict d'), w')
    /\ dict_get d' name = Some p'
    /\ build_ssh_command env p = Ok (body ++ [destination p])%list
    /\ build_ssh_command env p'
       = Ok (body
             ++ (if remote
                 then ["-R"; (str_of_Z remote_port ++ ":" ++ host ++ ":"
                              ++ str_of_Z local_port)%string]
                 else ["-L"; (str_of_Z local_port ++ ":" ++ host ++ ":"
                              ++ str_of_Z remote_port)%string])
             ++ [destination p])%list.
Proof.
  intros Hload Hget Hp.
  destruct (well_formed_profile_appendable p Hp) as (pd & -> & _).
  destruct (add_forward_command env name local_port remote_port host
              (if remote then "remote" else "local") w d pd Hload Hget Hp)
    as (w' & d' & p' & Hrun & Hload' & Hget' & Hb & Hb').
  destruct (forward_record_option (if remote then "remote" else "local")
              local_port remote_port host) as [_ Hopt].
  exists w', d', p'. eexists.
  split; [ | split; [exact Hload' | split; [exact Hget' | split; [exact Hb | ] ] ] ].
  - apply main_of_dispatch. unfold dispatch.
    eapply bind_done; [exact Hrun | reflexivity].
  - rewrite Hb', Hopt. now destruct remote.
Qed.

Lemma main_forward_extends_command_witness :
  let w := Sample.world_with Sample.two_profiles in
  load_profiles w = (Done Sample.two_profiles, w)
  /\ dict_get [("web", Sample.busy_profile); ("s1", Sample.plain_profile)] "s1"
     = Some Sample.plain_profile
  /\ well_formed_profile Sample.plain_profile = true
  /\ exists w' d' p' body,
       main (Sample.machine_exiting 0) (fun _ => None) "usage" (fun _ => "")
         (Some (CmdForward "s1" 3000 3001 "localhost" true)) w
       = (Done 0%Z, w')
       /\ load_profiles w' = (Done (PDict d'), w')
       /\ dict_get d' "s1" = Some p'
       /\ build_ssh_command Sample.bare_env Sample.plain_profile
          = Ok (body ++ ["bob@example.com"])%list
       /\ build_ssh_command Sample.bare_env p'
          = Ok (body ++ ["-R"; "3001:localhost:3000"] ++ ["bob@example.com"])%list.
Proof.
  intros w.
  assert (H : load_profiles w = (Done Sample.two_profiles, w))
    by (vm_compute; reflexivity).
  split; [exact H | split; [reflexivity | split; [reflexivity | ] ] ].
  exact (main_forward_extends_command (Sample.machine_exiting 0) (fun _ => None)
           "usage" (fun _ => "") Sample.bare_env "s1" 3000 3001 "localhost" true
           w _ Sample.plain_profile H eq_refl eq_refl).
Defined.

(** X27: a deleted profile is gone for the other operations: after
    [delete_profile] has removed it, [connect] and [add_forward] on its
    name answer false.  The active-connections file is not touched by the
    deletion, so an entry recorded under the name stays. *)
Theorem deleted_profile_is_gone (os : machine) (name : string)
    (background : bool) (local_port remote_port : Z)
    (remote_host forward_type : string) (w : world) (d : pydict) :
  load_profiles w = (Done (PDict d), w) ->
  dict_mem d name = true ->
  exists w1,
    delete_profile name w = (Done true, w1)
    /\ fst (connect os name background w1) = Done false
    /\ fst (add_forward name local_port remote_port remote_host forward_type w1)
       = Done false
    /\ active_file w1 = active_file w.
Proof.
  intros Hload Hmem.
  destruct (delete_profile_present name w d Hload Hmem)
    as (w1 & Hrun & Hload1 & Hactive & _).
  destruct (load_profiles_same_world _ _ _ Hload) as [_ Hwk].
  simpl in Hwk. apply andb_true_iff in Hwk as [Hkeys _].
  pose proof (dict_mem_del_same d name Hkeys) as Hgone.
  exists w1. split; [exact Hrun | ].
  split; [now rewrite (connect_not_found os name background w1 _ Hload1 Hgone) | ].
  split; [ | exact Hactive].
  unfold add_forward.
  eapply bind_done_fst; [exact Hload1 | ].
  step. rewrite Hgone. reflexivity.
Qed.

Lemma deleted_profile_is_gone_witness :
  let w := Sample.world_with Sample.two_profiles in
  load_profiles w = (Done Sample.two_profiles, w)
  /\ dict_mem [("web", Sample.busy_profile); ("s1", Sample.plain_profile)] "web"
     = true
  /\ exists w1,
       delete_profile "web" w = (Done true, w1)
       /\ fst (connect (Sample.machine_exiting 0) "web" true w1) = Done false
       /\ fst (add_forward "web" 8080 80 "localhost" "local" w1) = Done false
       /\ active_file w1 = active_file w.
Proof.
  intros w.
  assert (H : load_profiles w = (Done Sample.two_profiles, w))
    by (vm_compute; reflexivity).
  split; [exact H | split; [reflexivity | ] ].
  exact (deleted_profile_is_gone (Sample.machine_exiting 0) "web" true 8080 80
           "localhost" "local" w _ H eq_refl).
Defined.

(** ** A forward without its ports *)



